(** * send-connect-ai: the topic lifecycle and the query pipeline

    A shallow embedding of the two Lambda handlers
    [amplify/functions/upload-to-llama-cloud/handler.ts] and
    [amplify/functions/query-topic/handler.ts], and of the Topic creation of
    [src/_actions/topic-actions.ts], over an explicit model of what lies
    outside the repository: the DynamoDB Topic table, S3, the Llama Cloud
    HTTP endpoints, the Anthropic client, the clock and [process.env].

    Around them: the whole server action [saveTopicDocument] with the form
    schemas of [src/lib/form-schema.ts] and the file picker of the upload
    form; the diagnostic handler
    [amplify/functions/test-query-llama-cloud/handler.ts]; the group checks
    of [src/lib/amplify-utils.ts], [src/middleware.ts], the admin link and
    the admin page; the User record of [src/_actions/user-actions.ts]; and
    the password check of the sign-up form.

    Conventions.
    - A JavaScript string is a [string]; one character stands for one code
      unit, so [String.length] is [.length] and [substring] counts the same
      units as [String.prototype.substring]. The code units of the model are
      those below 256; a string that holds another one is outside it.
    - A JavaScript number is a binary64 [float].
    - [console.log] and [console.error] have no effect on a result and are
      left out.
    - A handler returns [JSON.stringify(obj)]; the model returns [obj], the
      object handed to [JSON.stringify], as a [value]. *)

From Stdlib Require Import Floats ZArith String Ascii List Bool Lia.
From stdpp Require Import gmap strings list.
Import ListNotations.
Open Scope string_scope.
Set Warnings "-register-all,-abstract-large-number".

(* ===================================================================== *)
(** ** JavaScript values *)
(* ===================================================================== *)

Inductive value : Type :=
| VUndefined
| VNull
| VBool (b : bool)
| VNumber (n : float)
| VString (s : string)
| VArray (elems : list value)
| VObject (props : list (string * value)).

(** What [throw] carries. [error instanceof Error] holds of [JsError]. *)
Inductive thrown : Type :=
| JsError (message : string)
| NonError.

(** [new Error(msg)] and the engine's [TypeError]s are both [Error]s. *)
Definition Error (msg : string) : thrown := JsError msg.
Definition TypeError (msg : string) : thrown := JsError msg.

Inductive completion (A : Type) : Type :=
| Normal (a : A)
| Throw (e : thrown).
Arguments Normal {A} a.
Arguments Throw {A} e.

(** Truthiness of the values the handlers test. *)
Definition truthy_string (s : string) : bool :=
  match s with EmptyString => false | String _ _ => true end.

Definition truthy_opt_string (o : option string) : bool :=
  match o with Some s => truthy_string s | None => false end.

(** A number is falsy when it is [0], [-0] or [NaN]. *)
Definition truthy_number (n : float) : bool :=
  negb (PrimFloat.eqb n 0%float) && PrimFloat.eqb n n.

(** The number with the integer value [z], exact below [2^53] in absolute
    value. *)
Definition number_of_Z (z : Z) : float :=
  if (z <? 0)%Z then PrimFloat.opp (PrimFloat.of_uint63 (Uint63.of_Z (- z)))
  else PrimFloat.of_uint63 (Uint63.of_Z z).
Definition number_of_nat (n : nat) : float := number_of_Z (Z.of_nat n).

(** [`${x}`] for [x : string | undefined]. *)
Definition string_of_opt (o : option string) : string :=
  match o with Some s => s | None => "undefined" end.

(** Property lookup on an object literal, [VUndefined] when absent. *)
Fixpoint assoc (k : string) (props : list (string * value)) : value :=
  match props with
  | [] => VUndefined
  | (k', v) :: rest => if String.eqb k k' then v else assoc k rest
  end.

Definition get (k : string) (v : value) : value :=
  match v with
  | VObject props => assoc k props
  | _ => VUndefined
  end.

Definition has_key (k : string) (v : value) : bool :=
  match v with
  | VObject props => existsb (fun p => String.eqb k (fst p)) props
  | _ => false
  end.

(* ===================================================================== *)
(** ** String helpers of the runtime *)
(* ===================================================================== *)

Definition dquote : string := String (ascii_of_nat 34) EmptyString.
Definition nl : string := String (ascii_of_nat 10) EmptyString.

Definition is_lower_alnum (c : ascii) : bool :=
  let n := nat_of_ascii c in
  ((97 <=? n)%nat && (n <=? 122)%nat) || ((48 <=? n)%nat && (n <=? 57)%nat).

(** [String.prototype.toLowerCase] on the code units of the model: the
    letters [A]-[Z] and the capital letters U+00C0 to U+00DE of Latin-1
    (without U+00D7, the multiplication sign) move up by 32, every other unit
    below 256 stays. Above them [toLowerCase] can change the length of a
    string (U+0130) or reach [[a-z]] (U+212A); nothing below is stated of
    such strings. *)
Definition lower_char (c : ascii) : ascii :=
  let n := nat_of_ascii c in
  if ((65 <=? n)%nat && (n <=? 90)%nat)
     || ((192 <=? n)%nat && (n <=? 222)%nat && negb (n =? 215)%nat)
  then ascii_of_nat (n + 32) else c.

Fixpoint toLowerCase (s : string) : string :=
  match s with
  | EmptyString => EmptyString
  | String c rest => String (lower_char c) (toLowerCase rest)
  end.

(** [s.replace(/[^a-z0-9]+/g, '-')]: [in_run] says that the previous
    character already belonged to the run being replaced. *)
Fixpoint replace_non_alnum_runs (in_run : bool) (s : string) : string :=
  match s with
  | EmptyString => EmptyString
  | String c rest =>
      if is_lower_alnum c then String c (replace_non_alnum_runs false rest)
      else if in_run then replace_non_alnum_runs true rest
      else String "-" (replace_non_alnum_runs true rest)
  end.

(** [s.split('/').pop()]: what follows the last slash. *)
Fixpoint last_segment (acc : string) (s : string) : string :=
  match s with
  | EmptyString => acc
  | String c rest =>
      if Ascii.eqb c "/" then last_segment EmptyString rest
      else last_segment (acc +:+ String c EmptyString) rest
  end.

(** White space of [String.prototype.trim] among the model's code units. *)
Definition is_space (c : ascii) : bool :=
  let n := nat_of_ascii c in
  ((9 <=? n)%nat && (n <=? 13)%nat) || (n =? 32)%nat || (n =? 160)%nat.

Fixpoint trimStart (s : string) : string :=
  match s with
  | EmptyString => EmptyString
  | String c rest => if is_space c then trimStart rest else s
  end.

Fixpoint string_rev (acc s : string) : string :=
  match s with
  | EmptyString => acc
  | String c rest => string_rev (String c acc) rest
  end.

Definition trim (s : string) : string :=
  string_rev EmptyString (trimStart (string_rev EmptyString (trimStart s))).

(** [parts.join(sep)]. *)
Fixpoint join (sep : string) (parts : list string) : string :=
  match parts with
  | [] => EmptyString
  | [p] => p
  | p :: rest => p +:+ sep +:+ join sep rest
  end.

(** [arr.map((item, index) => f(item, index))], [i] the index of the head. *)
Fixpoint mapi_from {A B : Type} (i : nat) (f : A -> nat -> B) (l : list A) : list B :=
  match l with
  | [] => []
  | x :: rest => f x i :: mapi_from (S i) f rest
  end.

(** The same when the callback may throw: the first exception ends the map. *)
Fixpoint mapi_from_c {A B : Type} (i : nat) (f : A -> nat -> completion B)
    (l : list A) : completion (list B) :=
  match l with
  | [] => Normal []
  | x :: rest =>
      match f x i with
      | Throw e => Throw e
      | Normal y =>
          match mapi_from_c (S i) f rest with
          | Throw e => Throw e
          | Normal ys => Normal (y :: ys)
          end
      end
  end.

(* ===================================================================== *)
(** ** [Date.prototype.toISOString] *)
(* ===================================================================== *)

Local Open Scope Z_scope.

Definition digit_char (d : Z) : ascii := ascii_of_nat (48 + Z.to_nat (d mod 10)).

(** The [width] low decimal digits of [n], most significant first. *)
Fixpoint pad (width : nat) (n : Z) : string :=
  match width with
  | O => EmptyString
  | S w => pad w (n / 10) +:+ String (digit_char n) EmptyString
  end.

(** Year, month and day of the proleptic Gregorian calendar for a day number
    counted from 1970-01-01. *)
Definition civil_from_days (days : Z) : Z * Z * Z :=
  let z := days + 719468 in
  let era := z / 146097 in
  let doe := z - era * 146097 in
  let yoe := (doe - doe / 1460 + doe / 36524 - doe / 146096) / 365 in
  let y := yoe + era * 400 in
  let doy := doe - (365 * yoe + yoe / 4 - yoe / 100) in
  let mp := (5 * doy + 2) / 153 in
  let d := doy - (153 * mp + 2) / 5 + 1 in
  let m := if mp <? 10 then mp + 3 else mp - 9 in
  (if m <=? 2 then y + 1 else y, m, d).

Definition year_string (y : Z) : string :=
  if (0 <=? y) && (y <=? 9999) then pad 4 y
  else (if y <? 0 then "-" else "+") +:+ pad 6 (Z.abs y).

(** [new Date(ms).toISOString()], [ms] the time value in milliseconds, for
    a time value in the range of [Date] (years -271821 to 275760). *)
Definition toISOString (ms : Z) : string :=
  let days := ms / 86400000 in
  let rest := ms mod 86400000 in
  let '(y, m, d) := civil_from_days days in
  year_string y +:+ "-" +:+ pad 2 m +:+ "-" +:+ pad 2 d +:+ "T" +:+
  pad 2 (rest / 3600000) +:+ ":" +:+ pad 2 (rest / 60000 mod 60) +:+ ":" +:+
  pad 2 (rest / 1000 mod 60) +:+ "." +:+ pad 3 (rest mod 1000) +:+ "Z".

Local Close Scope Z_scope.

(* ===================================================================== *)
(** ** What the external services answer *)
(* ===================================================================== *)

(** A [fetch] response: [ok] is derived from the status as the Fetch
    standard has it; [body_text] is [await r.text()] and [body_json] is
    [await r.json()], which throws on a body that is not JSON. *)
Record Response (J : Type) : Type := {
  status : Z;
  body_text : completion string;
  body_json : completion J
}.
Arguments status {J} r.
Arguments body_text {J} r.
Arguments body_json {J} r.

Definition ok {J : Type} (r : Response J) : bool :=
  ((200 <=? status r) && (status r <=? 299))%Z.

(** [POST /pipelines] and [POST /files] answer [{ id, ... }]; the id is a
    string, as the handler declares [pipelineId: string | undefined]. *)
Record IdBody : Type := { id : string }.

(** The interfaces of [query-topic/handler.ts]. Fields that the handler
    guards with [?.] or [||] may be absent. *)
Inductive PageLabel : Type :=
| PageNumber (n : float)
| PageString (s : string).

Record NodeExtraInfo : Type := {
  page_label : option PageLabel;
  file_name : option string
}.

Record RetrievalNode : Type := {
  id_ : string;
  text : option string;
  extra_info : option NodeExtraInfo
}.

(** One element of [retrieval_nodes]: [Wrapped] is the declared
    [RetrievalResult] [{ node, score }]; [Flat] is the shape that
    [test-query-llama-cloud/handler.ts] reads, the node's fields and the
    score side by side with no [node] property. *)
Inductive RetrievalResult : Type :=
| Wrapped (n : RetrievalNode) (s : option float)
| Flat (n : RetrievalNode) (s : option float).

(** [item.node] and [item.score]. *)
Definition node (item : RetrievalResult) : option RetrievalNode :=
  match item with Wrapped n _ => Some n | Flat _ _ => None end.

Definition score (item : RetrievalResult) : option float :=
  match item with Wrapped _ s => s | Flat _ s => s end.

Record LlamaCloudRetrievalResponse : Type := {
  retrieval_nodes : option (list RetrievalResult)
}.

(** [GetObjectCommandOutput]: [Body] may be missing, and
    [Body.transformToByteArray()] may reject. *)
Record GetObjectOutput : Type := {
  Body : option (completion (list Byte.byte))
}.

(** The Anthropic SDK's message: a list of content blocks. *)
Inductive ContentBlock : Type :=
| TextBlock (t : string)
| OtherBlock (type : string).

Record Message : Type := { content : list ContentBlock }.

(* ===================================================================== *)
(** ** Requests *)
(* ===================================================================== *)

Record UpdateCommand : Type := {
  TableName : string;
  Key : string;
  (** [SET a = :x, b = :y] as the list [[(a, :x); (b, :y)]]. *)
  UpdateExpression : list (string * string);
  ExpressionAttributeValues : list (string * string)
}.

Record FormPart : Type := {
  part_name : string;
  part_blob : list Byte.byte;
  part_type : string;
  part_filename : string
}.

Inductive RequestBody : Type :=
| JsonBody (v : value)
| FormDataBody (parts : list FormPart).

Record Request : Type := {
  url : string;
  method : string;
  headers : list (string * string);
  body : RequestBody
}.

Record MessageCreateParams : Type := {
  model : string;
  max_tokens : Z;
  system : string;
  messages : list (string * string)
}.

(** The calls that leave the process, in the order they are made. *)
Inductive Call : Type :=
| CallUpdate (cmd : UpdateCommand)
| CallGet (tableName key : string)
| CallGetObject (bucket key : string)
| CallFetch (req : Request)
| CallMessagesCreate (params : MessageCreateParams).

(* ===================================================================== *)
(** ** The world of one run *)
(* ===================================================================== *)

(** An item of the Topic table maps attribute names to their (string)
    values; the table maps the [id] key to the item. *)
Abbreviation Item := (gmap string string).
Abbreviation Table := (gmap string (gmap string string)).

Record World : Type := {
  table : Table;
  ticks : nat;
  calls : list Call
}.

(** Everything a run depends on that the repository does not decide. A
    run calls S3, each Llama Cloud endpoint and the Anthropic client at most
    once, so the environment of a run holds one answer for each: either what
    the call returns or what it throws. A store write may be refused
    command by command. *)
Record Env : Type := {
  process_env : gmap string string;
  (** [topicTable.tableName] of [amplify/backend.ts]. *)
  topic_table_name : string;
  (** The time value of the [k]-th reading of the clock. *)
  clock : nat -> Z;
  (** The engine's [Number::toString]. *)
  Number_toString : float -> string;
  ddb_get_fault : option thrown;
  ddb_update_fault : UpdateCommand -> option thrown;
  s3_getObject : completion GetObjectOutput;
  llama_create_pipeline : completion (Response IdBody);
  llama_upload_file : completion (Response IdBody);
  llama_add_files : completion (Response unit);
  llama_retrieve : completion (Response LlamaCloudRetrievalResponse);
  anthropic_create : completion Message
}.

(* ===================================================================== *)
(** ** DynamoDB [UpdateItem] and [GetItem] *)
(* ===================================================================== *)

Fixpoint lookup_value (placeholder : string) (vals : list (string * string)) : option string :=
  match vals with
  | [] => None
  | (k, v) :: rest => if String.eqb placeholder k then Some v else lookup_value placeholder rest
  end.

(** The assignments of a [SET] expression with their placeholders resolved;
    [None] when a placeholder has no value. *)
Fixpoint resolve (expr vals : list (string * string)) : option (list (string * string)) :=
  match expr with
  | [] => Some []
  | (attr, placeholder) :: rest =>
      match lookup_value placeholder vals, resolve rest vals with
      | Some v, Some sets => Some ((attr, v) :: sets)
      | _, _ => None
      end
  end.

(** DynamoDB rejects a value that no expression uses. *)
Definition values_all_used (expr vals : list (string * string)) : bool :=
  forallb (fun kv => existsb (fun ap => String.eqb (fst kv) (snd ap)) expr) vals.

Definition set_attrs (sets : list (string * string)) (item : Item) : Item :=
  foldl (fun it av => <[fst av := snd av]> it) item sets.

(** [UpdateItem] creates the item when the key is new. *)
Definition UpdateItem (cmd : UpdateCommand) (t : Table) : completion Table :=
  if negb (values_all_used (UpdateExpression cmd) (ExpressionAttributeValues cmd))
  then Throw (JsError "ValidationException")
  else
    match resolve (UpdateExpression cmd) (ExpressionAttributeValues cmd) with
    | None => Throw (JsError "ValidationException")
    | Some sets =>
        let item := default {["id" := Key cmd]} (t !! Key cmd) in
        Normal (<[Key cmd := set_attrs sets item]> t)
    end.

(* ===================================================================== *)
(** ** The monad of a run: state, exceptions, [try]/[catch] *)
(* ===================================================================== *)

Definition M (S A : Type) : Type := S -> completion A * S.

Definition ret {S A : Type} (a : A) : M S A := fun s => (Normal a, s).

Definition throw {S A : Type} (e : thrown) : M S A := fun s => (Throw e, s).

Definition bind {S A B : Type} (m : M S A) (k : A -> M S B) : M S B :=
  fun s =>
    match m s with
    | (Normal a, s') => k a s'
    | (Throw e, s') => (Throw e, s')
    end.

Notation "x <- m ;; k" := (bind m (fun x => k))
  (at level 100, m at next level, right associativity).

(** [try { body } catch (error) { handler }]: the effects of [body] up to
    the [throw] stay. *)
Definition try_catch {S A : Type} (body : M S A) (handler : thrown -> M S A) : M S A :=
  fun s =>
    match body s with
    | (Normal a, s') => (Normal a, s')
    | (Throw e, s') => handler e s'
    end.

(** [await p] for a promise whose outcome the environment fixed. *)
Definition await {S A : Type} (c : completion A) : M S A := fun s => (c, s).

(** [if (cond) { body }]. *)
Definition when {S : Type} (cond : bool) (body : M S unit) : M S unit :=
  if cond then body else ret tt.

(** A block with one local [let] variable of type [L] next to the world. *)
Definition lift {L A : Type} (m : M World A) : M (World * L) A :=
  fun s => let '(r, w') := m (fst s) in (r, (w', snd s)).

Definition read_local {L : Type} : M (World * L) L := fun s => (Normal (snd s), s).

Definition assign_local {L : Type} (v : L) : M (World * L) unit :=
  fun s => (Normal tt, (fst s, v)).

Definition with_local {L A : Type} (init : L) (m : M (World * L) A) : M World A :=
  fun w => let '(r, s') := m (w, init) in (r, fst s').

(* ===================================================================== *)
(** ** The effects *)
(* ===================================================================== *)

Definition record_call (c : Call) (w : World) : World :=
  {| table := table w; ticks := ticks w; calls := (calls w ++ [c])%list |}.

Definition tick (w : World) : World :=
  {| table := table w; ticks := S (ticks w); calls := calls w |}.

(** [new Date()] and [Date.now()]: one reading of the clock. *)
Definition new_Date (env : Env) : M World Z :=
  fun w => (Normal (clock env (ticks w)), tick w).

(** [docClient.send(new UpdateCommand(cmd))]. *)
Definition docClient_send_UpdateCommand (env : Env) (cmd : UpdateCommand) : M World unit :=
  fun w =>
    let w1 := record_call (CallUpdate cmd) w in
    match ddb_update_fault env cmd with
    | Some e => (Throw e, w1)
    | None =>
        if negb (String.eqb (TableName cmd) (topic_table_name env))
        then (Throw (JsError "ResourceNotFoundException"), w1)
        else
          match UpdateItem cmd (table w1) with
          | Throw e => (Throw e, w1)
          | Normal t' =>
              (Normal tt, {| table := t'; ticks := ticks w1; calls := calls w1 |})
          end
    end.

(** [docClient.send(new GetCommand({ TableName, Key: { id } }))], giving
    [getResult.Item]. *)
Definition docClient_send_GetCommand (env : Env) (tableName key : string)
    : M World (option Item) :=
  fun w =>
    let w1 := record_call (CallGet tableName key) w in
    match ddb_get_fault env with
    | Some e => (Throw e, w1)
    | None =>
        if negb (String.eqb tableName (topic_table_name env))
        then (Throw (JsError "ResourceNotFoundException"), w1)
        else (Normal (table w1 !! key), w1)
    end.

(** [s3Client.send(new GetObjectCommand({ Bucket, Key }))]. *)
Definition s3Client_send_GetObjectCommand (env : Env) (bucket key : string)
    : M World GetObjectOutput :=
  fun w => (s3_getObject env, record_call (CallGetObject bucket key) w).

(** [fetch(url, init)] against the endpoint whose answer is [answer]. *)
Definition fetch {J : Type} (answer : completion (Response J)) (req : Request)
    : M World (Response J) :=
  fun w => (answer, record_call (CallFetch req) w).

(** [anthropic.messages.create(params)]. *)
Definition anthropic_messages_create (env : Env) (params : MessageCreateParams)
    : M World Message :=
  fun w => (anthropic_create env, record_call (CallMessagesCreate params) w).

(** [error instanceof Error ? error.message : 'Unknown error occurred']. *)
Definition error_message (error : thrown) : string :=
  match error with
  | JsError message => message
  | NonError => "Unknown error occurred"
  end.

(* ===================================================================== *)
(** ** [amplify/functions/upload-to-llama-cloud/handler.ts] *)
(* ===================================================================== *)

Module UploadToLlamaCloud.

Definition LLAMA_CLOUD_API_BASE : string := "https://api.cloud.llamaindex.ai/api/v1".

Record Arguments : Type := {
  topicId : string;
  s3Key : string;
  rawBucketName : string;
  topicTitle : string
}.

(** The state of the handler's [try]/[catch]: the world and
    [let pipelineId: string | undefined]. *)
Abbreviation St := (World * option string)%type.

Definition failure (error : string) : value :=
  VObject [("success", VBool false); ("error", VString error)].

(** The body of the [try]. *)
Definition try_block (env : Env) (args : Arguments)
    (tableName apiKey projectId : string) : M St value :=
  (* Step 1: Update Topic status to INDEXING *)
  updatedAt <- lift (new_Date env) ;;
  _ <- lift (docClient_send_UpdateCommand env
         {| TableName := tableName;
            Key := topicId args;
            UpdateExpression :=
              [("topicStatus", ":status"); ("updatedAt", ":updatedAt")];
            ExpressionAttributeValues :=
              [(":status", "INDEXING"); (":updatedAt", toISOString updatedAt)] |}) ;;
  (* Step 2: Download PDF from S3 *)
  getObjectResponse <-
    lift (s3Client_send_GetObjectCommand env (rawBucketName args) (s3Key args)) ;;
  match Body getObjectResponse with
  | None => throw (Error "Failed to download PDF from S3")
  | Some transformToByteArray =>
  pdfBuffer <- await transformToByteArray ;;
  (* Step 3: Create Llama Cloud pipeline for this topic *)
  now <- lift (new_Date env) ;;
  let pipelineName :=
    replace_non_alnum_runs false (toLowerCase (topicTitle args)) +:+ "-" +:+
    Number_toString env (number_of_Z now) in
  createPipelineResponse <-
    lift (fetch (llama_create_pipeline env)
      {| url := LLAMA_CLOUD_API_BASE +:+ "/pipelines";
         method := "POST";
         headers := [("Authorization", "Bearer " +:+ apiKey);
                     ("Content-Type", "application/json")];
         body := JsonBody (VObject
           [("name", VString pipelineName);
            ("transform_config",
             VObject [("mode", VString "auto"); ("config_name", VString "auto")])]) |}) ;;
  _ <- when (negb (ok createPipelineResponse))
         (errorText <- await (body_text createPipelineResponse) ;;
          throw (Error ("Failed to create pipeline: " +:+
                        Number_toString env (number_of_Z (status createPipelineResponse)) +:+
                        " - " +:+ errorText))) ;;
  pipelineData <- await (body_json createPipelineResponse) ;;
  _ <- assign_local (Some (id pipelineData)) ;;
  let pipelineId := id pipelineData in
  (* Step 4: Upload PDF to Llama Cloud *)
  let fileName :=
    let last := last_segment EmptyString (s3Key args) in
    if truthy_string last then last else "document.pdf" in
  uploadResponse <-
    lift (fetch (llama_upload_file env)
      {| url := LLAMA_CLOUD_API_BASE +:+ "/files?project_id=" +:+ projectId;
         method := "POST";
         headers := [("Authorization", "Bearer " +:+ apiKey);
                     ("accept", "application/json")];
         body := FormDataBody
           [{| part_name := "upload_file"; part_blob := pdfBuffer;
               part_type := "application/pdf"; part_filename := fileName |}] |}) ;;
  _ <- when (negb (ok uploadResponse))
         (errorText <- await (body_text uploadResponse) ;;
          throw (Error ("Failed to upload file: " +:+
                        Number_toString env (number_of_Z (status uploadResponse)) +:+
                        " - " +:+ errorText))) ;;
  uploadData <- await (body_json uploadResponse) ;;
  let fileId := id uploadData in
  (* Step 5: Add file to pipeline (triggers indexing) *)
  addFileResponse <-
    lift (fetch (llama_add_files env)
      {| url := LLAMA_CLOUD_API_BASE +:+ "/pipelines/" +:+ pipelineId +:+ "/files";
         method := "PUT";
         headers := [("Authorization", "Bearer " +:+ apiKey);
                     ("Content-Type", "application/json");
                     ("accept", "application/json")];
         body := JsonBody (VArray [VObject [("file_id", VString fileId)]]) |}) ;;
  _ <- when (negb (ok addFileResponse))
         (errorText <- await (body_text addFileResponse) ;;
          throw (Error ("Failed to add file to pipeline: " +:+
                        Number_toString env (number_of_Z (status addFileResponse)) +:+
                        " - " +:+ errorText))) ;;
  (* Step 6: Update Topic with pipeline_id and status READY *)
  indexedAt <- lift (new_Date env) ;;
  updatedAt' <- lift (new_Date env) ;;
  _ <- lift (docClient_send_UpdateCommand env
         {| TableName := tableName;
            Key := topicId args;
            UpdateExpression :=
              [("llamaCloudPipelineId", ":pipelineId");
               ("llamaCloudFileId", ":fileId");
               ("topicStatus", ":status");
               ("indexedAt", ":indexedAt");
               ("updatedAt", ":updatedAt")];
            ExpressionAttributeValues :=
              [(":pipelineId", pipelineId);
               (":fileId", fileId);
               (":status", "READY");
               (":indexedAt", toISOString indexedAt);
               (":updatedAt", toISOString updatedAt')] |}) ;;
  ret (VObject
         [("success", VBool true);
          ("message", VString "PDF uploaded and indexed successfully");
          ("pipelineId", VString pipelineId);
          ("fileId", VString fileId);
          ("pipelineName", VString pipelineName)])
  end.

(** The body of the [catch]: the FAILED write in its own [try], then the
    failure response. *)
Definition catch_block (env : Env) (args : Arguments) (tableName : string)
    (error : thrown) : M St value :=
  _ <- try_catch
         (pipelineId <- read_local ;;
          let updateExpression :=
            if truthy_opt_string pipelineId
            then [("topicStatus", ":status");
                  ("llamaCloudPipelineId", ":pipelineId");
                  ("updatedAt", ":updatedAt")]
            else [("topicStatus", ":status"); ("updatedAt", ":updatedAt")] in
          updatedAt <- lift (new_Date env) ;;
          let expressionValues :=
            [(":status", "FAILED"); (":updatedAt", toISOString updatedAt)] in
          let expressionValues :=
            if truthy_opt_string pipelineId
            then (expressionValues ++ [(":pipelineId", string_of_opt pipelineId)])%list
            else expressionValues in
          lift (docClient_send_UpdateCommand env
            {| TableName := tableName;
               Key := topicId args;
               UpdateExpression := updateExpression;
               ExpressionAttributeValues := expressionValues |}))
         (fun updateError => ret tt) ;;
  ret (failure (error_message error)).

Definition handler (env : Env) (args : Arguments) : M World value :=
  (* Verify environment variables *)
  let tableName := process_env env !! "TOPIC_TABLE_NAME" in
  let apiKey := process_env env !! "LLAMA_CLOUD_API_KEY" in
  let projectId := process_env env !! "LLAMA_CLOUD_PROJECT_ID" in
  if negb (truthy_opt_string tableName) || negb (truthy_opt_string apiKey)
     || negb (truthy_opt_string projectId)
  then ret (failure "Missing required environment variables")
  else
    (* each of the three is a non-empty string from here on *)
    let tableName := default EmptyString tableName in
    let apiKey := default EmptyString apiKey in
    let projectId := default EmptyString projectId in
    with_local None
      (try_catch (try_block env args tableName apiKey projectId)
                 (catch_block env args tableName)).

End UploadToLlamaCloud.

(* ===================================================================== *)
(** ** [amplify/functions/query-topic/handler.ts] *)
(* ===================================================================== *)

Module QueryTopic.

Definition LLAMA_CLOUD_API_BASE : string := "https://api.cloud.llamaindex.ai/api/v1".

Record Arguments : Type := {
  topicId : string;
  query : string
}.

Definition failure (error : string) : value :=
  VObject [("success", VBool false); ("error", VString error)].

Definition no_information_answer : string :=
  "I couldn't find relevant information in the document to answer this question.".

Definition systemPrompt : string :=
  "You are an expert assistant helping SEND specialists understand JCQ regulations and guidance documents."
  +:+ nl +:+ nl +:+
  "Your role is to:" +:+ nl +:+
  "- Provide accurate, authoritative information from the source material" +:+ nl +:+
  "- Always cite specific page numbers when making claims" +:+ nl +:+
  "- Use clear, professional language appropriate for education professionals" +:+ nl +:+
  "- If information is ambiguous or incomplete, acknowledge this" +:+ nl +:+
  "- Quote directly from the source when it strengthens your answer" +:+ nl +:+ nl +:+
  "Format citations as: (Page X) immediately after the relevant information.".

Definition userPrompt (title : option string) (query context : string) : string :=
  "Based on the following excerpts from " +:+ dquote +:+ string_of_opt title +:+ dquote +:+
  ", please answer this question:" +:+ nl +:+ nl +:+
  "**Question**: " +:+ query +:+ nl +:+ nl +:+
  "**Source Excerpts**:" +:+ nl +:+ nl +:+
  context +:+ nl +:+ nl +:+
  "Please provide a clear, well-structured answer with specific page citations.".

Definition truthy_page (p : PageLabel) : bool :=
  match p with
  | PageNumber n => truthy_number n
  | PageString s => truthy_string s
  end.

(** [node.extra_info?.page_label || 'Unknown']. *)
Definition page_or_unknown (node : RetrievalNode) : PageLabel :=
  match extra_info node with
  | None => PageString "Unknown"
  | Some info =>
      match page_label info with
      | None => PageString "Unknown"
      | Some p => if truthy_page p then p else PageString "Unknown"
      end
  end.

(** [node.extra_info?.file_name || 'Unknown']. *)
Definition file_name_or_unknown (node : RetrievalNode) : string :=
  match extra_info node with
  | None => "Unknown"
  | Some info =>
      match file_name info with
      | None => "Unknown"
      | Some f => if truthy_string f then f else "Unknown"
      end
  end.

Definition string_of_page (env : Env) (p : PageLabel) : string :=
  match p with
  | PageNumber n => Number_toString env n
  | PageString s => s
  end.

Definition value_of_page (p : PageLabel) : value :=
  match p with
  | PageNumber n => VNumber n
  | PageString s => VString s
  end.

Definition value_of_opt (o : option string) : value :=
  match o with
  | Some s => VString s
  | None => VUndefined
  end.

(** Reading a property of [item.node] when [item] has no [node]. *)
Definition node_undefined : thrown :=
  TypeError "Cannot read properties of undefined (reading 'extra_info')".

(** The callback of the [map] that formats the context (Step 3). *)
Definition context_entry (env : Env) (item : RetrievalResult) (index : nat)
    : completion string :=
  match node item with
  | None => Throw node_undefined
  | Some node =>
      let pageNum := page_or_unknown node in
      let text := default EmptyString (text node) in
      Normal ("[Excerpt " +:+ Number_toString env (number_of_nat (index + 1)) +:+
              " - Page " +:+ string_of_page env pageNum +:+ "]" +:+ nl +:+ trim text)
  end.

(** [node.text ? node.text.substring(0, 250) + '...' : '']. *)
Definition excerpt (node : RetrievalNode) : string :=
  match text node with
  | None => EmptyString
  | Some t =>
      if truthy_string t then String.substring 0 250 t +:+ "..." else EmptyString
  end.

(** [item.score || 0]. *)
Definition relevanceScore (item : RetrievalResult) : float :=
  match score item with
  | None => 0%float
  | Some s => if truthy_number s then s else 0%float
  end.

(** The callback of the [map] that builds the citations (Step 5). *)
Definition citation (item : RetrievalResult) (index : nat) : completion value :=
  match node item with
  | None => Throw node_undefined
  | Some node =>
      Normal (VObject
        [("excerptNumber", VNumber (number_of_nat (index + 1)));
         ("page", value_of_page (page_or_unknown node));
         ("fileName", VString (file_name_or_unknown node));
         ("excerpt", VString (excerpt node));
         ("relevanceScore", VNumber (relevanceScore item))])
  end.

(** [message.content[0].type === 'text' ? message.content[0].text : '']. *)
Definition first_text (message : Message) : completion string :=
  match content message with
  | [] => Throw (TypeError "Cannot read properties of undefined (reading 'type')")
  | TextBlock t :: _ => Normal t
  | OtherBlock _ :: _ => Normal EmptyString
  end.

Definition is_READY (topicStatus : option string) : bool :=
  match topicStatus with
  | Some s => String.eqb s "READY"
  | None => false
  end.

(** The body of the [try]. *)
Definition try_block (env : Env) (args : Arguments)
    (tableName llamaCloudApiKey anthropicApiKey : string) : M World value :=
  (* Step 1: Get Topic from DynamoDB *)
  getResult_Item <- docClient_send_GetCommand env tableName (topicId args) ;;
  match getResult_Item with
  | None => throw (Error ("Topic not found: " +:+ topicId args))
  | Some topic =>
  (* Validate topic is ready *)
  if negb (is_READY (topic !! "topicStatus"))
  then throw (Error ("Topic is not ready for querying. Current status: " +:+
                     string_of_opt (topic !! "topicStatus")))
  else
  if negb (truthy_opt_string (topic !! "llamaCloudPipelineId"))
  then throw (Error "Topic does not have a Llama Cloud pipeline ID")
  else
  (* Step 2: Retrieve relevant nodes from Llama Cloud *)
  retrievalResponse <-
    fetch (llama_retrieve env)
      {| url := LLAMA_CLOUD_API_BASE +:+ "/pipelines/" +:+
                string_of_opt (topic !! "llamaCloudPipelineId") +:+ "/retrieve";
         method := "POST";
         headers := [("Authorization", "Bearer " +:+ llamaCloudApiKey);
                     ("Content-Type", "application/json")];
         body := JsonBody (VObject
           [("query", VString (query args));
            ("similarity_top_k", VNumber 10%float)]) |} ;;
  _ <- when (negb (ok retrievalResponse))
         (errorText <- await (body_text retrievalResponse) ;;
          throw (Error ("Failed to retrieve from Llama Cloud: " +:+
                        Number_toString env (number_of_Z (status retrievalResponse)) +:+
                        " - " +:+ errorText))) ;;
  retrievalData <- await (body_json retrievalResponse) ;;
  let retrievalNodes := default [] (retrieval_nodes retrievalData) in
  if (List.length retrievalNodes =? 0)%nat
  then
    ret (VObject
      [("success", VBool true);
       ("answer", VString no_information_answer);
       ("citations", VArray []);
       ("metadata", VObject
          [("topicTitle", value_of_opt (topic !! "title"));
           ("nodesRetrieved", VNumber 0%float)])])
  else
  (* Step 3: Format nodes as context *)
  entries <- await (mapi_from_c 0 (context_entry env) retrievalNodes) ;;
  let context := join (nl +:+ nl +:+ "---" +:+ nl +:+ nl) entries in
  (* Step 4: Send to Claude for synthesis *)
  message <-
    anthropic_messages_create env
      {| model := "claude-opus-4-5-20251101";
         max_tokens := 2048;
         system := systemPrompt;
         messages := [("user", userPrompt (topic !! "title") (query args) context)] |} ;;
  answer <- await (first_text message) ;;
  (* Step 5: Return structured response *)
  citations <- await (mapi_from_c 0 citation retrievalNodes) ;;
  queryDate <- new_Date env ;;
  ret (VObject
    [("success", VBool true);
     ("answer", VString answer);
     ("metadata", VObject
        [("topicTitle", value_of_opt (topic !! "title"));
         ("queryDate", VString (toISOString queryDate));
         ("nodesRetrieved", VNumber (number_of_nat (List.length retrievalNodes)))]);
     ("citations", VArray citations)])
  end.

Definition handler (env : Env) (args : Arguments) : M World value :=
  (* Verify environment variables *)
  let tableName := process_env env !! "TOPIC_TABLE_NAME" in
  let llamaCloudApiKey := process_env env !! "LLAMA_CLOUD_API_KEY" in
  let anthropicApiKey := process_env env !! "ANTHROPIC_API_KEY" in
  if negb (truthy_opt_string tableName) || negb (truthy_opt_string llamaCloudApiKey)
     || negb (truthy_opt_string anthropicApiKey)
  then ret (failure "Missing required environment variables")
  else
    (* each of the three is a non-empty string from here on *)
    let tableName := default EmptyString tableName in
    let llamaCloudApiKey := default EmptyString llamaCloudApiKey in
    let anthropicApiKey := default EmptyString anthropicApiKey in
    try_catch (try_block env args tableName llamaCloudApiKey anthropicApiKey)
              (fun error => ret (failure (error_message error))).

End QueryTopic.

(* ===================================================================== *)
(** ** [src/_actions/topic-actions.ts]: creating the Topic record *)
(* ===================================================================== *)

Module TopicActions.

(** [cookieBasedClient.models.Topic.create(input)]: the data client assigns
    the [id] and the two timestamps and writes the item under the condition
    that the id is new; [data] is [None] (and [errors] set) otherwise. *)
Definition models_Topic_create (new_id : string) (now : Z)
    (input : list (string * string)) (t : Table) : option Item * Table :=
  match t !! new_id with
  | Some _ => (None, t)
  | None =>
      let item :=
        set_attrs input
          (<["id" := new_id]>
             (<["createdAt" := toISOString now]>
                (<["updatedAt" := toISOString now]> ∅))) in
      (Some item, <[new_id := item]> t)
  end.

(** Step 2 of [saveTopicDocument]: create the Topic record with PENDING
    status. *)
Definition create_topic (new_id : string) (now : Z)
    (title description fileKey : string) (t : Table) : option Item * Table :=
  models_Topic_create new_id now
    [("title", title); ("description", description); ("s3Key", fileKey);
     ("topicStatus", "PENDING")] t.

End TopicActions.

(* ===================================================================== *)
(** ** The operations as steps on the Topic table *)
(* ===================================================================== *)

Inductive Op : Type :=
| OpCreate (new_id : string) (now : Z) (title description fileKey : string)
| OpIndex (env : Env) (args : UploadToLlamaCloud.Arguments)
| OpQuery (env : Env) (args : QueryTopic.Arguments).

(** A Lambda invocation starts with its own clock and an empty call log. *)
Definition start_of (t : Table) : World := {| table := t; ticks := 0; calls := [] |}.

Definition run_op (op : Op) (t : Table) : Table :=
  match op with
  | OpCreate new_id now title description fileKey =>
      snd (TopicActions.create_topic new_id now title description fileKey t)
  | OpIndex env args => table (snd (UploadToLlamaCloud.handler env args (start_of t)))
  | OpQuery env args => table (snd (QueryTopic.handler env args (start_of t)))
  end.

Definition run_ops (ops : list Op) (t : Table) : Table :=
  foldl (fun t op => run_op op t) t ops.

(* ===================================================================== *)
(** ** Judgements about runs *)
(* ===================================================================== *)

(** [m] never leaves the set [I] of states. *)
Definition keeps {S A : Type} (I : S -> Prop) (m : M S A) : Prop :=
  forall s, I s -> I (snd (m s)).

(** Whatever [m] returns satisfies [P]. *)
Definition yields {S A : Type} (P : A -> Prop) (m : M S A) : Prop :=
  forall s a, fst (m s) = Normal a -> P a.

(** [m] completes normally from every state. *)
Definition never_throws {S A : Type} (m : M S A) : Prop :=
  forall s, exists a, fst (m s) = Normal a.

(** Effects that only read the clock or call a service leave the table. *)
Definition on_table (J : Table -> Prop) (w : World) : Prop := J (table w).

(* ===================================================================== *)
(** ** The writes of the indexing handler *)
(* ===================================================================== *)

(** The four update commands of the indexing handler, for the key [k]. *)
Inductive handler_write (k : string) : UpdateCommand -> Prop :=
| write_INDEXING (tn ts : string) :
    handler_write k
      {| TableName := tn; Key := k;
         UpdateExpression := [("topicStatus", ":status"); ("updatedAt", ":updatedAt")];
         ExpressionAttributeValues := [(":status", "INDEXING"); (":updatedAt", ts)] |}
| write_READY (tn p f ts1 ts2 : string) :
    handler_write k
      {| TableName := tn; Key := k;
         UpdateExpression :=
           [("llamaCloudPipelineId", ":pipelineId"); ("llamaCloudFileId", ":fileId");
            ("topicStatus", ":status"); ("indexedAt", ":indexedAt");
            ("updatedAt", ":updatedAt")];
         ExpressionAttributeValues :=
           [(":pipelineId", p); (":fileId", f); (":status", "READY");
            (":indexedAt", ts1); (":updatedAt", ts2)] |}
| write_FAILED (tn ts : string) :
    handler_write k
      {| TableName := tn; Key := k;
         UpdateExpression := [("topicStatus", ":status"); ("updatedAt", ":updatedAt")];
         ExpressionAttributeValues := [(":status", "FAILED"); (":updatedAt", ts)] |}
| write_FAILED_pipeline (tn p ts : string) :
    handler_write k
      {| TableName := tn; Key := k;
         UpdateExpression :=
           [("topicStatus", ":status"); ("llamaCloudPipelineId", ":pipelineId");
            ("updatedAt", ":updatedAt")];
         ExpressionAttributeValues :=
           [(":status", "FAILED"); (":updatedAt", ts); (":pipelineId", p)] |}.

(** The item an update starts from: the stored one, or the bare key. *)
Definition item_at (k : string) (t : Table) : Item := default {["id" := k]} (t !! k).

(** Every update command in the log of [w] was in the log [before] already
    or is one of the four commands for the key [k]. *)
Definition only_handler_writes (k : string) (before : list Call) (w : World) : Prop :=
  forall cmd, In (CallUpdate cmd) (calls w) ->
              In (CallUpdate cmd) before \/ handler_write k cmd.

(** The table after the INDEXING write of a run started in [w]. *)
Definition indexing_table (env : Env) (k : string) (w : World) : Table :=
  <[k := <["updatedAt" := toISOString (clock env (ticks w))]>
           (<["topicStatus" := "INDEXING"]> (item_at k (table w)))]> (table w).

(** The item that the [catch] block leaves when its write succeeds. *)
Definition failed_item (ts : string) (pipelineId : option string) (item : Item) : Item :=
  if truthy_opt_string pipelineId
  then <["updatedAt" := ts]>
         (<["llamaCloudPipelineId" := string_of_opt pipelineId]>
            (<["topicStatus" := "FAILED"]> item))
  else <["updatedAt" := ts]> (<["topicStatus" := "FAILED"]> item).

(* ===================================================================== *)
(** ** The Topic invariant and the reachable tables *)
(* ===================================================================== *)

Definition statuses : list string := ["PENDING"; "INDEXING"; "READY"; "FAILED"].

(** What holds of every record, whatever the service answers. The READY
    clause says that both id attributes are stored: the handler stores the
    ids that the service answered without looking at them, so a stored id
    can be the empty string, which the query handler's check
    [!topic.llamaCloudPipelineId] takes for a missing one. [ids_present]
    below is the clause for ids that are not empty. *)
Definition topic_inv (item : Item) : Prop :=
  (exists s, item !! "topicStatus" = Some s /\ In s statuses) /\
  (item !! "topicStatus" = Some "READY" ->
   is_Some (item !! "llamaCloudPipelineId") /\ is_Some (item !! "llamaCloudFileId")) /\
  (item !! "topicStatus" = Some "PENDING" ->
   item !! "llamaCloudPipelineId" = None /\ item !! "llamaCloudFileId" = None).

Definition table_inv (t : Table) : Prop :=
  forall k item, t !! k = Some item -> topic_inv item.

(** The tables that the operations produce from the empty table: by whole
    runs of an operation, and by the single writes of the indexing handler,
    so that the tables between two writes of a run are included. *)
Inductive reachable : Table -> Prop :=
| reach_empty : reachable ∅
| reach_op (op : Op) (t : Table) : reachable t -> reachable (run_op op t)
| reach_write (k : string) (cmd : UpdateCommand) (t t' : Table) :
    reachable t -> handler_write k cmd -> UpdateItem cmd t = Normal t' -> reachable t'.

Definition targets (op : Op) (k : string) : Prop :=
  match op with
  | OpIndex _ args => UploadToLlamaCloud.topicId args = k
  | _ => False
  end.

(* ===================================================================== *)
(** ** The outcome of the indexing steps *)
(* ===================================================================== *)

Definition upload_configured (env : Env) : Prop :=
  process_env env !! "TOPIC_TABLE_NAME" = Some (topic_table_name env) /\
  truthy_string (topic_table_name env) = true /\
  truthy_opt_string (process_env env !! "LLAMA_CLOUD_API_KEY") = true /\
  truthy_opt_string (process_env env !! "LLAMA_CLOUD_PROJECT_ID") = true.

Definition writes_succeed (env : Env) : Prop :=
  forall cmd, ddb_update_fault env cmd = None.

(** Step 2 succeeded: the object has a body and its bytes arrived. *)
Definition downloaded (env : Env) : bool :=
  match s3_getObject env with
  | Normal {| Body := Some (Normal _) |} => true
  | _ => false
  end.

(** The parsed body of a call that came back with a success status. *)
Definition answered {J : Type} (c : completion (Response J)) : option J :=
  match c with
  | Normal r =>
      if ok r then match body_json r with Normal j => Some j | Throw _ => None end
      else None
  | Throw _ => None
  end.

(** A call that came back with a success status. *)
Definition accepted {J : Type} (c : completion (Response J)) : bool :=
  match c with
  | Normal r => ok r
  | Throw _ => false
  end.

(** The id of the pipeline that this run created, if it got that far. *)
Definition created_pipeline (env : Env) : option string :=
  if downloaded env then id <$> answered (llama_create_pipeline env) else None.

Definition is_some {A : Type} (o : option A) : bool :=
  match o with Some _ => true | None => false end.

Definition all_steps_succeed (env : Env) : bool :=
  downloaded env
  && is_some (answered (llama_create_pipeline env))
  && is_some (answered (llama_upload_file env))
  && accepted (llama_add_files env).

(** What the [catch] block writes as pipeline id: the created one when it is
    a non-empty string. *)
Definition persisted_pipeline (env : Env) : option string :=
  match created_pipeline env with
  | Some p => if truthy_string p then Some p else None
  | None => None
  end.

(* ===================================================================== *)
(** ** The responses of the query handler *)
(* ===================================================================== *)

Definition query_configured (env : Env) : Prop :=
  process_env env !! "TOPIC_TABLE_NAME" = Some (topic_table_name env) /\
  truthy_string (topic_table_name env) = true /\
  truthy_opt_string (process_env env !! "LLAMA_CLOUD_API_KEY") = true /\
  truthy_opt_string (process_env env !! "ANTHROPIC_API_KEY") = true.



Definition is_failure (v : value) : Prop :=
  exists msg, v = VObject [("success", VBool false); ("error", VString msg)].

Definition is_success (v : value) : Prop := get "success" v = VBool true.

(** What a response of the query handler looks like. *)
Definition query_response (v : value) : Prop :=
  is_failure v \/
  (is_success v /\
   exists citations,
     get "citations" v = VArray citations /\
     get "nodesRetrieved" (get "metadata" v)
       = VNumber (number_of_nat (List.length citations)) /\
     match citations with
     | [] =>
         exists title,
           get "metadata" v
           = VObject [("topicTitle", title); ("nodesRetrieved", VNumber 0%float)]
     | _ :: _ =>
         exists ms, get "queryDate" (get "metadata" v) = VString (toISOString ms)
     end).

(* ===================================================================== *)
(** ** The shape of an ISO 8601 timestamp *)
(* ===================================================================== *)

Definition is_digit (c : ascii) : bool :=
  let n := nat_of_ascii c in (48 <=? n)%nat && (n <=? 57)%nat.

(** A pattern is a list of positions: [None] for a decimal digit, [Some c]
    for the character [c]. *)
Fixpoint matches (pattern : list (option ascii)) (s : string) : bool :=
  match pattern, s with
  | [], EmptyString => true
  | None :: pattern', String c s' => is_digit c && matches pattern' s'
  | Some x :: pattern', String c s' => Ascii.eqb x c && matches pattern' s'
  | _, _ => false
  end.

(** [YYYY-MM-DDTHH:mm:ss.sssZ]. *)
Definition date_time_pattern : list (option ascii) :=
  [None; None; None; None; Some "-"%char; None; None; Some "-"%char; None; None;
   Some "T"%char; None; None; Some ":"%char; None; None; Some ":"%char; None; None;
   Some "."%char; None; None; None; Some "Z"%char].

(** The complete extended format in UTC, with a four-digit year or a signed
    six-digit one. *)
Definition is_ISO_8601 (s : string) : bool :=
  matches date_time_pattern s
  || matches (Some "+"%char :: None :: None :: date_time_pattern) s
  || matches (Some "-"%char :: None :: None :: date_time_pattern) s.

(* ===================================================================== *)
(** ** Scenarios *)
(* ===================================================================== *)

Module Scenario.

(** Agrees with [Number::toString] on the integers the scenarios print. *)
Definition Z_of_number (n : float) : Z :=
  match Prim2SF n with
  | S754_finite s m e =>
      let v := if (0 <=? e)%Z then (Zpos m * 2 ^ e)%Z else (Zpos m / 2 ^ (- e))%Z in
      if s then (- v)%Z else v
  | _ => 0%Z
  end.

Fixpoint strip_zeros (s : string) : string :=
  match s with
  | String c (String _ _ as rest) => if Ascii.eqb c "0" then strip_zeros rest else s
  | _ => s
  end.

Definition integer_toString (n : float) : string :=
  let z := Z_of_number n in
  (if (z <? 0)%Z then "-" else "") +:+ strip_zeros (pad 20 (Z.abs z)).

Definition variables : gmap string string :=
  <["TOPIC_TABLE_NAME" := "Topic-abc123-NONE"]>
    (<["LLAMA_CLOUD_API_KEY" := "llx-key"]>
       (<["LLAMA_CLOUD_PROJECT_ID" := "project-1"]>
          (<["ANTHROPIC_API_KEY" := "sk-key"]> ∅))).

Definition answers {J : Type} (code : Z) (text : string) (json : completion J)
    : completion (Response J) :=
  Normal {| status := code; body_text := Normal text; body_json := json |}.

Definition not_json {J : Type} : completion J :=
  Throw (JsError "Unexpected token < in JSON at position 0").

(** An environment in which every store access succeeds, by the answers of
    S3, of the four Llama Cloud endpoints and of the Anthropic client. *)
Definition world_of (s3 : completion GetObjectOutput)
    (create upload : completion (Response IdBody))
    (attach : completion (Response unit))
    (retrieve : completion (Response LlamaCloudRetrievalResponse))
    (llm : completion Message) : Env :=
  {| process_env := variables;
     topic_table_name := "Topic-abc123-NONE";
     clock := fun k => (1762000000000 + Z.of_nat k)%Z;
     Number_toString := integer_toString;
     ddb_get_fault := None;
     ddb_update_fault := fun _ => None;
     s3_getObject := s3;
     llama_create_pipeline := create;
     llama_upload_file := upload;
     llama_add_files := attach;
     llama_retrieve := retrieve;
     anthropic_create := llm |}.

Definition pdf : completion GetObjectOutput :=
  Normal {| Body := Some (Normal [Byte.x25; Byte.x50; Byte.x44; Byte.x46]) |}.

Definition no_nodes : completion (Response LlamaCloudRetrievalResponse) :=
  answers 200 "" (Normal {| retrieval_nodes := Some [] |}).

Definition no_message : completion Message := Normal {| content := [] |}.

Definition all_fine : Env :=
  world_of pdf (answers 200 "" (Normal {| id := "pipe-1" |}))
    (answers 200 "" (Normal {| id := "file-1" |})) (answers 200 "" (Normal tt))
    no_nodes no_message.

Definition s3_down : Env :=
  world_of (Throw (JsError "NoSuchKey")) (answers 200 "" (Normal {| id := "pipe-2" |}))
    (answers 200 "" (Normal {| id := "file-2" |})) (answers 200 "" (Normal tt))
    no_nodes no_message.

Definition create_400 : Env :=
  world_of pdf (answers 400 "Bad Request" not_json)
    (answers 200 "" (Normal {| id := "file-2" |})) (answers 200 "" (Normal tt))
    no_nodes no_message.

Definition upload_500 : Env :=
  world_of pdf (answers 200 "" (Normal {| id := "pipe-1" |}))
    (answers 500 "Internal Server Error" not_json) (answers 200 "" (Normal tt))
    no_nodes no_message.

Definition key : string := "send-connect-raw-docs/user-1/1762000000000-jcq.pdf".

Definition index_topic_1 : UploadToLlamaCloud.Arguments :=
  {| UploadToLlamaCloud.topicId := "topic-1";
     UploadToLlamaCloud.s3Key := key;
     UploadToLlamaCloud.rawBucketName := "raw-docs";
     UploadToLlamaCloud.topicTitle := "JCQ Access Arrangements" |}.

Definition index_topic_2 : UploadToLlamaCloud.Arguments :=
  {| UploadToLlamaCloud.topicId := "topic-2";
     UploadToLlamaCloud.s3Key := key;
     UploadToLlamaCloud.rawBucketName := "raw-docs";
     UploadToLlamaCloud.topicTitle := "Another" |}.

Definition create_topic_1 : Op :=
  OpCreate "topic-1" 1761999999000 "JCQ Access Arrangements" "Guidance" key.

(** The table after the upload flow created topic-1. *)
Definition created : Table := run_op create_topic_1 ∅.

(** ... after its indexing succeeded. *)
Definition indexed : Table := run_op (OpIndex all_fine index_topic_1) created.

(** ... or after its indexing failed at the file upload. *)
Definition upload_failed : Table := run_op (OpIndex upload_500 index_topic_1) created.

(** ... or after an indexing in which the service answered the create
    request with a success status and an empty id. *)
Definition empty_id : Env :=
  world_of pdf (answers 200 "" (Normal {| id := "" |}))
    (answers 200 "" (Normal {| id := "file-1" |})) (answers 200 "" (Normal tt))
    no_nodes no_message.

Definition indexed_empty_id : Table := run_op (OpIndex empty_id index_topic_1) created.

Fixpoint repeat_string (n : nat) (s : string) : string :=
  match n with
  | O => EmptyString
  | S n' => s +:+ repeat_string n' s
  end.

(** A passage of 300 characters. *)
Definition long_text : string := repeat_string 30 "0123456789".

Definition passage_12 : RetrievalResult :=
  Wrapped
    {| id_ := "node-1"; text := Some long_text;
       extra_info := Some {| page_label := Some (PageNumber 12%float);
                             file_name := Some "jcq.pdf" |} |}
    (Some 0.75%float).

Definition passage_45 : RetrievalResult :=
  Wrapped
    {| id_ := "node-2"; text := Some "  Readers and scribes.  ";
       extra_info := Some {| page_label := Some (PageNumber 45%float);
                             file_name := Some "jcq.pdf" |} |}
    (Some 0.5%float).


(** The fields of [passage_12] side by side with the score, without [node]. *)
Definition flat_passage : RetrievalResult :=
  Flat
    {| id_ := "node-1"; text := Some long_text;
       extra_info := Some {| page_label := Some (PageNumber 12%float);
                             file_name := Some "jcq.pdf" |} |}
    (Some 0.75%float).

Definition retrieves (items : list RetrievalResult)
    : completion (Response LlamaCloudRetrievalResponse) :=
  answers 200 "" (Normal {| retrieval_nodes := Some items |}).

Definition says (t : string) : completion Message :=
  Normal {| content := [TextBlock t] |}.

(** Environments of a query: every service answers, retrieval with the
    given passages. *)
Definition retrieving (items : list RetrievalResult) : Env :=
  world_of pdf (answers 200 "" (Normal {| id := "pipe-1" |}))
    (answers 200 "" (Normal {| id := "file-1" |})) (answers 200 "" (Normal tt))
    (retrieves items) (says "Extra time of up to 25% (Page 12).").

Definition ask_topic_1 : QueryTopic.Arguments :=
  {| QueryTopic.topicId := "topic-1";
     QueryTopic.query := "Which access arrangements exist?" |}.

Definition attribute (t : Table) (k a : string) : option string :=
  t !! k ≫= (fun item => item !! a).

Definition record (t : Table) (k : string) : Item := default ∅ (t !! k).

End Scenario.

(* ===================================================================== *)
(** ** The names that the upload flow derives *)
(* ===================================================================== *)

(** The class [[a-zA-Z0-9.-]]. *)
Definition is_file_name_char (c : ascii) : bool :=
  let n := nat_of_ascii c in
  ((97 <=? n)%nat && (n <=? 122)%nat) || ((65 <=? n)%nat && (n <=? 90)%nat)
  || ((48 <=? n)%nat && (n <=? 57)%nat) || (n =? 46)%nat || (n =? 45)%nat.

(** [file.name.replace(/[^a-zA-Z0-9.-]/g, '_')] of [saveTopicDocument]. *)
Fixpoint sanitizedFileName (name : string) : string :=
  match name with
  | EmptyString => EmptyString
  | String c rest =>
      String (if is_file_name_char c then c else "_"%char) (sanitizedFileName rest)
  end.

(** [s3Key.split('/').pop() || 'document.pdf'] of the indexing handler. *)
Definition fileName (s3Key : string) : string :=
  let last := last_segment EmptyString s3Key in
  if truthy_string last then last else "document.pdf".

(** [`${topicTitle.toLowerCase().replace(/[^a-z0-9]+/g, '-')}-${Date.now()}`]
    of the indexing handler, [now] the reading of the clock. *)
Definition pipelineName (env : Env) (topicTitle : string) (now : Z) : string :=
  replace_non_alnum_runs false (toLowerCase topicTitle) +:+ "-" +:+
  Number_toString env (number_of_Z now).

(** Every character of [s] satisfies [p]. *)
Fixpoint all_chars (p : ascii -> bool) (s : string) : bool :=
  match s with
  | EmptyString => true
  | String c rest => p c && all_chars p rest
  end.

(** The characters of [s] that satisfy [p], in their order. *)
Fixpoint keep_chars (p : ascii -> bool) (s : string) : string :=
  match s with
  | EmptyString => EmptyString
  | String c rest => if p c then String c (keep_chars p rest) else keep_chars p rest
  end.

(** No two neighbours in [s] are both the character [c]. *)
Fixpoint no_run_of (c : ascii) (s : string) : bool :=
  match s with
  | String a (String b _ as rest) => negb (Ascii.eqb a c && Ascii.eqb b c) && no_run_of c rest
  | _ => true
  end.

Definition is_slash (c : ascii) : bool := Ascii.eqb c "/".

(* ===================================================================== *)
(** ** The calls of the indexing handler *)
(* ===================================================================== *)

(** The three requests of the indexing handler to the indexing service, in
    a run that starts when the clock has been read [started] times: the
    pipeline named after the title and the second reading of the clock in
    the run (the first one stamps the INDEXING write), the bytes that S3
    returned under the file name of the key, and the file id and pipeline id
    that the service returned. *)
Inductive handler_request (env : Env) (args : UploadToLlamaCloud.Arguments)
    (started : nat) (apiKey projectId : string) : Request -> Prop :=
| request_create :
    handler_request env args started apiKey projectId
      {| url := "https://api.cloud.llamaindex.ai/api/v1/pipelines";
         method := "POST";
         headers := [("Authorization", "Bearer " +:+ apiKey);
                     ("Content-Type", "application/json")];
         body := JsonBody (VObject
           [("name",
             VString (pipelineName env (UploadToLlamaCloud.topicTitle args)
                        (clock env (S started))));
            ("transform_config",
             VObject [("mode", VString "auto"); ("config_name", VString "auto")])]) |}
| request_upload (bytes : list Byte.byte) :
    s3_getObject env = Normal {| Body := Some (Normal bytes) |} ->
    handler_request env args started apiKey projectId
      {| url := "https://api.cloud.llamaindex.ai/api/v1/files?project_id=" +:+ projectId;
         method := "POST";
         headers := [("Authorization", "Bearer " +:+ apiKey);
                     ("accept", "application/json")];
         body := FormDataBody
           [{| part_name := "upload_file"; part_blob := bytes;
               part_type := "application/pdf";
               part_filename := fileName (UploadToLlamaCloud.s3Key args) |}] |}
| request_attach (pipeline file : IdBody) :
    answered (llama_create_pipeline env) = Some pipeline ->
    answered (llama_upload_file env) = Some file ->
    handler_request env args started apiKey projectId
      {| url := "https://api.cloud.llamaindex.ai/api/v1/pipelines/" +:+ id pipeline
                +:+ "/files";
         method := "PUT";
         headers := [("Authorization", "Bearer " +:+ apiKey);
                     ("Content-Type", "application/json");
                     ("accept", "application/json")];
         body := JsonBody (VArray [VObject [("file_id", VString (id file))]]) |}.

(** The writes that a run under [env] sends for the key [k]: one of the
    four commands, and a READY write carries the ids that the service
    answered. *)
Definition handler_sends (env : Env) (k : string) (cmd : UpdateCommand) : Prop :=
  handler_write k cmd /\
  (lookup_value ":status" (ExpressionAttributeValues cmd) = Some "READY" ->
   exists pipeline file,
     answered (llama_create_pipeline env) = Some pipeline /\
     answered (llama_upload_file env) = Some file /\
     lookup_value ":pipelineId" (ExpressionAttributeValues cmd) = Some (id pipeline) /\
     lookup_value ":fileId" (ExpressionAttributeValues cmd) = Some (id file)).

(** What a call of the indexing handler may be, in a run that starts when
    the clock has been read [started] times. *)
Definition indexing_call (env : Env) (args : UploadToLlamaCloud.Arguments)
    (started : nat) (c : Call) : Prop :=
  match c with
  | CallUpdate cmd =>
      handler_sends env (UploadToLlamaCloud.topicId args) cmd /\
      process_env env !! "TOPIC_TABLE_NAME" = Some (TableName cmd)
  | CallGetObject bucket key =>
      bucket = UploadToLlamaCloud.rawBucketName args /\
      key = UploadToLlamaCloud.s3Key args
  | CallFetch req =>
      exists apiKey projectId,
        process_env env !! "LLAMA_CLOUD_API_KEY" = Some apiKey /\
        process_env env !! "LLAMA_CLOUD_PROJECT_ID" = Some projectId /\
        handler_request env args started apiKey projectId req
  | CallGet _ _ => False
  | CallMessagesCreate _ => False
  end.

(** The log of [w] is the log [before] and then calls that all satisfy
    [allowed]. *)
Definition log_extends (allowed : Call -> Prop) (before : list Call) (w : World) : Prop :=
  exists new, calls w = (before ++ new)%list /\ Forall allowed new.

(** [m], started in a state of [P], ends in a state of [Q a] when it returns
    [a] and in a state of [E] when it throws. *)
Definition triple {S A : Type} (P : S -> Prop) (m : M S A) (Q : A -> S -> Prop)
    (E : S -> Prop) : Prop :=
  forall s, P s ->
    match m s with
    | (Normal a, s') => Q a s'
    | (Throw _, s') => E s'
    end.

(* ===================================================================== *)
(** ** The Topic invariant and the ids that the service answers *)
(* ===================================================================== *)

(** The ids of a READY record are present in the sense of the query
    handler's check [!topic.llamaCloudPipelineId]: stored and not empty. *)
Definition ids_present (item : Item) : Prop :=
  item !! "topicStatus" = Some "READY" ->
  truthy_opt_string (item !! "llamaCloudPipelineId") = true /\
  truthy_opt_string (item !! "llamaCloudFileId") = true.

(** An endpoint that answers [{ id }] does so with an id that is not
    empty. *)
Definition has_id (answer : completion (Response IdBody)) : bool :=
  match answered answer with
  | Some body => truthy_string (id body)
  | None => true
  end.

Definition answers_ids (env : Env) : bool :=
  has_id (llama_create_pipeline env) && has_id (llama_upload_file env).

Definition op_answers_ids (op : Op) : bool :=
  match op with
  | OpIndex env _ => answers_ids env
  | _ => true
  end.

(** The tables of [reachable] in whose indexing runs the service answered
    no empty id; the single writes are those that such a run sends. *)
Inductive reachable_with_ids : Table -> Prop :=
| ids_empty : reachable_with_ids ∅
| ids_op (op : Op) (t : Table) :
    reachable_with_ids t -> op_answers_ids op = true -> reachable_with_ids (run_op op t)
| ids_write (env : Env) (k : string) (cmd : UpdateCommand) (t t' : Table) :
    reachable_with_ids t -> answers_ids env = true -> handler_sends env k cmd ->
    UpdateItem cmd t = Normal t' -> reachable_with_ids t'.

(* ===================================================================== *)
(** ** The calls of the query handler *)
(* ===================================================================== *)

(** The retrieval request for the pipeline [pipelineId]. *)
Definition retrieval_request (apiKey pipelineId query : string) : Request :=
  {| url := "https://api.cloud.llamaindex.ai/api/v1/pipelines/" +:+ pipelineId
            +:+ "/retrieve";
     method := "POST";
     headers := [("Authorization", "Bearer " +:+ apiKey);
                 ("Content-Type", "application/json")];
     body := JsonBody (VObject
       [("query", VString query); ("similarity_top_k", VNumber 10%float)]) |}.

(** The synthesis request: one user message to the model of the handler. *)
Definition synthesis_request (params : MessageCreateParams) : Prop :=
  model params = "claude-opus-4-5-20251101" /\
  max_tokens params = 2048%Z /\
  system params = QueryTopic.systemPrompt /\
  exists prompt, messages params = [("user", prompt)].

(** The calls that a query may add to the log: none; the read of the Topic;
    the read and the retrieval for the pipeline stored with a READY Topic;
    or these two and the synthesis, when passages were retrieved. *)
Definition query_calls (env : Env) (args : QueryTopic.Arguments) (t : Table)
    (new : list Call) : Prop :=
  new = [] \/
  exists tableName apiKey,
    process_env env !! "TOPIC_TABLE_NAME" = Some tableName /\
    process_env env !! "LLAMA_CLOUD_API_KEY" = Some apiKey /\
    let read := CallGet tableName (QueryTopic.topicId args) in
    (new = [read] \/
     exists topic pipelineId,
       t !! QueryTopic.topicId args = Some topic /\
       topic !! "topicStatus" = Some "READY" /\
       topic !! "llamaCloudPipelineId" = Some pipelineId /\
       truthy_string pipelineId = true /\
       let retrieve :=
         CallFetch (retrieval_request apiKey pipelineId (QueryTopic.query args)) in
       (new = [read; retrieve] \/
        exists params data,
          new = [read; retrieve; CallMessagesCreate params] /\
          synthesis_request params /\
          answered (llama_retrieve env) = Some data /\
          default [] (retrieval_nodes data) <> [])).

(* ===================================================================== *)
(** ** [zod]: the part that the form schemas use *)
(* ===================================================================== *)

Module Zod.

(** The checks chained on [z.string()], in the order of the chain. [Email]
    carries the pattern that [.email()] tests. *)
Inductive StringCheck : Type :=
| Min (n : nat) (message : string)
| Max (n : nat) (message : string)
| Trim
| Email (pattern : string -> bool) (message : string)
| Refine (check : string -> bool) (message : string).

(** Parsing a string: the checks run in their order on the data, [Trim]
    replaces the data for the checks after it, and a failing check adds its
    issue without ending the parse. The result is the data after the last
    check and the messages of the issues. *)
Fixpoint string_ (checks : list StringCheck) (data : string) : string * list string :=
  match checks with
  | [] => (data, [])
  | Min n message :: rest =>
      let '(out, issues) := string_ rest data in
      (out, if (String.length data <? n)%nat then message :: issues else issues)
  | Max n message :: rest =>
      let '(out, issues) := string_ rest data in
      (out, if (n <? String.length data)%nat then message :: issues else issues)
  | Trim :: rest => string_ rest (trim data)
  | Email pattern message :: rest =>
      let '(out, issues) := string_ rest data in
      (out, if pattern data then issues else message :: issues)
  | Refine check message :: rest =>
      let '(out, issues) := string_ rest data in
      (out, if check data then issues else message :: issues)
  end.

(** [z.number().max(n, { message })]: the bound is inclusive. *)
Definition number_max (n : Z) (message : string) (data : Z) : list string :=
  if (n <? data)%Z then [message] else [].

(** [schema.safeParse(input)]: [{ success: true, data }] or
    [{ success: false, error }], of the error the messages of its issues. *)
Inductive SafeParseReturn (A : Type) : Type :=
| SafeParseSuccess (data : A)
| SafeParseError (issues : list string).
Arguments SafeParseSuccess {A} data.
Arguments SafeParseError {A} issues.

(** An object schema succeeds when no key has an issue. *)
Definition object_ {A : Type} (data : A) (issues : list string) : SafeParseReturn A :=
  match issues with
  | [] => SafeParseSuccess data
  | _ :: _ => SafeParseError issues
  end.

End Zod.

(* ===================================================================== *)
(** ** [src/lib/form-schema.ts] *)
(* ===================================================================== *)

Module FormSchema.

Record TopicUploadFormData : Type := {
  title : string;
  description : string;
  fileName : string;
  fileSize : Z;
  fileType : string
}.

(** [TopicUploadSchema.safeParse(input)]; the issues come in the order of
    the keys of the schema. *)
Definition TopicUploadSchema_safeParse (input : TopicUploadFormData)
    : Zod.SafeParseReturn TopicUploadFormData :=
  let '(title', title_issues) :=
    Zod.string_
      [Zod.Min 1 "Title is required";
       Zod.Max 200 "Title must be less than 200 characters";
       Zod.Trim] (title input) in
  let '(description', description_issues) :=
    Zod.string_
      [Zod.Min 1 "Description is required";
       Zod.Max 1000 "Description must be less than 1000 characters";
       Zod.Trim] (description input) in
  let '(fileName', fileName_issues) :=
    Zod.string_ [Zod.Min 1 "File name is required"] (fileName input) in
  let fileSize_issues :=
    Zod.number_max (10 * 1024 * 1024) "File size must be less than 10 MB" (fileSize input) in
  let '(fileType', fileType_issues) :=
    Zod.string_
      [Zod.Refine (fun type => String.eqb type "application/pdf")
         "Only PDF files are allowed"] (fileType input) in
  Zod.object_
    {| title := title'; description := description'; fileName := fileName';
       fileSize := fileSize input; fileType := fileType' |}
    (title_issues ++ description_issues ++ fileName_issues ++ fileSize_issues
     ++ fileType_issues)%list.

Record UserFormData : Type := {
  givenName : string;
  familyName : string;
  email : string;
  phoneNumber : option string
}.

(** [UserSchema.safeParse(input)], [is_email] the pattern of [.email()]. *)
Definition UserSchema_safeParse (is_email : string -> bool) (input : UserFormData)
    : Zod.SafeParseReturn UserFormData :=
  let '(givenName', givenName_issues) :=
    Zod.string_ [Zod.Min 1 "Given name is required"] (givenName input) in
  let '(familyName', familyName_issues) :=
    Zod.string_ [Zod.Min 1 "Family name is required"] (familyName input) in
  let '(email', email_issues) :=
    Zod.string_ [Zod.Email is_email "Valid email is required"] (email input) in
  Zod.object_
    {| givenName := givenName'; familyName := familyName'; email := email';
       phoneNumber := phoneNumber input |}
    (givenName_issues ++ familyName_issues ++ email_issues)%list.

End FormSchema.

(* ===================================================================== *)
(** ** The session, the uploaded file and the bucket *)
(* ===================================================================== *)

Module Auth.

Record Credentials : Type := {
  accessKeyId : string;
  secretAccessKey : string;
  sessionToken : option string
}.

(** Of [tokens.accessToken.payload], the two claims that the code reads:
    [sub] and ['cognito:groups'], the latter as the JSON value it is. *)
Record Tokens : Type := {
  sub : option string;
  cognito_groups : value
}.

(** What [fetchAuthSession] resolves to. *)
Record AuthSession : Type := {
  credentials : option Credentials;
  identityId : option string;
  tokens : option Tokens
}.

End Auth.

Module File.

(** A [File] of a form: [arrayBuffer] is the outcome of
    [await file.arrayBuffer()]. *)
Record File : Type := {
  name : string;
  size : Z;
  type : string;
  arrayBuffer : completion (list Byte.byte)
}.

End File.

Module S3.

Record PutObjectCommand : Type := {
  Bucket : string;
  Key : string;
  Body : list Byte.byte;
  ContentType : string;
  Metadata : list (string * string)
}.

End S3.

(* ===================================================================== *)
(** ** [src/_actions/topic-actions.ts]: [saveTopicDocument] *)
(* ===================================================================== *)

Module SaveTopicDocument.

(** The form as the upload page submits it: two text fields and, when one
    was chosen, the file. *)
Record FormData : Type := {
  title : string;
  description : string;
  file : option File.File
}.

(** How the [uploadToLlamaCloud] mutation ends: AppSync runs the function,
    to its end, in the environment [lambda]; or it answers [errors] without
    running it; or the request throws. *)
Inductive Invocation : Type :=
| Runs (lambda : Env)
| Refuses (errors : list string)
| InvocationThrows (e : thrown).

(** What one call of the action depends on outside the repository. *)
Record Server : Type := {
  (** The names of [amplifyOutputs.storage.buckets], and
      [amplifyOutputs.storage.bucket_name]. *)
  storage_buckets : list string;
  storage_bucket_name : string;
  Date_now : Z;
  Number_toString : float -> string;
  fetchAuthSession : completion Auth.AuthSession;
  s3_putObject_fault : S3.PutObjectCommand -> option thrown;
  (** [models.Topic.create]: the id and the time that the resolver assigns
      when the request reaches it, and the [errors] of the answer. *)
  Topic_create : completion (option (string * Z) * option (list string));
  uploadToLlamaCloud : Invocation
}.

(** The Topic table and the objects of the bucket
    [amplifyOutputs.storage.bucket_name], by key. *)
Record Site : Type := {
  topics : Table;
  objects : gmap string S3.PutObjectCommand
}.

Definition failure (error : string) : value :=
  VObject [("success", VBool false); ("error", VString error)].

(** [s3Client.send(new PutObjectCommand(cmd))]. *)
Definition s3Client_send_PutObjectCommand (env : Server) (cmd : S3.PutObjectCommand)
    : M Site unit :=
  fun s =>
    match s3_putObject_fault env cmd with
    | Some e => (Throw e, s)
    | None => (Normal tt, {| topics := topics s; objects := <[S3.Key cmd := cmd]> (objects s) |})
    end.

(** [cookieBasedClient.models.Topic.create({ title, description, s3Key,
    topicStatus: 'PENDING' })], giving [data] and [errors]. *)
Definition models_Topic_create (env : Server) (title description fileKey : string)
    : M Site (option Item * option (list string)) :=
  fun s =>
    match Topic_create env with
    | Throw e => (Throw e, s)
    | Normal (None, errors) => (Normal (None, errors), s)
    | Normal (Some (new_id, now), errors) =>
        let '(data, t') :=
          TopicActions.create_topic new_id now title description fileKey (topics s) in
        (Normal (data, errors), {| topics := t'; objects := objects s |})
    end.

(** [cookieBasedClient.mutations.uploadToLlamaCloud(args)], giving
    [errors]. *)
Definition mutations_uploadToLlamaCloud (env : Server)
    (args : UploadToLlamaCloud.Arguments) : M Site (option (list string)) :=
  fun s =>
    match uploadToLlamaCloud env with
    | InvocationThrows e => (Throw e, s)
    | Refuses errors => (Normal (Some errors), s)
    | Runs lambda =>
        let out := UploadToLlamaCloud.handler lambda args (start_of (topics s)) in
        (Normal None, {| topics := table (snd out); objects := objects s |})
    end.

(** [session.identityId || session.tokens?.accessToken.payload.sub]. *)
Definition userId (session : Auth.AuthSession) : option string :=
  if truthy_opt_string (Auth.identityId session) then Auth.identityId session
  else
    match Auth.tokens session with
    | Some tokens => Auth.sub tokens
    | None => None
    end.

Definition fileKey (env : Server) (userId name : string) : string :=
  "send-connect-raw-docs/" +:+ userId +:+ "/" +:+
  Number_toString env (number_of_Z (Date_now env)) +:+ "-" +:+ sanitizedFileName name.

(** The operation given to [runWithAmplifyServerContext]: the upload to S3
    with the credentials of the session. *)
Definition upload_operation (env : Server) (file : File.File)
    (data : FormSchema.TopicUploadFormData) (fileBuffer : list Byte.byte) : M Site string :=
  session <- await (fetchAuthSession env) ;;
  match Auth.credentials session with
  | None => throw (Error "Error fetching authentication session from cookies")
  | Some credentials =>
  let userId := userId session in
  if negb (truthy_opt_string userId)
  then throw (Error "Unable to determine user ID from session")
  else
  let fileKey := fileKey env (string_of_opt userId) (File.name file) in
  _ <- s3Client_send_PutObjectCommand env
         {| S3.Bucket := storage_bucket_name env;
            S3.Key := fileKey;
            S3.Body := fileBuffer;
            S3.ContentType := File.type file;
            S3.Metadata :=
              [("title", FormSchema.title data);
               ("description", FormSchema.description data);
               ("originalFileName", File.name file)] |} ;;
  ret fileKey
  end.

(** [createErrors?.map((e) => e.message).join(', ') || 'Failed to create
    Topic']. *)
Definition create_error (createErrors : option (list string)) : string :=
  match createErrors with
  | None => "Failed to create Topic"
  | Some messages =>
      if truthy_string (join ", " messages) then join ", " messages
      else "Failed to create Topic"
  end.

(** The body of the [try]. *)
Definition try_block (env : Server) (formData : FormData) : M Site value :=
  match file formData with
  | None => ret (failure "No file provided")
  | Some file =>
  (* Validate form data *)
  match FormSchema.TopicUploadSchema_safeParse
          {| FormSchema.title := title formData;
             FormSchema.description := description formData;
             FormSchema.fileName := File.name file;
             FormSchema.fileSize := File.size file;
             FormSchema.fileType := File.type file |} with
  | Zod.SafeParseError issues => ret (failure (join ", " issues))
  | Zod.SafeParseSuccess data =>
  (* Get bucket configuration *)
  if negb (existsb (String.eqb "SENDConnect-raw-docs") (storage_buckets env))
  then ret (failure "Storage configuration error")
  else
  fileBuffer <- await (File.arrayBuffer file) ;;
  fileKey <- upload_operation env file data fileBuffer ;;
  (* Step 2: Create Topic record with PENDING status *)
  created <- models_Topic_create env (FormSchema.title data)
               (FormSchema.description data) fileKey ;;
  match created with
  | (Some topic, None) =>
      (* Step 3: Invoke uploadToLlamaCloud mutation to start indexing *)
      uploadErrors <-
        mutations_uploadToLlamaCloud env
          {| UploadToLlamaCloud.topicId := string_of_opt (topic !! "id");
             UploadToLlamaCloud.s3Key := fileKey;
             UploadToLlamaCloud.rawBucketName := storage_bucket_name env;
             UploadToLlamaCloud.topicTitle := FormSchema.title data |} ;;
      ret (VObject
        [("success", VBool true);
         ("data", VObject
            [("topicId", VString (string_of_opt (topic !! "id")));
             ("s3Key", VString fileKey);
             ("title", VString (FormSchema.title data));
             ("description", VString (FormSchema.description data));
             ("status", VString "PENDING");
             ("message",
              VString "Topic created successfully. Processing will begin shortly.")])])
  | (_, createErrors) => ret (failure (create_error createErrors))
  end
  end
  end.

Definition saveTopicDocument (env : Server) (formData : FormData) : M Site value :=
  try_catch (try_block env formData)
    (fun error =>
       ret (failure match error with
                    | JsError message => message
                    | NonError => "Failed to upload document"
                    end)).

End SaveTopicDocument.

(* ===================================================================== *)
(** ** What [saveTopicDocument] accepts and stores *)
(* ===================================================================== *)

(** What [TopicUploadSchema] asks of its input, in the words of its
    checks: the bounds are on the lengths before trimming, and inclusive. *)
Definition valid_upload (input : FormSchema.TopicUploadFormData) : bool :=
  (1 <=? String.length (FormSchema.title input))%nat
  && (String.length (FormSchema.title input) <=? 200)%nat
  && (1 <=? String.length (FormSchema.description input))%nat
  && (String.length (FormSchema.description input) <=? 1000)%nat
  && (1 <=? String.length (FormSchema.fileName input))%nat
  && (FormSchema.fileSize input <=? 10485760)%Z
  && String.eqb (FormSchema.fileType input) "application/pdf".

(** The input that [saveTopicDocument] hands to the schema. *)
Definition upload_input (formData : SaveTopicDocument.FormData) (file : File.File)
    : FormSchema.TopicUploadFormData :=
  {| FormSchema.title := SaveTopicDocument.title formData;
     FormSchema.description := SaveTopicDocument.description formData;
     FormSchema.fileName := File.name file;
     FormSchema.fileSize := File.size file;
     FormSchema.fileType := File.type file |}.

(** The form carries a file and passes the schema. *)
Definition acceptable (formData : SaveTopicDocument.FormData) : bool :=
  match SaveTopicDocument.file formData with
  | None => false
  | Some file => valid_upload (upload_input formData file)
  end.

Definition bucket_configured (env : SaveTopicDocument.Server) : bool :=
  existsb (String.eqb "SENDConnect-raw-docs") (SaveTopicDocument.storage_buckets env).

(** The object that the action stores for [file] under [key]. *)
Definition stored_object (env : SaveTopicDocument.Server)
    (formData : SaveTopicDocument.FormData) (file : File.File) (bytes : list Byte.byte)
    (key : string) : S3.PutObjectCommand :=
  {| S3.Bucket := SaveTopicDocument.storage_bucket_name env;
     S3.Key := key;
     S3.Body := bytes;
     S3.ContentType := File.type file;
     S3.Metadata :=
       [("title", trim (SaveTopicDocument.title formData));
        ("description", trim (SaveTopicDocument.description formData));
        ("originalFileName", File.name file)] |}.

(** The session lets the upload go ahead as the user [uid]. *)
Definition signed_in_as (env : SaveTopicDocument.Server) (uid : string) : Prop :=
  exists session,
    SaveTopicDocument.fetchAuthSession env = Normal session /\
    is_some (Auth.credentials session) = true /\
    SaveTopicDocument.userId session = Some uid /\
    truthy_string uid = true.

(** The arguments with which the action invokes the indexing handler. *)
Definition indexing_arguments (env : SaveTopicDocument.Server)
    (formData : SaveTopicDocument.FormData) (new_id key : string)
    : UploadToLlamaCloud.Arguments :=
  {| UploadToLlamaCloud.topicId := new_id;
     UploadToLlamaCloud.s3Key := key;
     UploadToLlamaCloud.rawBucketName := SaveTopicDocument.storage_bucket_name env;
     UploadToLlamaCloud.topicTitle := trim (SaveTopicDocument.title formData) |}.

(** The success response of the action. *)
Definition upload_response (formData : SaveTopicDocument.FormData)
    (new_id key : string) : value :=
  VObject
    [("success", VBool true);
     ("data", VObject
        [("topicId", VString new_id);
         ("s3Key", VString key);
         ("title", VString (trim (SaveTopicDocument.title formData)));
         ("description", VString (trim (SaveTopicDocument.description formData)));
         ("status", VString "PENDING");
         ("message",
          VString "Topic created successfully. Processing will begin shortly.")])].

(** The site after the object was stored, and with another Topic table. *)
Definition after_put (s : SaveTopicDocument.Site) (key : string)
    (object : S3.PutObjectCommand) : SaveTopicDocument.Site :=
  {| SaveTopicDocument.topics := SaveTopicDocument.topics s;
     SaveTopicDocument.objects := <[key := object]> (SaveTopicDocument.objects s) |}.

Definition with_topics (t : Table) (s : SaveTopicDocument.Site) : SaveTopicDocument.Site :=
  {| SaveTopicDocument.topics := t;
     SaveTopicDocument.objects := SaveTopicDocument.objects s |}.

Definition caught (error : thrown) : value :=
  SaveTopicDocument.failure
    match error with
    | JsError message => message
    | NonError => "Failed to upload document"
    end.

(** The form, the configuration, the file and the session let the action
    store the object: it reads the file as [bytes] and stores it as [uid]. *)
Definition uploads (env : SaveTopicDocument.Server)
    (formData : SaveTopicDocument.FormData) (file : File.File) (bytes : list Byte.byte)
    (uid : string) : Prop :=
  SaveTopicDocument.file formData = Some file /\
  valid_upload (upload_input formData file) = true /\
  bucket_configured env = true /\
  File.arrayBuffer file = Normal bytes /\
  signed_in_as env uid /\
  SaveTopicDocument.s3_putObject_fault env
    (stored_object env formData file bytes
       (SaveTopicDocument.fileKey env uid (File.name file))) = None.

(** How the action ends once the object is stored under [key]. *)
Definition outcome_after_put (env : SaveTopicDocument.Server)
    (formData : SaveTopicDocument.FormData) (key : string) (s1 : SaveTopicDocument.Site)
    : completion value * SaveTopicDocument.Site :=
  match SaveTopicDocument.Topic_create env with
  | Throw e => (Normal (caught e), s1)
  | Normal (None, errors) =>
      (Normal (SaveTopicDocument.failure (SaveTopicDocument.create_error errors)), s1)
  | Normal (Some (new_id, now), errors) =>
      let t1 :=
        run_op (OpCreate new_id now (trim (SaveTopicDocument.title formData))
                  (trim (SaveTopicDocument.description formData)) key)
          (SaveTopicDocument.topics s1) in
      match SaveTopicDocument.topics s1 !! new_id, errors with
      | None, None =>
          match SaveTopicDocument.uploadToLlamaCloud env with
          | SaveTopicDocument.InvocationThrows e => (Normal (caught e), with_topics t1 s1)
          | SaveTopicDocument.Refuses _ =>
              (Normal (upload_response formData new_id key), with_topics t1 s1)
          | SaveTopicDocument.Runs lambda =>
              (Normal (upload_response formData new_id key),
               with_topics
                 (run_op (OpIndex lambda (indexing_arguments env formData new_id key)) t1)
                 s1)
          end
      | _, _ =>
          (Normal (SaveTopicDocument.failure (SaveTopicDocument.create_error errors)),
           with_topics t1 s1)
      end
  end.

(** The request to create the Topic reaches the resolver. *)
Definition creates (env : SaveTopicDocument.Server) : bool :=
  match SaveTopicDocument.Topic_create env with
  | Normal (Some _, _) => true
  | _ => false
  end.

(** The record [item] is the Topic created for the object under [key]. *)
Definition topic_of_upload (formData : SaveTopicDocument.FormData) (key : string)
    (item : Item) : Prop :=
  item !! "s3Key" = Some key /\
  item !! "title" = Some (trim (SaveTopicDocument.title formData)) /\
  item !! "description" = Some (trim (SaveTopicDocument.description formData)).

(** The indexing run that the action starts, if it starts one, gets no
    empty id from the service. *)
Definition indexing_answers_ids (env : SaveTopicDocument.Server) : bool :=
  match SaveTopicDocument.uploadToLlamaCloud env with
  | SaveTopicDocument.Runs lambda => answers_ids lambda
  | _ => true
  end.

(* ===================================================================== *)
(** ** From the upload to the first query *)
(* ===================================================================== *)

(** The four steps of the indexing run succeed, with these answers. *)
Definition indexing_succeeds (lambda : Env) (pipeline file : IdBody) : Prop :=
  exists bytes r1 r2 r3,
    s3_getObject lambda = Normal {| Body := Some (Normal bytes) |} /\
    llama_create_pipeline lambda = Normal r1 /\ ok r1 = true /\
    body_json r1 = Normal pipeline /\
    llama_upload_file lambda = Normal r2 /\ ok r2 = true /\
    body_json r2 = Normal file /\
    llama_add_files lambda = Normal r3 /\ ok r3 = true.

(* ===================================================================== *)
(** ** Reading a parsed JSON value *)
(* ===================================================================== *)

(** [!!v]. *)
Definition truthy (v : value) : bool :=
  match v with
  | VUndefined | VNull => false
  | VBool b => b
  | VNumber n => truthy_number n
  | VString s => truthy_string s
  | VArray _ | VObject _ => true
  end.

(** [v.k] for a property [k] that no prototype defines: a [TypeError] on
    [null] and [undefined], the own property of an object, [undefined] on
    every other value. *)
Definition member (v : value) (k : string) : completion value :=
  match v with
  | VUndefined =>
      Throw (TypeError ("Cannot read properties of undefined (reading '" +:+ k +:+ "')"))
  | VNull => Throw (TypeError ("Cannot read properties of null (reading '" +:+ k +:+ "')"))
  | _ => Normal (get k v)
  end.

(** [v?.length]. *)
Definition length_of (v : value) : value :=
  match v with
  | VArray elems => VNumber (number_of_nat (List.length elems))
  | VString s => VNumber (number_of_nat (String.length s))
  | VObject props => assoc "length" props
  | _ => VUndefined
  end.

(** [v?.[0]]. *)
Definition first_of (v : value) : value :=
  match v with
  | VArray (x :: _) => x
  | VString (String c _) => VString (String c EmptyString)
  | VObject props => assoc "0" props
  | _ => VUndefined
  end.

(** [arr.forEach(f)] for a callback that may throw. *)
Fixpoint forEach (f : value -> nat -> completion unit) (i : nat) (arr : list value)
    : completion unit :=
  match arr with
  | [] => Normal tt
  | x :: rest =>
      match f x i with
      | Throw e => Throw e
      | Normal _ => forEach f (S i) rest
      end
  end.

(* ===================================================================== *)
(** ** [amplify/functions/test-query-llama-cloud/handler.ts] *)
(* ===================================================================== *)

Module TestQueryLlamaCloud.

Record Arguments : Type := {
  query : string;
  pipelineId : string
}.

Definition failure (error : string) : value :=
  VObject [("success", VBool false); ("error", VString error)].

(** The callback of [forEach]: what the three [console.log] lines evaluate,
    [node.score], [node.text?.substring(0, 100)] and [node.metadata]. *)
Definition log_node (node : value) (index : nat) : completion unit :=
  match member node "score" with
  | Throw e => Throw e
  | Normal _ =>
      match get "text" node with
      | VUndefined | VNull | VString _ => Normal tt
      | _ => Throw (TypeError "node.text?.substring is not a function")
      end
  end.

(** The body of the [try]; [retrieve] is the answer of the retrieval
    endpoint, its body parsed as JSON. *)
Definition try_block (env : Env) (retrieve : completion (Response value))
    (args : Arguments) (apiKey : string) : M World value :=
  response <-
    fetch retrieve
      {| url := "https://api.cloud.llamaindex.ai/api/v1/pipelines/" +:+ pipelineId args
                +:+ "/retrieve";
         method := "POST";
         headers := [("Authorization", "Bearer " +:+ apiKey);
                     ("Content-Type", "application/json")];
         body := JsonBody (VObject
           [("query", VString (query args));
            ("similarity_top_k", VNumber 5%float)]) |} ;;
  _ <- when (negb (ok response))
         (errorText <- await (body_text response) ;;
          throw (Error ("Llama Cloud query failed: " +:+
                        Number_toString env (number_of_Z (status response)) +:+
                        " - " +:+ errorText))) ;;
  result <- await (body_json response) ;;
  retrieval_nodes <- await (member result "retrieval_nodes") ;;
  _ <- when (truthy retrieval_nodes)
         match retrieval_nodes with
         | VArray nodes => await (forEach log_node 0 nodes)
         | _ => throw (TypeError "result.retrieval_nodes.forEach is not a function")
         end ;;
  ret (VObject
    [("success", VBool true);
     ("query", VString (query args));
     ("pipelineId", VString (pipelineId args));
     ("responseStructure", VObject
        [("hasRetrievalNodes", VBool (truthy retrieval_nodes));
         ("nodeCount",
          if truthy (length_of retrieval_nodes) then length_of retrieval_nodes
          else VNumber 0%float);
         ("sampleNode",
          if truthy (first_of retrieval_nodes) then first_of retrieval_nodes else VNull)]);
     ("fullResponse", result)]).

Definition handler (env : Env) (retrieve : completion (Response value))
    (args : Arguments) : M World value :=
  let apiKey := process_env env !! "LLAMA_CLOUD_API_KEY" in
  let organizationId := process_env env !! "LLAMA_CLOUD_ORGANIZATION_ID" in
  if negb (truthy_opt_string apiKey) || negb (truthy_opt_string organizationId)
  then ret (failure "Missing LLAMA_CLOUD_API_KEY or LLAMA_CLOUD_ORGANIZATION_ID")
  else
    let apiKey := default EmptyString apiKey in
    try_catch (try_block env retrieve args apiKey)
              (fun error => ret (failure (error_message error))).

End TestQueryLlamaCloud.

(* ===================================================================== *)
(** ** A retrieval answer as JSON *)
(* ===================================================================== *)

Definition json_of_page (p : PageLabel) : value :=
  match p with
  | PageNumber n => VNumber n
  | PageString s => VString s
  end.

Definition json_field {A : Type} (k : string) (f : A -> value) (o : option A)
    : list (string * value) :=
  match o with
  | Some a => [(k, f a)]
  | None => []
  end.

Definition json_of_extra_info (info : NodeExtraInfo) : value :=
  VObject (json_field "page_label" json_of_page (page_label info) ++
           json_field "file_name" VString (file_name info))%list.

(** The fields of a node, as the interface [RetrievalNode] names them. *)
Definition node_fields (n : RetrievalNode) : list (string * value) :=
  (("id_", VString (id_ n)) ::
   json_field "text" VString (text n) ++
   json_field "extra_info" json_of_extra_info (extra_info n))%list.

(** An element of [retrieval_nodes] in its two shapes: [{ node, score }],
    or the fields of the node and the score side by side. *)
Definition json_of_item (item : RetrievalResult) : value :=
  match item with
  | Wrapped n s => VObject (("node", VObject (node_fields n)) :: json_field "score" VNumber s)
  | Flat n s => VObject (node_fields n ++ json_field "score" VNumber s)%list
  end.

Definition json_of_retrieval (items : list RetrievalResult) : value :=
  VObject [("retrieval_nodes", VArray (map json_of_item items))].

(** A node that the diagnostic handler can log: not [null] or [undefined],
    and with a [text] that is a string or missing. *)
Definition loggable (node : value) : bool :=
  match node with
  | VUndefined | VNull => false
  | _ =>
      match get "text" node with
      | VUndefined | VNull | VString _ => true
      | _ => false
      end
  end.

Definition test_query_configured (env : Env) : Prop :=
  truthy_opt_string (process_env env !! "LLAMA_CLOUD_API_KEY") = true /\
  truthy_opt_string (process_env env !! "LLAMA_CLOUD_ORGANIZATION_ID") = true.

(** The request of the diagnostic handler. *)
Definition test_query_request (apiKey : string) (args : TestQueryLlamaCloud.Arguments)
    : Request :=
  {| url := "https://api.cloud.llamaindex.ai/api/v1/pipelines/" +:+
            TestQueryLlamaCloud.pipelineId args +:+ "/retrieve";
     method := "POST";
     headers := [("Authorization", "Bearer " +:+ apiKey);
                 ("Content-Type", "application/json")];
     body := JsonBody (VObject
       [("query", VString (TestQueryLlamaCloud.query args));
        ("similarity_top_k", VNumber 5%float)]) |}.

(** [n || 0]. *)
Definition or_zero (n : float) : float := if truthy_number n then n else 0%float.

(** A parsed answer that the diagnostic handler gets through: it is not
    [null], and its [retrieval_nodes] are falsy or an array of nodes that can
    be logged. *)
Definition inspectable (result : value) : bool :=
  match member result "retrieval_nodes" with
  | Throw _ => false
  | Normal retrieval_nodes =>
      negb (truthy retrieval_nodes)
      || match retrieval_nodes with
         | VArray nodes => forallb loggable nodes
         | _ => false
         end
  end.

(** The success response of the diagnostic handler. *)
Definition test_query_response (args : TestQueryLlamaCloud.Arguments) (result : value)
    : value :=
  let retrieval_nodes := get "retrieval_nodes" result in
  VObject
    [("success", VBool true);
     ("query", VString (TestQueryLlamaCloud.query args));
     ("pipelineId", VString (TestQueryLlamaCloud.pipelineId args));
     ("responseStructure", VObject
        [("hasRetrievalNodes", VBool (truthy retrieval_nodes));
         ("nodeCount",
          match retrieval_nodes with
          | VArray nodes => VNumber (or_zero (number_of_nat (List.length nodes)))
          | _ => VNumber 0%float
          end);
         ("sampleNode",
          match retrieval_nodes with
          | VArray (node :: _) => if truthy node then node else VNull
          | _ => VNull
          end)]);
     ("fullResponse", result)].

(** The parsed body that the diagnostic handler gets through: the answer
    came with a success status and a JSON body that is inspectable. *)
Definition inspected (retrieve : completion (Response value)) : option value :=
  match answered retrieve with
  | Some result => if inspectable result then Some result else None
  | None => None
  end.

(* ===================================================================== *)
(** ** [src/lib/amplify-utils.ts]: the group checks *)
(* ===================================================================== *)

(** [groups.includes(name)] on an array of JSON values. *)
Definition includes (name : string) (groups : list value) : bool :=
  existsb (fun v => match v with VString s => String.eqb s name | _ => false end) groups.

Module AmplifyUtils.

(** Each check fetches the session anew; [session] is the outcome of its
    [fetchAuthSession]. The tokens of a session always hold the access
    token, so [Object.keys(tokens).length > 0] holds of them. *)
Definition getUserGroups (session : completion Auth.AuthSession) : list string :=
  match session with
  | Throw _ => []
  | Normal session =>
      match Auth.tokens session with
      | None => []
      | Some tokens =>
          match Auth.cognito_groups tokens with
          | VArray groups =>
              omap (fun group => match group with VString s => Some s | _ => None end)
                groups
          | _ => []
          end
      end
  end.

Definition checkIsAdmin (session : completion Auth.AuthSession) : bool :=
  existsb (String.eqb "ADMIN") (getUserGroups session).

Definition checkCanAccessAuthRoutes (session : completion Auth.AuthSession) : bool :=
  existsb (fun group => existsb (String.eqb group) ["ADMIN"]) (getUserGroups session).

Definition checkCanAccessAdminRoutes (session : completion Auth.AuthSession) : bool :=
  existsb (String.eqb "ADMIN") (getUserGroups session).

(** [session.tokens?.accessToken?.payload['cognito:groups'] || []], then
    [Array.isArray(groups) && groups.includes(groupName)]. *)
Definition isUserInGroup (groupName : string) (session : completion Auth.AuthSession)
    : bool :=
  match session with
  | Throw _ => false
  | Normal session =>
      let groups :=
        match Auth.tokens session with
        | None => VArray []
        | Some tokens =>
            if truthy (Auth.cognito_groups tokens) then Auth.cognito_groups tokens
            else VArray []
        end in
      match groups with
      | VArray groups => includes groupName groups
      | _ => false
      end
  end.

End AmplifyUtils.

(* ===================================================================== *)
(** ** [src/middleware.ts] *)
(* ===================================================================== *)

Module Middleware.

(** What the middleware answers: [NextResponse.next()], or a redirect to a
    path of the same origin with its search parameters. *)
Inductive NextResponse : Type :=
| next
| redirect (pathname : string) (searchParams : list (string * string)).

(** The operation given to [runWithAmplifyServerContext]: the pair
    [{ authenticated, isAdmin }]. *)
Definition operation (session : completion Auth.AuthSession) : bool * bool :=
  match session with
  | Throw _ => (false, false)
  | Normal session =>
      match Auth.tokens session with
      | None => (false, false)
      | Some tokens =>
          let groups := Auth.cognito_groups tokens in
          let hasAdminRole :=
            match groups with
            | VArray groups => includes "ADMIN" groups
            | _ => false
            end in
          (true, hasAdminRole)
      end
  end.

Definition middleware (session : completion Auth.AuthSession) (pathname : string)
    : NextResponse :=
  let isAdminRoute := String.prefix "/admin" pathname in
  let '(authenticated, isAdmin) := operation session in
  if negb authenticated then redirect "/login" [("redirect", pathname)]
  else if isAdminRoute && negb isAdmin then redirect "/auth/home" []
  else next.

End Middleware.

(* ===================================================================== *)
(** ** The admin link of the navigation and the admin page *)
(* ===================================================================== *)

Module AdminNavLink.

(** [checkAdminStatus]: the value that it gives [setIsAdmin]. *)
Definition checkAdminStatus (session : completion Auth.AuthSession) : bool :=
  match session with
  | Throw _ => false
  | Normal session =>
      let groups :=
        match Auth.tokens session with
        | None => VArray []
        | Some tokens =>
            if truthy (Auth.cognito_groups tokens) then Auth.cognito_groups tokens
            else VArray []
        end in
      match groups with
      | VArray groups => includes "ADMIN" groups
      | _ => false
      end
  end.

End AdminNavLink.

Module MaintainTopicPage.

(** The server-side authorization check of the page: the path it redirects
    to, if it does. *)
Definition authorization (session : completion Auth.AuthSession) : option string :=
  let isAdmin := AmplifyUtils.checkIsAdmin session in
  if negb isAdmin then Some "/auth/home" else None.

End MaintainTopicPage.

(** The session is signed in: it resolved and has tokens. *)
Definition signed_in (session : completion Auth.AuthSession) : bool :=
  match session with
  | Normal session => is_some (Auth.tokens session)
  | Throw _ => false
  end.

(** The access token of the session lists the group [name]. *)
Definition in_group (name : string) (session : completion Auth.AuthSession) : bool :=
  match session with
  | Normal session =>
      match Auth.tokens session with
      | Some tokens =>
          match Auth.cognito_groups tokens with
          | VArray groups => existsb (fun v => match v with
                                               | VString s => String.eqb s name
                                               | _ => false
                                               end) groups
          | _ => false
          end
      | None => false
      end
  | Throw _ => false
  end.

(* ===================================================================== *)
(** ** [src/_actions/user-actions.ts] *)
(* ===================================================================== *)

Module UserActions.

(** The attributes of the signed-in user that the action reads. *)
Record UserAttributes : Type := {
  email : option string;
  given_name : option string;
  family_name : option string;
  phone_number : option string
}.

(** A record of the User table: what the action stores, under the [id] and
    with the timestamp that the resolver assigns. *)
Record User : Type := {
  id : string;
  data : FormSchema.UserFormData;
  createdAt : Z
}.

(** What one call depends on outside the repository: the pattern of
    [z.string().email()]; the attributes of the user; whether
    [models.User.listByEmail] answers with its data ([true]) or with
    [data: null] and errors; and, of [models.User.create], the id and the
    time that the resolver assigns when the request reaches it, and the
    [errors] of the answer. *)
Record Server : Type := {
  is_email : string -> bool;
  fetchUserAttributes : completion UserAttributes;
  User_listByEmail : completion bool;
  User_create : completion (option (string * Z) * option (list string))
}.

(** The User table, in the order of creation. *)
Abbreviation Users := (list User).

Definition failure (error : string) : value :=
  VObject [("success", VBool false); ("error", VString error)].

Definition already_exists : value :=
  VObject [("success", VBool true); ("error", VNull);
           ("message", VString "User record already exists")].

Definition value_of_user (user : User) : value :=
  VObject
    [("id", VString (id user));
     ("givenName", VString (FormSchema.givenName (data user)));
     ("familyName", VString (FormSchema.familyName (data user)));
     ("email", VString (FormSchema.email (data user)));
     ("phoneNumber",
      match FormSchema.phoneNumber (data user) with
      | Some p => VString p
      | None => VNull
      end);
     ("createdAt", VString (toISOString (createdAt user)));
     ("updatedAt", VString (toISOString (createdAt user)))].

(** [cookieBasedClient.models.User.listByEmail({ email })], giving [data]. *)
Definition models_User_listByEmail (env : Server) (email : string)
    : M Users (option (list User)) :=
  fun users =>
    match User_listByEmail env with
    | Throw e => (Throw e, users)
    | Normal false => (Normal None, users)
    | Normal true =>
        (Normal (Some (filter (fun user => FormSchema.email (data user) = email) users)),
         users)
    end.

(** [cookieBasedClient.models.User.create(input)], giving [data] and
    [errors]; the resolver writes under the condition that the id is new. *)
Definition models_User_create (env : Server) (input : FormSchema.UserFormData)
    : M Users (option User * option (list string)) :=
  fun users =>
    match User_create env with
    | Throw e => (Throw e, users)
    | Normal (None, errors) => (Normal (None, errors), users)
    | Normal (Some (new_id, now), errors) =>
        if existsb (fun user => String.eqb (id user) new_id) users
        then (Normal (None, errors), users)
        else
          let user := {| id := new_id; data := input; createdAt := now |} in
          (Normal (Some user, errors), (users ++ [user])%list)
    end.

Definition createUserFromCognito (env : Server) (userData : FormSchema.UserFormData)
    : M Users value :=
  try_catch
    (match FormSchema.UserSchema_safeParse (is_email env) userData with
     | Zod.SafeParseError _ => ret (failure "Invalid user data from Cognito")
     | Zod.SafeParseSuccess validated =>
     (* Check if user already exists in database *)
     existingUsers <- models_User_listByEmail env (FormSchema.email validated) ;;
     if match existingUsers with
        | Some existing => (0 <? List.length existing)%nat
        | None => false
        end
     then ret already_exists
     else
     (* Create new user record *)
     created <-
       models_User_create env
         {| FormSchema.givenName := FormSchema.givenName validated;
            FormSchema.familyName := FormSchema.familyName validated;
            FormSchema.email := FormSchema.email validated;
            FormSchema.phoneNumber :=
              if truthy_opt_string (FormSchema.phoneNumber validated)
              then FormSchema.phoneNumber validated else None |} ;;
     match created with
     | (Some user, None) | (Some user, Some []) =>
         ret (VObject [("success", VBool true); ("error", VNull);
                       ("data", value_of_user user)])
     | (_, errors) =>
         ret (failure
                match errors with
                | None => "Unknown error"
                | Some messages =>
                    if truthy_string (join "; " messages) then join "; " messages
                    else "Unknown error"
                end)
     end
     end)
    (fun error =>
       ret (failure match error with
                    | JsError message => message
                    | NonError => "Failed to create user record"
                    end)).

Definition ensureUserRecordExists (env : Server) : M Users value :=
  try_catch
    (userAttributes <- await (fetchUserAttributes env) ;;
     if negb (truthy_opt_string (email userAttributes))
        || negb (truthy_opt_string (given_name userAttributes))
        || negb (truthy_opt_string (family_name userAttributes))
     then ret (failure "Missing required user data")
     else
       createUserFromCognito env
         {| FormSchema.givenName := string_of_opt (given_name userAttributes);
            FormSchema.familyName := string_of_opt (family_name userAttributes);
            FormSchema.email := string_of_opt (email userAttributes);
            FormSchema.phoneNumber := phone_number userAttributes |})
    (fun error =>
       ret (failure match error with
                    | JsError message => message
                    | NonError => "Failed to ensure user record"
                    end)).

End UserActions.

(** The table holds a record with the email [email]. *)
Definition has_user (email : string) (users : UserActions.Users) : Prop :=
  exists user, In user users /\ FormSchema.email (UserActions.data user) = email.

(* ===================================================================== *)
(** ** [src/components/ui/admin/topic-upload-form.tsx]: the file picker *)
(* ===================================================================== *)

Module TopicUploadForm.

(** What [onDrop] does with the accepted files: nothing, an alert, or the
    selection of the first file. *)
Inductive Dropped : Type :=
| Nothing
| Alert (message : string)
| Selected (file : File.File).

Definition onDrop (acceptedFiles : list File.File) : Dropped :=
  match acceptedFiles with
  | [] => Nothing
  | file :: _ =>
      (* Validate file size (10 MB) *)
      if (10 * 1024 * 1024 <? File.size file)%Z
      then Alert "File size must be less than 10 MB"
      (* Validate file type *)
      else if negb (String.eqb (File.type file) "application/pdf")
      then Alert "Only PDF files are allowed"
      else Selected file
  end.

End TopicUploadForm.

(* ===================================================================== *)
(** ** [src/lib/passwordValidation.ts], the sign-up form and the pool *)
(* ===================================================================== *)

(** Some character of [s] satisfies [p]: [/[class]/.test(s)]. *)
Fixpoint any_char (p : ascii -> bool) (s : string) : bool :=
  match s with
  | EmptyString => false
  | String c rest => p c || any_char p rest
  end.

Definition is_upper (c : ascii) : bool :=
  let n := nat_of_ascii c in (65 <=? n)%nat && (n <=? 90)%nat.

Definition is_lower (c : ascii) : bool :=
  let n := nat_of_ascii c in (97 <=? n)%nat && (n <=? 122)%nat.

Module PasswordValidation.

Record PasswordValidationResult : Type := {
  isValid : bool;
  error : option string
}.

Definition validatePassword (password : string) : PasswordValidationResult :=
  if (String.length password <? 8)%nat
  then {| isValid := false;
          error := Some "Password must be at least 8 characters long" |}
  else if negb (any_char is_upper password)
  then {| isValid := false;
          error := Some "Password must contain at least one uppercase letter" |}
  else if negb (any_char is_lower password)
  then {| isValid := false;
          error := Some "Password must contain at least one lowercase letter" |}
  else if negb (any_char is_digit password)
  then {| isValid := false;
          error := Some "Password must contain at least one number" |}
  else if negb (any_char (fun c => negb (is_upper c || is_lower c || is_digit c)) password)
  then {| isValid := false;
          error := Some "Password must contain at least one special character" |}
  else {| isValid := true; error := None |}.

Definition validatePasswordMatch (password confirmPassword : string)
    : PasswordValidationResult :=
  if negb (String.eqb password confirmPassword)
  then {| isValid := false; error := Some "Passwords do not match" |}
  else {| isValid := true; error := None |}.

End PasswordValidation.

Module SignupForm.

(** [result.error || '']. *)
Definition error_or_empty (result : PasswordValidation.PasswordValidationResult)
    : string :=
  match PasswordValidation.error result with
  | Some e => e
  | None => EmptyString
  end.

(** The memoised [passwordError] of the form. *)
Definition passwordError (password confirmPassword : string) : string :=
  if negb (truthy_string password) then EmptyString
  else
    let validationResult := PasswordValidation.validatePassword password in
    if negb (PasswordValidation.isValid validationResult)
    then error_or_empty validationResult
    else if truthy_string confirmPassword
    then error_or_empty (PasswordValidation.validatePasswordMatch password confirmPassword)
    else EmptyString.

End SignupForm.

Module Backend.

(** [cfnUserPool.policies.passwordPolicy] of [amplify/backend.ts]. *)
Record PasswordPolicy : Type := {
  minimumLength : nat;
  requireLowercase : bool;
  requireNumbers : bool;
  requireSymbols : bool;
  requireUppercase : bool;
  temporaryPasswordValidityDays : nat
}.

Definition passwordPolicy : PasswordPolicy :=
  {| minimumLength := 12;
     requireLowercase := true;
     requireNumbers := true;
     requireSymbols := true;
     requireUppercase := true;
     temporaryPasswordValidityDays := 10 |}.

End Backend.

(** The five requirements of [validatePassword]. *)
Definition strong (password : string) : bool :=
  (8 <=? String.length password)%nat
  && any_char is_upper password
  && any_char is_lower password
  && any_char is_digit password
  && any_char (fun c => negb (is_upper c || is_lower c || is_digit c)) password.

(* ===================================================================== *)
(** ** Scenarios of the upload *)
(* ===================================================================== *)

Module UploadScenario.

Definition jcq_pdf : File.File :=
  {| File.name := "JCQ AA 2025 (final).pdf";
     File.size := 4;
     File.type := "application/pdf";
     File.arrayBuffer := Normal [Byte.x25; Byte.x50; Byte.x44; Byte.x46] |}.

Definition photo : File.File :=
  {| File.name := "photo.png";
     File.size := 4;
     File.type := "image/png";
     File.arrayBuffer := Normal [Byte.x89; Byte.x50; Byte.x4e; Byte.x47] |}.

Definition form (file : File.File) : SaveTopicDocument.FormData :=
  {| SaveTopicDocument.title := "  JCQ Access Arrangements ";
     SaveTopicDocument.description := "Guidance";
     SaveTopicDocument.file := Some file |}.

Definition admin : Auth.AuthSession :=
  {| Auth.credentials :=
       Some {| Auth.accessKeyId := "access-key-id";
               Auth.secretAccessKey := "secret-access-key";
               Auth.sessionToken := None |};
     Auth.identityId := Some "eu-west-2:identity-1";
     Auth.tokens :=
       Some {| Auth.sub := Some "sub-1";
               Auth.cognito_groups := VArray [VString "ADMIN"] |} |}.

(** A server on which the session, the bucket and S3 are fine. *)
Definition server (create : completion (option (string * Z) * option (list string)))
    (invoke : SaveTopicDocument.Invocation) : SaveTopicDocument.Server :=
  {| SaveTopicDocument.storage_buckets := ["SENDConnect-raw-docs"];
     SaveTopicDocument.storage_bucket_name := "raw-docs";
     SaveTopicDocument.Date_now := 1762000000000;
     SaveTopicDocument.Number_toString := Scenario.integer_toString;
     SaveTopicDocument.fetchAuthSession := Normal admin;
     SaveTopicDocument.s3_putObject_fault := fun _ => None;
     SaveTopicDocument.Topic_create := create;
     SaveTopicDocument.uploadToLlamaCloud := invoke |}.

Definition creating : completion (option (string * Z) * option (list string)) :=
  Normal (Some ("topic-2", 1762000000500%Z), None).

Definition unauthorized : completion (option (string * Z) * option (list string)) :=
  Normal (None, Some ["Not Authorized to access createTopic on type Mutation"]).

(** The site with the indexed topic-1 and an empty bucket. *)
Definition site : SaveTopicDocument.Site :=
  {| SaveTopicDocument.topics := Scenario.indexed; SaveTopicDocument.objects := ∅ |}.

Definition key : string :=
  "send-connect-raw-docs/eu-west-2:identity-1/1762000000000-JCQ_AA_2025__final_.pdf".

Definition status_of (s : SaveTopicDocument.Site) (k : string) : option string :=
  Scenario.attribute (SaveTopicDocument.topics s) k "topicStatus".

End UploadScenario.

(* ===================================================================== *)
(** ** Scenarios of the diagnostic handler and of the User record *)
(* ===================================================================== *)

Module DiagnosticScenario.

(** The environment of the scenarios with the organization id set. *)
Definition env : Env :=
  {| process_env := <["LLAMA_CLOUD_ORGANIZATION_ID" := "org-1"]> Scenario.variables;
     topic_table_name := topic_table_name Scenario.all_fine;
     clock := clock Scenario.all_fine;
     Number_toString := Number_toString Scenario.all_fine;
     ddb_get_fault := None;
     ddb_update_fault := fun _ => None;
     s3_getObject := s3_getObject Scenario.all_fine;
     llama_create_pipeline := llama_create_pipeline Scenario.all_fine;
     llama_upload_file := llama_upload_file Scenario.all_fine;
     llama_add_files := llama_add_files Scenario.all_fine;
     llama_retrieve := llama_retrieve Scenario.all_fine;
     anthropic_create := anthropic_create Scenario.all_fine |}.

Definition ask : TestQueryLlamaCloud.Arguments :=
  {| TestQueryLlamaCloud.query := "Which access arrangements exist?";
     TestQueryLlamaCloud.pipelineId := "pipe-1" |}.

(** An answer with one passage in each shape. *)
Definition both_shapes : value :=
  json_of_retrieval [Scenario.flat_passage; Scenario.passage_45].

End DiagnosticScenario.

Module UserScenario.

(** A stand-in for the email pattern: the data holds an at sign. *)
Definition is_email (s : string) : bool := any_char (Ascii.eqb "@") s.

Definition ada : FormSchema.UserFormData :=
  {| FormSchema.givenName := "Ada";
     FormSchema.familyName := "Lovelace";
     FormSchema.email := "ada@example.org";
     FormSchema.phoneNumber := Some "" |}.

Definition server (creates : completion (option (string * Z) * option (list string)))
    : UserActions.Server :=
  {| UserActions.is_email := is_email;
     UserActions.fetchUserAttributes :=
       Normal {| UserActions.email := Some "ada@example.org";
                 UserActions.given_name := Some "Ada";
                 UserActions.family_name := Some "Lovelace";
                 UserActions.phone_number := None |};
     UserActions.User_listByEmail := Normal true;
     UserActions.User_create := creates |}.

Definition first_login : UserActions.Server :=
  server (Normal (Some ("user-1", 1762000000000%Z), None)).

Definition second_login : UserActions.Server :=
  server (Normal (Some ("user-2", 1762000600000%Z), None)).

End UserScenario.

(* ===================================================================== *)
(** * Properties *)
(* ===================================================================== *)

(** ** The runtime helpers on concrete inputs *)

Example toISOString_epoch : toISOString 0 = "1970-01-01T00:00:00.000Z".
Proof. reflexivity. Qed.

Example toISOString_leap_day : toISOString 951782400000 = "2000-02-29T00:00:00.000Z".
Proof. vm_compute. reflexivity. Qed.

Example toISOString_before_epoch : toISOString (-1) = "1969-12-31T23:59:59.999Z".
Proof. vm_compute. reflexivity. Qed.

Example toISOString_expanded_year :
  toISOString 253402300800000 = "+010000-01-01T00:00:00.000Z".
Proof. vm_compute. reflexivity. Qed.

Example pipeline_name_prefix :
  replace_non_alnum_runs false (toLowerCase "JCQ Access  Arrangements (2025)")
  = "jcq-access-arrangements-2025-".
Proof. reflexivity. Qed.

Example last_segment_of_key :
  last_segment EmptyString "send-connect-raw-docs/user-1/17-doc.pdf" = "17-doc.pdf".
Proof. reflexivity. Qed.

Example last_segment_trailing_slash : last_segment EmptyString "folder/" = EmptyString.
Proof. reflexivity. Qed.

Example trim_both_ends : trim ("  a b " +:+ nl) = "a b".
Proof. reflexivity. Qed.

Example number_of_nat_0 : number_of_nat 0 = 0%float.
Proof. reflexivity. Qed.

(** ** A small logic for runs *)

Section Logic.
Context {S : Type}.

Lemma keeps_ret {A : Type} (I : S -> Prop) (a : A) : keeps I (ret a).
Proof. intros s H. exact H. Qed.

Lemma keeps_throw {A : Type} (I : S -> Prop) (e : thrown) : keeps I (@throw S A e).
Proof. intros s H. exact H. Qed.

Lemma keeps_await {A : Type} (I : S -> Prop) (c : completion A) : keeps I (await c).
Proof. intros s H. exact H. Qed.

Lemma keeps_bind {A B : Type} (I : S -> Prop) (m : M S A) (k : A -> M S B) :
  keeps I m -> (forall a, keeps I (k a)) -> keeps I (bind m k).
Proof.
  intros Hm Hk s H. unfold bind. specialize (Hm s H).
  destruct (m s) as [[a | e] s']; cbn in *.
  - apply Hk, Hm.
  - exact Hm.
Qed.

Lemma keeps_try_catch {A : Type} (I : S -> Prop) (body : M S A) (h : thrown -> M S A) :
  keeps I body -> (forall e, keeps I (h e)) -> keeps I (try_catch body h).
Proof.
  intros Hb Hh s H. unfold try_catch. specialize (Hb s H).
  destruct (body s) as [[a | e] s']; cbn in *.
  - exact Hb.
  - apply Hh, Hb.
Qed.

Lemma keeps_when (I : S -> Prop) (cond : bool) (body : M S unit) :
  keeps I body -> keeps I (when cond body).
Proof. intros Hb. destruct cond; [exact Hb | apply keeps_ret]. Qed.

Lemma yields_ret {A : Type} (P : A -> Prop) (a : A) : P a -> yields P (@ret S A a).
Proof. intros H s a' E. cbn in E. injection E as <-. exact H. Qed.

Lemma yields_throw {A : Type} (P : A -> Prop) (e : thrown) : yields P (@throw S A e).
Proof. intros s a E. discriminate E. Qed.

Lemma yields_bind {A B : Type} (P : B -> Prop) (m : M S A) (k : A -> M S B) :
  (forall a, yields P (k a)) -> yields P (bind m k).
Proof.
  intros Hk s b. unfold bind.
  destruct (m s) as [[a | e] s'] eqn:E; cbn.
  - apply Hk.
  - discriminate.
Qed.

Lemma yields_try_catch {A : Type} (P : A -> Prop) (body : M S A) (h : thrown -> M S A) :
  yields P body -> (forall e, yields P (h e)) -> yields P (try_catch body h).
Proof.
  intros Hb Hh s a. unfold try_catch.
  destruct (body s) as [[a' | e] s'] eqn:E; cbn.
  - intros Ea. apply (Hb s). rewrite E. exact Ea.
  - apply Hh.
Qed.

(** A [try] whose [catch] completes normally completes normally. *)
Lemma never_throws_try_catch {A : Type} (body : M S A) (h : thrown -> M S A) :
  (forall e, never_throws (h e)) -> never_throws (try_catch body h).
Proof.
  intros Hh s. unfold try_catch.
  destruct (body s) as [[a | e] s']; cbn.
  - exists a. reflexivity.
  - apply Hh.
Qed.

Lemma never_throws_ret {A : Type} (a : A) : never_throws (@ret S A a).
Proof. intros s. exists a. reflexivity. Qed.

Lemma never_throws_bind {A B : Type} (m : M S A) (k : A -> M S B) :
  never_throws m -> (forall a, never_throws (k a)) -> never_throws (bind m k).
Proof.
  intros Hm Hk s. unfold bind. destruct (Hm s) as [a Ha].
  destruct (m s) as [[a' | e] s']; cbn in *; [apply Hk | discriminate].
Qed.
End Logic.

(** The local variable of a block is invisible to a property of the world. *)
Lemma keeps_lift {L A : Type} (I : World -> Prop) (m : M World A) :
  keeps I m -> keeps (fun s : World * L => I (fst s)) (lift m).
Proof.
  intros Hm [w l] H. unfold lift. cbn in *. specialize (Hm w H).
  destruct (m w) as [r w']. exact Hm.
Qed.

Lemma keeps_read_local {L : Type} (I : World -> Prop) :
  keeps (fun s : World * L => I (fst s)) read_local.
Proof. intros s H. exact H. Qed.

Lemma keeps_assign_local {L : Type} (I : World -> Prop) (v : L) :
  keeps (fun s : World * L => I (fst s)) (assign_local v).
Proof. intros s H. exact H. Qed.

Lemma keeps_with_local {L A : Type} (I : World -> Prop) (init : L) (m : M (World * L) A) :
  keeps (fun s : World * L => I (fst s)) m -> keeps I (with_local init m).
Proof.
  intros Hm w H. unfold with_local. specialize (Hm (w, init) H).
  destruct (m (w, init)) as [r s']. exact Hm.
Qed.



Lemma keeps_new_Date (J : Table -> Prop) (env : Env) : keeps (on_table J) (new_Date env).
Proof. intros w H. exact H. Qed.

Lemma keeps_fetch {B : Type} (J : Table -> Prop) (answer : completion (Response B))
    (req : Request) : keeps (on_table J) (fetch answer req).
Proof. intros w H. exact H. Qed.

Lemma keeps_GetObject (J : Table -> Prop) (env : Env) (bucket key : string) :
  keeps (on_table J) (s3Client_send_GetObjectCommand env bucket key).
Proof. intros w H. exact H. Qed.

Lemma keeps_messages_create (J : Table -> Prop) (env : Env) (params : MessageCreateParams) :
  keeps (on_table J) (anthropic_messages_create env params).
Proof. intros w H. exact H. Qed.

Lemma keeps_GetCommand (J : Table -> Prop) (env : Env) (tableName key : string) :
  keeps (on_table J) (docClient_send_GetCommand env tableName key).
Proof.
  intros w H. unfold docClient_send_GetCommand.
  destruct (ddb_get_fault env); [exact H |].
  destruct (negb _); exact H.
Qed.

(** An [UpdateCommand] keeps what every successful [UpdateItem] keeps. *)
Lemma keeps_UpdateCommand (J : Table -> Prop) (env : Env) (cmd : UpdateCommand) :
  (forall t t', J t -> UpdateItem cmd t = Normal t' -> J t') ->
  keeps (on_table J) (docClient_send_UpdateCommand env cmd).
Proof.
  intros Hcmd w H. unfold docClient_send_UpdateCommand.
  destruct (ddb_update_fault env cmd); [exact H |].
  destruct (negb _); [exact H |].
  destruct (UpdateItem cmd (table (record_call (CallUpdate cmd) w))) as [t' | e] eqn:E;
    [| exact H].
  exact (Hcmd _ _ H E).
Qed.

(** ** What the indexing handler writes *)

Lemma UpdateItem_INDEXING (tn k ts : string) (t : Table) :
  UpdateItem
    {| TableName := tn; Key := k;
       UpdateExpression := [("topicStatus", ":status"); ("updatedAt", ":updatedAt")];
       ExpressionAttributeValues := [(":status", "INDEXING"); (":updatedAt", ts)] |} t
  = Normal (<[k := <["updatedAt" := ts]> (<["topicStatus" := "INDEXING"]> (item_at k t))]> t).
Proof. reflexivity. Qed.

Lemma UpdateItem_READY (tn k p f ts1 ts2 : string) (t : Table) :
  UpdateItem
    {| TableName := tn; Key := k;
       UpdateExpression :=
         [("llamaCloudPipelineId", ":pipelineId"); ("llamaCloudFileId", ":fileId");
          ("topicStatus", ":status"); ("indexedAt", ":indexedAt");
          ("updatedAt", ":updatedAt")];
       ExpressionAttributeValues :=
         [(":pipelineId", p); (":fileId", f); (":status", "READY");
          (":indexedAt", ts1); (":updatedAt", ts2)] |} t
  = Normal (<[k := <["updatedAt" := ts2]> (<["indexedAt" := ts1]>
              (<["topicStatus" := "READY"]> (<["llamaCloudFileId" := f]>
                 (<["llamaCloudPipelineId" := p]> (item_at k t)))))]> t).
Proof. reflexivity. Qed.

Lemma UpdateItem_FAILED (tn k ts : string) (t : Table) :
  UpdateItem
    {| TableName := tn; Key := k;
       UpdateExpression := [("topicStatus", ":status"); ("updatedAt", ":updatedAt")];
       ExpressionAttributeValues := [(":status", "FAILED"); (":updatedAt", ts)] |} t
  = Normal (<[k := <["updatedAt" := ts]> (<["topicStatus" := "FAILED"]> (item_at k t))]> t).
Proof. reflexivity. Qed.

Lemma UpdateItem_FAILED_pipeline (tn k p ts : string) (t : Table) :
  UpdateItem
    {| TableName := tn; Key := k;
       UpdateExpression :=
         [("topicStatus", ":status"); ("llamaCloudPipelineId", ":pipelineId");
          ("updatedAt", ":updatedAt")];
       ExpressionAttributeValues :=
         [(":status", "FAILED"); (":updatedAt", ts); (":pipelineId", p)] |} t
  = Normal (<[k := <["updatedAt" := ts]> (<["llamaCloudPipelineId" := p]>
              (<["topicStatus" := "FAILED"]> (item_at k t)))]> t).
Proof. reflexivity. Qed.

(** The handler's placeholders and values always agree: DynamoDB accepts
    each of its commands. *)
Lemma handler_write_accepted (k : string) (cmd : UpdateCommand) (t : Table) :
  handler_write k cmd -> exists t', UpdateItem cmd t = Normal t'.
Proof. intros []; eexists; reflexivity. Qed.

(** An update touches the item under its key only. *)
Lemma UpdateItem_frame (cmd : UpdateCommand) (t t' : Table) (k : string) :
  UpdateItem cmd t = Normal t' -> k <> Key cmd -> t' !! k = t !! k.
Proof.
  unfold UpdateItem. intros H Hk.
  destruct (negb _); [discriminate |].
  destruct (resolve _ _); [| discriminate].
  injection H as <-. apply lookup_insert_ne. congruence.
Qed.

Lemma handler_write_Key (k : string) (cmd : UpdateCommand) :
  handler_write k cmd -> Key cmd = k.
Proof. intros []; reflexivity. Qed.

Ltac keeps_auto :=
  repeat first
    [ apply keeps_ret | apply keeps_throw | apply keeps_await
    | apply keeps_read_local | apply keeps_assign_local
    | apply keeps_lift
    | apply keeps_new_Date | apply keeps_fetch | apply keeps_GetObject
    | apply keeps_messages_create | apply keeps_GetCommand
    | apply keeps_when
    | apply keeps_bind; [ | intros ? ]
    | apply keeps_try_catch; [ | intros ? ]
    | match goal with
      | |- keeps _ (match ?x with _ => _ end) => destruct x
      end
    | progress cbv zeta ].

(** Whatever every write of the indexing handler keeps, the handler keeps. *)
Lemma upload_handler_keeps (J : Table -> Prop) (env : Env)
    (args : UploadToLlamaCloud.Arguments) :
  (forall cmd t t',
      handler_write (UploadToLlamaCloud.topicId args) cmd ->
      J t -> UpdateItem cmd t = Normal t' -> J t') ->
  keeps (on_table J) (UploadToLlamaCloud.handler env args).
Proof.
  intros HJ. unfold UploadToLlamaCloud.handler.
  cbv zeta. destruct (_ || _); [apply keeps_ret |].
  apply keeps_with_local.
  unfold UploadToLlamaCloud.try_block, UploadToLlamaCloud.catch_block.
  keeps_auto.
  all: try match goal with |- context [truthy_opt_string ?p] => destruct (truthy_opt_string p) end.
  all: apply keeps_UpdateCommand; intros t t' Ht Hu; refine (HJ _ _ _ _ Ht Hu).
  all: first [ apply write_INDEXING | apply write_READY | apply write_FAILED
             | apply write_FAILED_pipeline ].
Qed.

(** The update commands that a run of the indexing handler sends are among
    the four of [handler_write], for its own topicId. *)
Lemma logged_other_call (k : string) (before : list Call) (c : Call) (w : World) :
  (forall cmd, c <> CallUpdate cmd) ->
  only_handler_writes k before w -> only_handler_writes k before (record_call c w).
Proof.
  intros Hc H cmd Hin. cbn in Hin. apply in_app_or in Hin as [Hin | [-> | []]].
  - exact (H cmd Hin).
  - destruct (Hc cmd eq_refl).
Qed.

Lemma logged_UpdateCommand (k : string) (before : list Call) (env : Env)
    (cmd : UpdateCommand) :
  handler_write k cmd ->
  keeps (only_handler_writes k before) (docClient_send_UpdateCommand env cmd).
Proof.
  intros Hw w H. unfold docClient_send_UpdateCommand.
  assert (H1 : only_handler_writes k before (record_call (CallUpdate cmd) w)).
  { intros cmd' Hin. cbn in Hin. apply in_app_or in Hin as [Hin | [[= <-] | []]].
    - exact (H cmd' Hin).
    - right. exact Hw. }
  destruct (ddb_update_fault env cmd); [exact H1 |].
  destruct (negb _); [exact H1 |].
  destruct (UpdateItem _ _); exact H1.
Qed.

Lemma upload_handler_sends_handler_writes (env : Env)
    (args : UploadToLlamaCloud.Arguments) (w : World) (cmd : UpdateCommand) :
  In (CallUpdate cmd) (calls (snd (UploadToLlamaCloud.handler env args w))) ->
  In (CallUpdate cmd) (calls w) \/ handler_write (UploadToLlamaCloud.topicId args) cmd.
Proof.
  revert cmd.
  change (only_handler_writes (UploadToLlamaCloud.topicId args) (calls w)
            (snd (UploadToLlamaCloud.handler env args w))).
  assert (Hk : keeps (only_handler_writes (UploadToLlamaCloud.topicId args) (calls w))
                 (UploadToLlamaCloud.handler env args)).
  { unfold UploadToLlamaCloud.handler.
    cbv zeta. destruct (_ || _); [apply keeps_ret |].
    apply keeps_with_local.
    unfold UploadToLlamaCloud.try_block, UploadToLlamaCloud.catch_block.
    repeat first
      [ apply keeps_ret | apply keeps_throw | apply keeps_await
      | apply keeps_read_local | apply keeps_assign_local
      | apply keeps_lift
      | apply keeps_when
      | apply keeps_bind; [ | intros ? ]
      | apply keeps_try_catch; [ | intros ? ]
      | match goal with
        | |- keeps _ (match ?x with _ => _ end) => destruct x
        end
      | progress cbv zeta ].
    all: try match goal with
             | |- context [truthy_opt_string ?p] => destruct (truthy_opt_string p)
             end.
    all: try (apply logged_UpdateCommand;
              first [ apply write_INDEXING | apply write_READY | apply write_FAILED
                    | apply write_FAILED_pipeline ]).
    all: intros w' Hw';
      first [ exact Hw'
            | apply logged_other_call; [intros cmd'; discriminate | exact Hw'] ]. }
  apply Hk. intros cmd Hin. left. exact Hin.
Qed.

(** The query handler writes nothing. *)
Lemma query_handler_keeps (J : Table -> Prop) (env : Env) (args : QueryTopic.Arguments) :
  keeps (on_table J) (QueryTopic.handler env args).
Proof.
  unfold QueryTopic.handler. cbv zeta. destruct (_ || _); [apply keeps_ret |].
  unfold QueryTopic.try_block. keeps_auto.
Qed.

(** ** The Topic invariant *)

Ltac lookups :=
  repeat first
    [ rewrite lookup_insert_eq
    | rewrite lookup_insert_ne by (intro; discriminate)
    | rewrite lookup_empty ].

(** Each write of the indexing handler leaves an item that satisfies the
    invariant, whatever the item was before. *)
Lemma handler_write_topic_inv (k : string) (cmd : UpdateCommand) (t t' : Table) :
  handler_write k cmd -> UpdateItem cmd t = Normal t' ->
  exists item, t' = <[k := item]> t /\ topic_inv item.
Proof.
  intros [tn ts | tn p f ts1 ts2 | tn ts | tn p ts] Hu.
  - rewrite UpdateItem_INDEXING in Hu. injection Hu as <-.
    eexists; split; [reflexivity |]. unfold topic_inv. lookups.
    split; [exists "INDEXING"; cbn; auto 10 | split; intros [=]].
  - rewrite UpdateItem_READY in Hu. injection Hu as <-.
    eexists; split; [reflexivity |]. unfold topic_inv. lookups.
    split; [exists "READY"; cbn; auto 10 |]. split; [| intros [=]].
    intros _. split; eexists; reflexivity.
  - rewrite UpdateItem_FAILED in Hu. injection Hu as <-.
    eexists; split; [reflexivity |]. unfold topic_inv. lookups.
    split; [exists "FAILED"; cbn; auto 10 | split; intros [=]].
  - rewrite UpdateItem_FAILED_pipeline in Hu. injection Hu as <-.
    eexists; split; [reflexivity |]. unfold topic_inv. lookups.
    split; [exists "FAILED"; cbn; auto 10 | split; intros [=]].
Qed.

Lemma table_inv_insert (t : Table) (k : string) (item : Item) :
  table_inv t -> topic_inv item -> table_inv (<[k := item]> t).
Proof.
  intros Ht Hi k' item' Hl.
  destruct (decide (k = k')) as [-> | Hne].
  - rewrite lookup_insert_eq in Hl. injection Hl as <-. exact Hi.
  - rewrite lookup_insert_ne in Hl by exact Hne. exact (Ht _ _ Hl).
Qed.

Lemma table_inv_empty : table_inv ∅.
Proof. intros k item H. rewrite lookup_empty in H. discriminate. Qed.

(** A created Topic is PENDING and carries no pipeline or file id. *)
Lemma create_topic_inv (new_id : string) (now : Z) (title description fileKey : string)
    (t : Table) :
  table_inv t ->
  table_inv (snd (TopicActions.create_topic new_id now title description fileKey t)).
Proof.
  intros Ht. unfold TopicActions.create_topic, TopicActions.models_Topic_create.
  destruct (t !! new_id); [exact Ht |].
  cbn [snd]. apply table_inv_insert; [exact Ht |].
  cbn [set_attrs foldl fst snd]. unfold topic_inv. lookups.
  split; [exists "PENDING"; cbn; auto 10 |]. split; [intros [=] |].
  intros _. split; reflexivity.
Qed.

Lemma run_op_inv (op : Op) (t : Table) : table_inv t -> table_inv (run_op op t).
Proof.
  intros Ht. destruct op as [new_id now title description fileKey | env args | env args];
    cbn [run_op].
  - apply create_topic_inv, Ht.
  - apply (upload_handler_keeps table_inv env args); [| exact Ht].
    intros cmd t0 t' Hw H0 Hu.
    destruct (handler_write_topic_inv _ _ _ _ Hw Hu) as (item & -> & Hi).
    apply table_inv_insert; assumption.
  - apply (query_handler_keeps table_inv env args). exact Ht.
Qed.

Lemma reachable_inv (t : Table) : reachable t -> table_inv t.
Proof.
  induction 1 as [| op t _ IH | k cmd t t' _ IH Hw Hu].
  - apply table_inv_empty.
  - apply run_op_inv, IH.
  - destruct (handler_write_topic_inv _ _ _ _ Hw Hu) as (item & -> & Hi).
    apply table_inv_insert; assumption.
Qed.

Lemma run_ops_reachable (ops : list Op) (t : Table) :
  reachable t -> reachable (run_ops ops t).
Proof.
  revert t. induction ops as [| op ops IH]; intros t Ht; cbn.
  - exact Ht.
  - apply IH, reach_op, Ht.
Qed.

(** *** What a step returns, and the writes of a run *)

Lemma keeps_bind_yields {S A B : Type} (I : S -> Prop) (P : A -> Prop)
    (m : M S A) (k : A -> M S B) :
  keeps I m -> yields P m -> (forall a, P a -> keeps I (k a)) -> keeps I (bind m k).
Proof.
  intros Hm Hy Hk s H. unfold bind. specialize (Hm s H). specialize (Hy s).
  destruct (m s) as [[a | e] s']; cbn in *.
  - apply Hk; [apply Hy; reflexivity | exact Hm].
  - exact Hm.
Qed.

Lemma yields_lift {L A : Type} (P : A -> Prop) (m : M World A) :
  yields P m -> yields P (@lift L A m).
Proof.
  intros Hm [w l] a. unfold lift. cbn [fst snd]. specialize (Hm w a).
  destruct (m w) as [r w']. exact Hm.
Qed.

Lemma yields_await {S A : Type} (c : completion A) :
  yields (fun a => c = Normal a) (@await S A c).
Proof. intros s a H. exact H. Qed.

Lemma yields_fetch {J : Type} (answer : completion (Response J)) (req : Request) :
  yields (fun r => answer = Normal r) (fetch answer req).
Proof. intros w r H. exact H. Qed.

Lemma yields_GetObject (env : Env) (bucket key : string) :
  yields (fun r => s3_getObject env = Normal r)
    (s3Client_send_GetObjectCommand env bucket key).
Proof. intros w r H. exact H. Qed.

(** A guard whose body always throws is passed only when it is off. *)
Lemma yields_when_throws {S : Type} (cond : bool) (body : M S unit) :
  yields (fun _ => False) body -> yields (fun _ => cond = false) (when cond body).
Proof.
  intros Hb s a H. destruct cond; [| reflexivity].
  destruct (Hb s a H).
Qed.

Lemma answered_Normal {J : Type} (c : completion (Response J)) (r : Response J) (j : J) :
  c = Normal r -> negb (ok r) = false -> body_json r = Normal j -> answered c = Some j.
Proof.
  intros -> Hok Hj. unfold answered. apply negb_false_iff in Hok. rewrite Hok, Hj.
  reflexivity.
Qed.

Lemma handler_sends_other (env : Env) (k : string) (cmd : UpdateCommand) :
  handler_write k cmd ->
  lookup_value ":status" (ExpressionAttributeValues cmd) <> Some "READY" ->
  handler_sends env k cmd.
Proof. intros Hw Hs. split; [exact Hw |]. intros H. destruct (Hs H). Qed.

(** Whatever every write that a run under [env] sends keeps, the run
    keeps. *)
Lemma upload_handler_keeps_sent (J : Table -> Prop) (env : Env)
    (args : UploadToLlamaCloud.Arguments) :
  (forall cmd t t',
      handler_sends env (UploadToLlamaCloud.topicId args) cmd ->
      J t -> UpdateItem cmd t = Normal t' -> J t') ->
  keeps (on_table J) (UploadToLlamaCloud.handler env args).
Proof.
  intros HJ. unfold UploadToLlamaCloud.handler. cbv zeta.
  destruct (_ || _); [apply keeps_ret |].
  assert (Hother : forall cmd,
             handler_write (UploadToLlamaCloud.topicId args) cmd ->
             lookup_value ":status" (ExpressionAttributeValues cmd) <> Some "READY" ->
             keeps (on_table J) (docClient_send_UpdateCommand env cmd)).
  { intros cmd Hw Hs. apply keeps_UpdateCommand. intros t t' Ht Hu.
    exact (HJ cmd t t' (handler_sends_other env _ cmd Hw Hs) Ht Hu). }
  apply keeps_with_local, keeps_try_catch.
  - unfold UploadToLlamaCloud.try_block.
    apply keeps_bind; [apply keeps_lift, keeps_new_Date | intros updatedAt].
    apply keeps_bind;
      [apply keeps_lift, Hother; [apply write_INDEXING | discriminate] | intros _].
    apply keeps_bind; [apply keeps_lift, keeps_GetObject | intros [[transform |]]];
      cbn [Body]; [| apply keeps_throw].
    apply keeps_bind; [apply keeps_await | intros bytes].
    apply keeps_bind; [apply keeps_lift, keeps_new_Date | intros now]. cbv zeta.
    apply (keeps_bind_yields _ (fun r => llama_create_pipeline env = Normal r));
      [apply keeps_lift, keeps_fetch | apply yields_lift, yields_fetch | intros r1 Hr1].
    apply (keeps_bind_yields _ (fun _ => negb (ok r1) = false));
      [apply keeps_when, keeps_bind; [apply keeps_await | intros ?; apply keeps_throw]
      | apply yields_when_throws, yields_bind; intros ?; apply yields_throw
      | intros _ Hok1].
    apply (keeps_bind_yields _ (fun a => body_json r1 = Normal a));
      [apply keeps_await | apply yields_await | intros pipeline Hj1].
    apply keeps_bind; [apply keeps_assign_local | intros _].
    apply (keeps_bind_yields _ (fun r => llama_upload_file env = Normal r));
      [apply keeps_lift, keeps_fetch | apply yields_lift, yields_fetch | intros r2 Hr2].
    apply (keeps_bind_yields _ (fun _ => negb (ok r2) = false));
      [apply keeps_when, keeps_bind; [apply keeps_await | intros ?; apply keeps_throw]
      | apply yields_when_throws, yields_bind; intros ?; apply yields_throw
      | intros _ Hok2].
    apply (keeps_bind_yields _ (fun a => body_json r2 = Normal a));
      [apply keeps_await | apply yields_await | intros file Hj2].
    apply keeps_bind; [apply keeps_lift, keeps_fetch | intros r3].
    apply keeps_bind;
      [apply keeps_when, keeps_bind; [apply keeps_await | intros ?; apply keeps_throw]
      | intros _].
    apply keeps_bind; [apply keeps_lift, keeps_new_Date | intros indexedAt].
    apply keeps_bind; [apply keeps_lift, keeps_new_Date | intros updatedAt'].
    apply keeps_bind; [| intros _; apply keeps_ret].
    apply keeps_lift, keeps_UpdateCommand. intros t t' Ht Hu.
    refine (HJ _ t t' _ Ht Hu). split; [apply write_READY |].
    intros _. exists pipeline, file.
    split; [eapply answered_Normal; eassumption |].
    split; [eapply answered_Normal; eassumption |]. split; reflexivity.
  - intros error. unfold UploadToLlamaCloud.catch_block.
    apply keeps_bind; [| intros _; apply keeps_ret].
    apply keeps_try_catch; [| intros ?; apply keeps_ret].
    apply keeps_bind; [apply keeps_read_local | intros pipelineId]. cbv zeta.
    apply keeps_bind; [apply keeps_lift, keeps_new_Date | intros updatedAt].
    apply keeps_lift, Hother; destruct (truthy_opt_string pipelineId);
      first [apply write_FAILED_pipeline | apply write_FAILED | discriminate].
Qed.

Lemma has_id_answered (answer : completion (Response IdBody)) (body : IdBody) :
  has_id answer = true -> answered answer = Some body -> truthy_string (id body) = true.
Proof. unfold has_id. intros H E. rewrite E in H. exact H. Qed.

(** A write of a run whose service answers no empty id leaves a record
    whose ids are present when it is READY. *)
Lemma handler_sends_ids_present (env : Env) (k : string) (cmd : UpdateCommand)
    (t t' : Table) :
  answers_ids env = true -> handler_sends env k cmd -> UpdateItem cmd t = Normal t' ->
  exists item, t' = <[k := item]> t /\ ids_present item.
Proof.
  intros [Hc Hf]%andb_true_iff [Hw Hready] Hu.
  destruct Hw as [tn ts | tn p f ts1 ts2 | tn ts | tn p ts].
  - rewrite UpdateItem_INDEXING in Hu. injection Hu as <-.
    eexists; split; [reflexivity |]. unfold ids_present. lookups. intros [=].
  - rewrite UpdateItem_READY in Hu. injection Hu as <-.
    destruct (Hready eq_refl) as (pipeline & file & Hp & Hfile & [= ->] & [= ->]).
    eexists; split; [reflexivity |]. unfold ids_present. lookups. intros _.
    cbn [truthy_opt_string].
    split; [exact (has_id_answered _ _ Hc Hp) | exact (has_id_answered _ _ Hf Hfile)].
  - rewrite UpdateItem_FAILED in Hu. injection Hu as <-.
    eexists; split; [reflexivity |]. unfold ids_present. lookups. intros [=].
  - rewrite UpdateItem_FAILED_pipeline in Hu. injection Hu as <-.
    eexists; split; [reflexivity |]. unfold ids_present. lookups. intros [=].
Qed.

Lemma ids_present_insert (t : Table) (k : string) (item : Item) :
  (forall k' item', t !! k' = Some item' -> ids_present item') -> ids_present item ->
  forall k' item', <[k := item]> t !! k' = Some item' -> ids_present item'.
Proof.
  intros Ht Hi k' item' Hl.
  destruct (decide (k = k')) as [-> | Hne].
  - rewrite lookup_insert_eq in Hl. injection Hl as <-. exact Hi.
  - rewrite lookup_insert_ne in Hl by exact Hne. exact (Ht _ _ Hl).
Qed.

Lemma run_op_ids_present (op : Op) (t : Table) :
  op_answers_ids op = true ->
  (forall k item, t !! k = Some item -> ids_present item) ->
  forall k item, run_op op t !! k = Some item -> ids_present item.
Proof.
  intros Hop Ht.
  destruct op as [new_id now title description fileKey | env args | env args];
    cbn [run_op op_answers_ids] in *.
  - unfold TopicActions.create_topic, TopicActions.models_Topic_create.
    destruct (t !! new_id); [exact Ht |].
    cbn [snd]. apply ids_present_insert; [exact Ht |].
    cbn [set_attrs foldl fst snd]. unfold ids_present. lookups. intros [=].
  - apply (upload_handler_keeps_sent
             (fun t' => forall k item, t' !! k = Some item -> ids_present item) env args);
      [| exact Ht].
    intros cmd t0 t' Hs H0 Hu.
    destruct (handler_sends_ids_present _ _ _ _ _ Hop Hs Hu) as (item & -> & Hi).
    apply ids_present_insert; assumption.
  - apply (query_handler_keeps
             (fun t' => forall k item, t' !! k = Some item -> ids_present item) env args).
    exact Ht.
Qed.

Lemma reachable_with_ids_present (t : Table) :
  reachable_with_ids t -> forall k item, t !! k = Some item -> ids_present item.
Proof.
  induction 1 as [| op t _ IH Hop | env k cmd t t' _ IH He Hs Hu].
  - intros k item H. rewrite lookup_empty in H. discriminate.
  - apply run_op_ids_present; assumption.
  - destruct (handler_sends_ids_present _ _ _ _ _ He Hs Hu) as (item & -> & Hi).
    apply ids_present_insert; assumption.
Qed.

Lemma reachable_with_ids_reachable (t : Table) : reachable_with_ids t -> reachable t.
Proof.
  induction 1 as [| op t _ IH Hop | env k cmd t t' _ IH He [Hw _] Hu].
  - apply reach_empty.
  - apply reach_op, IH.
  - exact (reach_write k cmd t t' IH Hw Hu).
Qed.

(** C1, as amended. In every table reached from the empty one by Topic
    creations, indexing runs and queries, with any behaviour of the services
    and any failure of a store access, and after every single write of an
    indexing run (INDEXING, READY, FAILED), every Topic record has a status
    among PENDING, INDEXING, READY and FAILED; a READY record has both
    llamaCloudPipelineId and llamaCloudFileId stored, and a PENDING record
    has neither. The stored ids are those that the service answered: when
    the table was reached with a service that answered no empty id, the two
    ids of a READY record are not empty. *)
Theorem topic_invariant (t : Table) (k : string) (item : Item) :
  reachable t ->
  t !! k = Some item ->
  (exists s, item !! "topicStatus" = Some s /\ In s statuses) /\
  (item !! "topicStatus" = Some "READY" ->
   is_Some (item !! "llamaCloudPipelineId") /\ is_Some (item !! "llamaCloudFileId")) /\
  (item !! "topicStatus" = Some "PENDING" ->
   item !! "llamaCloudPipelineId" = None /\ item !! "llamaCloudFileId" = None) /\
  (reachable_with_ids t ->
   item !! "topicStatus" = Some "READY" ->
   truthy_opt_string (item !! "llamaCloudPipelineId") = true /\
   truthy_opt_string (item !! "llamaCloudFileId") = true).
Proof.
  intros Hr H. destruct (reachable_inv t Hr k item H) as (Hs & Hready & Hpending).
  split; [exact Hs |]. split; [exact Hready |]. split; [exact Hpending |].
  intros Hi. exact (reachable_with_ids_present t Hi k item H).
Qed.

(** ** Which operation touches which Topic *)

Lemma create_topic_frame (new_id : string) (now : Z) (title description fileKey : string)
    (t : Table) (k : string) (item : Item) :
  t !! k = Some item ->
  snd (TopicActions.create_topic new_id now title description fileKey t) !! k = Some item.
Proof.
  intros H. unfold TopicActions.create_topic, TopicActions.models_Topic_create.
  destruct (t !! new_id) eqn:E; [exact H |].
  cbn [snd]. rewrite lookup_insert_ne; [exact H |]. intros ->. congruence.
Qed.

(** C4, as amended. A Topic whose status is READY keeps its whole record,
    and so its status, through every Topic creation, every query, and every
    indexing run whose topicId is another Topic's. *)
Theorem READY_kept_by_other_operations (op : Op) (t : Table) (k : string) (item : Item) :
  t !! k = Some item ->
  item !! "topicStatus" = Some "READY" ->
  ~ targets op k ->
  run_op op t !! k = Some item.
Proof.
  intros Hk _ Hop.
  destruct op as [new_id now title description fileKey | env args | env args];
    cbn [run_op].
  - apply create_topic_frame, Hk.
  - apply (upload_handler_keeps (fun t' => t' !! k = Some item) env args); [| exact Hk].
    intros cmd t0 t' Hw H0 Hu. rewrite <- H0.
    apply (UpdateItem_frame _ _ _ _ Hu).
    rewrite (handler_write_Key _ _ Hw). intros ->. apply Hop. reflexivity.
  - apply (query_handler_keeps (fun t' => t' !! k = Some item) env args). exact Hk.
Qed.

(** ** A failing indexing step *)

Arguments UpdateItem : simpl never.
Arguments toISOString : simpl never.
Arguments replace_non_alnum_runs : simpl never.
Arguments last_segment : simpl never.

(** How the [try] block ends when every store write succeeds: it throws
    exactly when a step fails, after the INDEXING write and nothing else,
    with [pipelineId] set when the pipeline had been created. *)
Lemma try_block_summary (env : Env) (args : UploadToLlamaCloud.Arguments)
    (apiKey projectId : string) (w : World) :
  writes_succeed env ->
  let out :=
    UploadToLlamaCloud.try_block env args (topic_table_name env) apiKey projectId
      (w, None) in
  match fst out with
  | Throw _ =>
      all_steps_succeed env = false /\
      table (fst (snd out)) = indexing_table env (UploadToLlamaCloud.topicId args) w /\
      snd (snd out) = created_pipeline env
  | Normal _ => all_steps_succeed env = true
  end.
Proof.
  intros Hw. unfold indexing_table, all_steps_succeed, created_pipeline, downloaded,
    answered, accepted.
  unfold UploadToLlamaCloud.try_block.
  unfold bind, lift, when, await, throw, ret, fetch, new_Date, assign_local,
    s3Client_send_GetObjectCommand, docClient_send_UpdateCommand.
  cbn [fst snd TableName]. rewrite !Hw, String.eqb_refl.
  cbn [negb fst snd table record_call tick ticks calls]. rewrite UpdateItem_INDEXING.
  cbn [fst snd table].
  destruct (s3_getObject env) as [[[[bytes | e] |]] | e];
    cbn [fst snd table Body is_some andb fmap option_fmap option_map];
    try (repeat split; reflexivity).
  destruct (llama_create_pipeline env) as [r1 | e];
    cbn [fst snd table record_call is_some andb fmap option_fmap option_map];
    try (repeat split; reflexivity).
  destruct (ok r1); cbn [negb fst snd table is_some andb fmap option_fmap option_map].
  2: { destruct (body_text r1); cbn [fst snd table]; repeat split; reflexivity. }
  destruct (body_json r1) as [d1 | e];
    cbn [fst snd table record_call is_some andb fmap option_fmap option_map];
    try (repeat split; reflexivity).
  destruct (llama_upload_file env) as [r2 | e];
    cbn [fst snd table record_call is_some andb];
    try (repeat split; reflexivity).
  destruct (ok r2); cbn [negb fst snd table is_some andb].
  2: { destruct (body_text r2); cbn [fst snd table]; repeat split; reflexivity. }
  destruct (body_json r2) as [d2 | e];
    cbn [fst snd table record_call is_some andb];
    try (repeat split; reflexivity).
  destruct (llama_add_files env) as [r3 | e];
    cbn [fst snd table record_call is_some andb];
    try (repeat split; reflexivity).
  destruct (ok r3); cbn [negb fst snd table is_some andb].
  2: { destruct (body_text r3); cbn [fst snd table]; repeat split; reflexivity. }
  rewrite Hw. cbn [negb ticks calls table record_call tick]. rewrite UpdateItem_READY.
  reflexivity.
Qed.

Lemma catch_block_run (env : Env) (args : UploadToLlamaCloud.Arguments) (e : thrown)
    (w : World) (l : option string) :
  writes_succeed env ->
  let k := UploadToLlamaCloud.topicId args in
  let out := UploadToLlamaCloud.catch_block env args (topic_table_name env) e (w, l) in
  fst out = Normal (UploadToLlamaCloud.failure (error_message e)) /\
  table (fst (snd out))
  = <[k := failed_item (toISOString (clock env (ticks w))) l (item_at k (table w))]>
      (table w).
Proof.
  intros Hw. unfold UploadToLlamaCloud.catch_block, failed_item.
  unfold bind, try_catch, lift, read_local, ret, new_Date, docClient_send_UpdateCommand.
  cbn [fst snd TableName]. rewrite Hw, String.eqb_refl.
  cbn [negb fst snd table record_call tick ticks calls].
  destruct (truthy_opt_string l); cbn [app].
  - rewrite UpdateItem_FAILED_pipeline. split; reflexivity.
  - rewrite UpdateItem_FAILED. split; reflexivity.
Qed.

Lemma item_at_insert (k : string) (item : Item) (t : Table) :
  item_at k (<[k := item]> t) = item.
Proof. unfold item_at. rewrite lookup_insert_eq. reflexivity. Qed.

Lemma persisted_pipeline_spec (env : Env) :
  persisted_pipeline env
  = if truthy_opt_string (created_pipeline env) then created_pipeline env else None.
Proof. unfold persisted_pipeline. destruct (created_pipeline env); reflexivity. Qed.

(** C2, as amended. When one of the four steps (download, pipeline create,
    file upload, file attach) fails while the handler is configured and
    every store write succeeds, the run answers success = false and leaves
    the Topic with status FAILED, never INDEXING. The FAILED write sets
    llamaCloudPipelineId exactly when this run had created a pipeline with a
    non-empty id, to that id; otherwise the record keeps the
    llamaCloudPipelineId it had before the run, and in every case the
    llamaCloudFileId it had before. So for a Topic that had neither id before
    the run, such as one just created, a pipeline-create call that answers
    400 leaves status FAILED and neither id. *)
Theorem failed_step_leaves_FAILED (env : Env) (args : UploadToLlamaCloud.Arguments)
    (w : World) :
  upload_configured env -> writes_succeed env -> all_steps_succeed env = false ->
  let k := UploadToLlamaCloud.topicId args in
  let prior := item_at k (table w) in
  let out := UploadToLlamaCloud.handler env args w in
  get "success" (match fst out with Normal v => v | Throw _ => VUndefined end)
    = VBool false /\
  exists item,
    table (snd out) !! k = Some item /\
    item !! "topicStatus" = Some "FAILED" /\
    item !! "llamaCloudPipelineId"
      = match persisted_pipeline env with
        | Some p => Some p
        | None => prior !! "llamaCloudPipelineId"
        end /\
    item !! "llamaCloudFileId" = prior !! "llamaCloudFileId".
Proof.
  intros (Htn & Htn' & Hk1 & Hk2) Hw Hfail k prior out. subst out.
  unfold UploadToLlamaCloud.handler. rewrite Htn. cbn [truthy_opt_string].
  rewrite Htn', Hk1, Hk2. cbn [negb orb default].
  unfold with_local, try_catch.
  pose proof (try_block_summary env args
                (default "" (process_env env !! "LLAMA_CLOUD_API_KEY"))
                (default "" (process_env env !! "LLAMA_CLOUD_PROJECT_ID")) w Hw) as Hs.
  cbv zeta in Hs.
  destruct (UploadToLlamaCloud.try_block _ _ _ _ _ _) as [[v | e] [w1 l]];
    cbn [fst snd] in Hs.
  { congruence. }
  destruct Hs as (_ & Ht1 & Hl).
  pose proof (catch_block_run env args e w1 l Hw) as Hc. cbv zeta in Hc.
  destruct (UploadToLlamaCloud.catch_block _ _ _ _ _) as [r [w2 l2]].
  cbn [fst snd] in Hc |- *. destruct Hc as (-> & Ht2).
  split; [reflexivity |].
  rewrite Ht2, Ht1. unfold indexing_table. rewrite item_at_insert.
  fold k. fold prior. eexists. split; [apply lookup_insert_eq |].
  rewrite persisted_pipeline_spec, <- Hl. unfold failed_item.
  destruct (truthy_opt_string l) eqn:El; lookups.
  - destruct l as [p |]; [| discriminate]. repeat split; reflexivity.
  - repeat split; reflexivity.
Qed.

(** ** The indexing handler on the scenarios *)

Example created_is_PENDING :
  Scenario.attribute Scenario.created "topic-1" "topicStatus" = Some "PENDING" /\
  Scenario.attribute Scenario.created "topic-1" "llamaCloudPipelineId" = None.
Proof. vm_compute. split; reflexivity. Qed.

Example indexed_is_READY :
  Scenario.attribute Scenario.indexed "topic-1" "topicStatus" = Some "READY" /\
  Scenario.attribute Scenario.indexed "topic-1" "llamaCloudPipelineId" = Some "pipe-1" /\
  Scenario.attribute Scenario.indexed "topic-1" "llamaCloudFileId" = Some "file-1" /\
  Scenario.attribute Scenario.indexed "topic-1" "indexedAt"
    = Some "2025-11-01T12:26:40.002Z".
Proof. vm_compute. repeat split; reflexivity. Qed.

Example indexing_response :
  fst (UploadToLlamaCloud.handler Scenario.all_fine Scenario.index_topic_1
         (start_of Scenario.created))
  = Normal (VObject
      [("success", VBool true);
       ("message", VString "PDF uploaded and indexed successfully");
       ("pipelineId", VString "pipe-1");
       ("fileId", VString "file-1");
       ("pipelineName", VString "jcq-access-arrangements-1762000000001")]).
Proof. vm_compute. reflexivity. Qed.

Example create_400_response :
  fst (UploadToLlamaCloud.handler Scenario.create_400 Scenario.index_topic_1
         (start_of Scenario.created))
  = Normal (VObject
      [("success", VBool false);
       ("error", VString "Failed to create pipeline: 400 - Bad Request")]).
Proof. vm_compute. reflexivity. Qed.

Lemma record_lookup (t : Table) (k : string) :
  is_some (t !! k) = true -> t !! k = Some (Scenario.record t k).
Proof. unfold Scenario.record. destruct (t !! k); [reflexivity | discriminate]. Qed.

Lemma scenario_writes_succeed s3 create upload attach retrieve llm :
  writes_succeed (Scenario.world_of s3 create upload attach retrieve llm).
Proof. intros cmd. reflexivity. Qed.

Lemma scenario_upload_configured s3 create upload attach retrieve llm :
  upload_configured (Scenario.world_of s3 create upload attach retrieve llm).
Proof. repeat split; vm_compute; reflexivity. Qed.

Lemma scenario_indexed_with_ids : reachable_with_ids Scenario.indexed.
Proof.
  unfold Scenario.indexed, Scenario.created.
  apply ids_op; [apply ids_op; [apply ids_empty | reflexivity] | reflexivity].
Qed.

(** The invariant on the table of the scenario after a successful indexing:
    the record is READY and its two ids are not empty. *)
Lemma topic_invariant_witness :
  reachable Scenario.indexed /\
  Scenario.indexed !! "topic-1" = Some (Scenario.record Scenario.indexed "topic-1") /\
  (exists s, Scenario.record Scenario.indexed "topic-1" !! "topicStatus" = Some s /\
             In s statuses) /\
  truthy_opt_string (Scenario.record Scenario.indexed "topic-1" !! "llamaCloudPipelineId")
  = true /\
  truthy_opt_string (Scenario.record Scenario.indexed "topic-1" !! "llamaCloudFileId")
  = true.
Proof.
  assert (Hr : reachable Scenario.indexed).
  { unfold Scenario.indexed, Scenario.created. apply reach_op, reach_op, reach_empty. }
  assert (H : Scenario.indexed !! "topic-1"
              = Some (Scenario.record Scenario.indexed "topic-1")).
  { apply record_lookup. vm_compute. reflexivity. }
  split; [exact Hr |]. split; [exact H |].
  destruct (topic_invariant _ _ _ Hr H) as (Hs & _ & _ & Hids).
  split; [exact Hs |].
  apply (Hids scenario_indexed_with_ids). vm_compute. reflexivity.
Defined.

(** Counterexample to C1. The service answers the create request with a
    success status and an empty id, and every other step succeeds: the
    indexing handler answers success and leaves the Topic READY with the
    empty string as its llamaCloudPipelineId. The pipeline id of this READY
    record is not present: a query of the Topic is refused with
    'Topic does not have a Llama Cloud pipeline ID', after the read of the
    Topic as its only call. *)
Lemma READY_with_empty_pipeline_id :
  reachable Scenario.indexed_empty_id /\
  get "success"
    (match fst (UploadToLlamaCloud.handler Scenario.empty_id Scenario.index_topic_1
                  (start_of Scenario.created)) with
     | Normal v => v
     | Throw _ => VUndefined
     end) = VBool true /\
  Scenario.attribute Scenario.indexed_empty_id "topic-1" "topicStatus" = Some "READY" /\
  Scenario.attribute Scenario.indexed_empty_id "topic-1" "llamaCloudPipelineId" = Some "" /\
  truthy_opt_string
    (Scenario.attribute Scenario.indexed_empty_id "topic-1" "llamaCloudPipelineId")
  = false /\
  QueryTopic.handler Scenario.all_fine Scenario.ask_topic_1
    (start_of Scenario.indexed_empty_id)
  = (Normal (QueryTopic.failure "Topic does not have a Llama Cloud pipeline ID"),
     record_call (CallGet "Topic-abc123-NONE" "topic-1")
       (start_of Scenario.indexed_empty_id)).
Proof.
  split.
  { unfold Scenario.indexed_empty_id, Scenario.created.
    apply reach_op, reach_op, reach_empty. }
  repeat split; vm_compute; reflexivity.
Qed.

(** Counterexample to C2. A Topic whose earlier run failed at the file
    upload carries that run's pipeline id; a second run whose pipeline-create
    call answers 400, with every store write succeeding, leaves it FAILED
    with the old llamaCloudPipelineId still set. *)
Lemma stale_pipeline_id_after_create_400 :
  Scenario.attribute Scenario.upload_failed "topic-1" "topicStatus" = Some "FAILED" /\
  all_steps_succeed Scenario.create_400 = false /\
  created_pipeline Scenario.create_400 = None /\
  Scenario.attribute
    (run_op (OpIndex Scenario.create_400 Scenario.index_topic_1) Scenario.upload_failed)
    "topic-1" "topicStatus" = Some "FAILED" /\
  Scenario.attribute
    (run_op (OpIndex Scenario.create_400 Scenario.index_topic_1) Scenario.upload_failed)
    "topic-1" "llamaCloudPipelineId" = Some "pipe-1".
Proof. vm_compute. repeat split; reflexivity. Qed.

(** The 400 scenario of the specification, on the Topic just created. *)
Lemma failed_step_leaves_FAILED_witness :
  upload_configured Scenario.create_400 /\
  writes_succeed Scenario.create_400 /\
  all_steps_succeed Scenario.create_400 = false /\
  exists item,
    table (snd (UploadToLlamaCloud.handler Scenario.create_400 Scenario.index_topic_1
                  (start_of Scenario.created))) !! "topic-1" = Some item /\
    item !! "topicStatus" = Some "FAILED" /\
    item !! "llamaCloudPipelineId" = None /\
    item !! "llamaCloudFileId" = None.
Proof.
  split; [apply scenario_upload_configured |].
  split; [apply scenario_writes_succeed |].
  split; [reflexivity |].
  destruct (failed_step_leaves_FAILED Scenario.create_400 Scenario.index_topic_1
              (start_of Scenario.created) (scenario_upload_configured _ _ _ _ _ _)
              (scenario_writes_succeed _ _ _ _ _ _) eq_refl)
    as (_ & item & H1 & H2 & H3 & H4).
  exists item. split; [exact H1 |]. split; [exact H2 |].
  split; [etransitivity; [exact H3 |] | etransitivity; [exact H4 |]];
    vm_compute; reflexivity.
Defined.

(** Counterexample to C4. The indexing handler writes INDEXING whatever
    the status is: invoked again for a READY Topic while S3 is down, it
    leaves the Topic FAILED. *)
Lemma READY_left_by_indexing_again :
  Scenario.attribute Scenario.indexed "topic-1" "topicStatus" = Some "READY" /\
  Scenario.attribute
    (run_op (OpIndex Scenario.s3_down Scenario.index_topic_1) Scenario.indexed)
    "topic-1" "topicStatus" = Some "FAILED".
Proof. vm_compute. split; reflexivity. Qed.

(** A READY Topic through the indexing of another Topic. *)
Lemma READY_kept_by_other_operations_witness :
  Scenario.indexed !! "topic-1" = Some (Scenario.record Scenario.indexed "topic-1") /\
  Scenario.record Scenario.indexed "topic-1" !! "topicStatus" = Some "READY" /\
  ~ targets (OpIndex Scenario.s3_down Scenario.index_topic_2) "topic-1" /\
  run_op (OpIndex Scenario.s3_down Scenario.index_topic_2) Scenario.indexed !! "topic-1"
  = Some (Scenario.record Scenario.indexed "topic-1").
Proof.
  assert (H1 : Scenario.indexed !! "topic-1"
               = Some (Scenario.record Scenario.indexed "topic-1")).
  { apply record_lookup. vm_compute. reflexivity. }
  assert (H2 : Scenario.record Scenario.indexed "topic-1" !! "topicStatus" = Some "READY").
  { vm_compute. reflexivity. }
  assert (H3 : ~ targets (OpIndex Scenario.s3_down Scenario.index_topic_2) "topic-1").
  { cbn. intros H. discriminate H. }
  split; [exact H1 |]. split; [exact H2 |]. split; [exact H3 |].
  exact (READY_kept_by_other_operations _ _ _ _ H1 H2 H3).
Defined.

(** ** [map] with a callback that may throw *)

Lemma mapi_from_c_Normal {A B : Type} (f : A -> nat -> completion B) (l : list A) :
  forall (j : nat) (ys : list B),
    mapi_from_c j f l = Normal ys ->
    List.length ys = List.length l /\
    forall i x, l !! i = Some x -> exists y, f x (j + i) = Normal y /\ ys !! i = Some y.
Proof.
  induction l as [| x l IH]; intros j ys H; cbn in H.
  - injection H as <-. split; [reflexivity |]. intros i x Hx. discriminate Hx.
  - destruct (f x j) as [y | e] eqn:Ey; [| discriminate].
    destruct (mapi_from_c (S j) f l) as [ys' | e] eqn:Eys; [| discriminate].
    injection H as <-. destruct (IH _ _ Eys) as [Hlen Hnth].
    split; [cbn; rewrite Hlen; reflexivity |].
    intros [| i] x' Hx'; cbn in Hx'.
    + injection Hx' as <-. exists y. rewrite Nat.add_0_r. split; [exact Ey | reflexivity].
    + destruct (Hnth i x' Hx') as (y' & Hy' & Hl).
      exists y'. split; [| exact Hl].
      replace (j + S i) with (S j + i) by lia. exact Hy'.
Qed.



(** ** The query handler *)

Lemma is_READY_true (st : option string) :
  QueryTopic.is_READY st = true <-> st = Some "READY".
Proof.
  unfold QueryTopic.is_READY. destruct st as [s |].
  - rewrite String.eqb_eq. split; congruence.
  - split; discriminate.
Qed.

Lemma is_READY_false (st : option string) :
  QueryTopic.is_READY st = false <-> st <> Some "READY".
Proof.
  rewrite <- is_READY_true. destruct (QueryTopic.is_READY st); split; congruence.
Qed.

(** The handler up to the lookup of the Topic. *)
Lemma query_handler_lookup (env : Env) (args : QueryTopic.Arguments) (w : World) :
  query_configured env -> ddb_get_fault env = None ->
  QueryTopic.handler env args w
  = try_catch
      (QueryTopic.try_block env args (topic_table_name env)
         (default "" (process_env env !! "LLAMA_CLOUD_API_KEY"))
         (default "" (process_env env !! "ANTHROPIC_API_KEY")))
      (fun error => ret (QueryTopic.failure (error_message error))) w.
Proof.
  intros (Htn & Htn' & Hk1 & Hk2) Hf.
  unfold QueryTopic.handler. rewrite Htn. cbn [truthy_opt_string].
  rewrite Htn', Hk1, Hk2. reflexivity.
Qed.

(** C7. With the handler configured and the store read succeeding: a query
    of a missing Topic answers success = false with "Topic not found"; a
    query of a Topic whose status is not READY answers success = false with
    an error that ends in the stored status (in "undefined" when the record
    has none); a query of a READY Topic without a pipeline id answers
    success = false. In the three cases the only call made is the read of
    the Topic: the world after the run is the world before it with that one
    call logged, so the retrieval endpoint is not called. *)
Theorem query_refuses_before_retrieval (env : Env) (args : QueryTopic.Arguments)
    (w : World) :
  query_configured env -> ddb_get_fault env = None ->
  let read := CallGet (topic_table_name env) (QueryTopic.topicId args) in
  (table w !! QueryTopic.topicId args = None ->
   QueryTopic.handler env args w
   = (Normal (QueryTopic.failure ("Topic not found: " +:+ QueryTopic.topicId args)),
      record_call read w)) /\
  (forall topic,
      table w !! QueryTopic.topicId args = Some topic ->
      topic !! "topicStatus" <> Some "READY" ->
      QueryTopic.handler env args w
      = (Normal (QueryTopic.failure
                   ("Topic is not ready for querying. Current status: " +:+
                    string_of_opt (topic !! "topicStatus"))),
         record_call read w)) /\
  (forall topic,
      table w !! QueryTopic.topicId args = Some topic ->
      topic !! "topicStatus" = Some "READY" ->
      truthy_opt_string (topic !! "llamaCloudPipelineId") = false ->
      QueryTopic.handler env args w
      = (Normal (QueryTopic.failure "Topic does not have a Llama Cloud pipeline ID"),
         record_call read w)).
Proof.
  intros Hc Hf read. subst read.
  rewrite (query_handler_lookup env args w Hc Hf).
  unfold try_catch, QueryTopic.try_block, bind, docClient_send_GetCommand.
  rewrite Hf, String.eqb_refl. cbn [negb table record_call].
  split; [| split].
  - intros ->. reflexivity.
  - intros topic -> Hst. apply is_READY_false in Hst. rewrite Hst. reflexivity.
  - intros topic -> Hst Hp. apply is_READY_true in Hst. rewrite Hst, Hp. reflexivity.
Qed.

(** The run of a configured handler on a READY Topic with a pipeline id,
    symbolically executed up to the parsed retrieval response. *)
Ltac run_to_retrieval Hc Hf Ht Hst Hp Hr Hok Hj :=
  rewrite (query_handler_lookup _ _ _ Hc Hf);
  unfold try_catch, QueryTopic.try_block, bind, docClient_send_GetCommand, fetch, when,
    await;
  rewrite Hf, String.eqb_refl; cbn [negb table record_call];
  rewrite Ht, (proj2 (is_READY_true _) Hst), Hp; cbn [negb];
  rewrite Hr, Hok, Hj; cbn [negb ret].

Arguments trim : simpl never.
Arguments String.substring : simpl never.
Arguments number_of_nat : simpl never.
Arguments QueryTopic.userPrompt : simpl never.
Arguments QueryTopic.systemPrompt : simpl never.
Arguments QueryTopic.no_information_answer : simpl never.

(** C5. A configured query of a READY Topic with a pipeline id, whose
    retrieval call comes back with a success status and no passage (an empty
    [retrieval_nodes], or none), answers success = true with the canned
    answer, an empty citations list and metadata.nodesRetrieved = 0. The
    calls made are the read of the Topic and the retrieval request and
    nothing else: the synthesis call is not made, and the clock is not
    read. *)
Theorem no_passage_short_circuit (env : Env) (args : QueryTopic.Arguments) (w : World)
    (topic : Item) (r : Response LlamaCloudRetrievalResponse)
    (data : LlamaCloudRetrievalResponse) :
  query_configured env -> ddb_get_fault env = None ->
  table w !! QueryTopic.topicId args = Some topic ->
  topic !! "topicStatus" = Some "READY" ->
  truthy_opt_string (topic !! "llamaCloudPipelineId") = true ->
  llama_retrieve env = Normal r -> ok r = true -> body_json r = Normal data ->
  default [] (retrieval_nodes data) = [] ->
  let out := QueryTopic.handler env args w in
  fst out
  = Normal (VObject
      [("success", VBool true);
       ("answer", VString QueryTopic.no_information_answer);
       ("citations", VArray []);
       ("metadata", VObject
          [("topicTitle", QueryTopic.value_of_opt (topic !! "title"));
           ("nodesRetrieved", VNumber 0%float)])]) /\
  ticks (snd out) = ticks w /\
  exists req,
    url req = QueryTopic.LLAMA_CLOUD_API_BASE +:+ "/pipelines/" +:+
              string_of_opt (topic !! "llamaCloudPipelineId") +:+ "/retrieve" /\
    calls (snd out)
    = (calls w ++
       [CallGet (topic_table_name env) (QueryTopic.topicId args); CallFetch req])%list.
Proof.
  intros Hc Hf Ht Hst Hp Hr Hok Hj Hnodes out. subst out.
  run_to_retrieval Hc Hf Ht Hst Hp Hr Hok Hj. rewrite Hnodes.
  cbn [List.length Nat.eqb ret fst snd ticks calls record_call].
  split; [reflexivity |]. split; [reflexivity |].
  eexists. split; [| rewrite <- app_assoc; reflexivity]. reflexivity.
Qed.




(** ** Excerpts *)






(** ** The two shapes of a passage *)






(** ** The shape of an ISO 8601 timestamp *)

Lemma is_digit_digit_char (d : Z) : is_digit (digit_char d) = true.
Proof.
  unfold is_digit, digit_char.
  pose proof (Z.mod_pos_bound d 10 ltac:(lia)) as Hd.
  rewrite nat_ascii_embedding by lia.
  apply andb_true_iff. split; apply Nat.leb_le; lia.
Qed.

Lemma toISOString_is_ISO_8601 (ms : Z) : is_ISO_8601 (toISOString ms) = true.
Proof.
  unfold toISOString, is_ISO_8601.
  destruct (civil_from_days _) as [[y m] d]. unfold year_string.
  destruct (_ && _); [| destruct (y <? 0)%Z];
    cbv [pad String.append]; cbn [matches date_time_pattern];
    rewrite !is_digit_digit_char; reflexivity.
Qed.

Example ISO_8601_accepts : is_ISO_8601 "2025-11-01T12:26:40.000Z" = true.
Proof. reflexivity. Qed.

Example ISO_8601_rejects_date_only : is_ISO_8601 "2025-11-01" = false.
Proof. reflexivity. Qed.

Example ISO_8601_rejects_local_format : is_ISO_8601 "01/11/2025, 12:26:40" = false.
Proof. reflexivity. Qed.

(** ** The shape of every response *)

Lemma yields_bind_await {S A B : Type} (P : B -> Prop) (c : completion A)
    (k : A -> M S B) :
  (forall a, c = Normal a -> yields P (k a)) -> yields P (bind (await c) k).
Proof.
  intros Hk s b. unfold bind, await. destruct c as [a | e]; [| discriminate].
  apply (Hk a eq_refl).
Qed.

Ltac yields_auto :=
  repeat first
    [ apply yields_throw
    | apply yields_bind_await; intros ? ?
    | apply yields_bind; intros ?
    | apply yields_try_catch; [ | intros ? ]
    | match goal with
      | |- yields _ (match ?x with _ => _ end) => destruct x eqn:?
      end
    | progress cbv zeta ].

Lemma query_handler_yields (env : Env) (args : QueryTopic.Arguments) :
  yields query_response (QueryTopic.handler env args).
Proof.
  unfold QueryTopic.handler. cbv zeta.
  destruct (_ || _).
  { apply yields_ret. left. eexists. reflexivity. }
  apply yields_try_catch.
  2: { intros e. apply yields_ret. left. eexists. reflexivity. }
  unfold QueryTopic.try_block. yields_auto.
  - apply yields_ret. right. split; [reflexivity |]. exists [].
    split; [reflexivity |]. split; [reflexivity |]. eexists. reflexivity.
  - apply yields_ret. right. split; [reflexivity |].
    match goal with
    | H : mapi_from_c 0 QueryTopic.citation _ = Normal ?cs |- _ =>
        exists cs; destruct (mapi_from_c_Normal _ _ _ _ H) as [Hlen _]
    end.
    split; [reflexivity |]. split; [cbn; rewrite Hlen; reflexivity |].
    match goal with
    | H : (List.length ?l =? 0)%nat = false |- _ =>
        apply Nat.eqb_neq in H; destruct l; [contradiction |]
    end.
    match goal with |- match ?cs with _ => _ end => destruct cs; [discriminate Hlen |] end.
    eexists. reflexivity.
Qed.

Lemma query_handler_never_throws (env : Env) (args : QueryTopic.Arguments) :
  never_throws (QueryTopic.handler env args).
Proof.
  unfold QueryTopic.handler. cbv zeta. destruct (_ || _).
  - apply never_throws_ret.
  - apply never_throws_try_catch. intros e. apply never_throws_ret.
Qed.

(** C8. Whatever the environment, a response of the query handler with
    success = true has metadata.nodesRetrieved equal to the number of its
    citations (both zero in the no-passage answer), and a response with
    success = false has neither a metadata nor a citations property. *)
Theorem nodesRetrieved_counts_citations (env : Env) (args : QueryTopic.Arguments)
    (w : World) :
  exists v,
    fst (QueryTopic.handler env args w) = Normal v /\
    (get "success" v = VBool true ->
     exists citations,
       get "citations" v = VArray citations /\
       get "nodesRetrieved" (get "metadata" v)
         = VNumber (number_of_nat (List.length citations))) /\
    (get "success" v = VBool false ->
     has_key "metadata" v = false /\ has_key "citations" v = false).
Proof.
  destruct (query_handler_never_throws env args w) as [v Hv].
  exists v. split; [exact Hv |].
  destruct (query_handler_yields env args w v Hv)
    as [[msg ->] | [Hs (cs & Hcs & Hn' & _)]].
  - split; [intros [=] | intros _; split; reflexivity].
  - split; [intros _; exists cs; split; assumption |].
    unfold is_success in Hs. rewrite Hs. intros [=].
Qed.

(** C10. Whatever the environment, a response of the query handler with
    success = true and no citation (the no-passage answer) has as metadata
    exactly the topic title and nodesRetrieved = 0, with no queryDate
    property; a response with success = true and at least one citation (a
    synthesized answer) has metadata.queryDate, the [toISOString] of a
    reading of the clock, which is in the ISO 8601 extended format. *)
Theorem queryDate_only_when_synthesized (env : Env) (args : QueryTopic.Arguments)
    (w : World) :
  exists v,
    fst (QueryTopic.handler env args w) = Normal v /\
    (get "success" v = VBool true ->
     (get "citations" v = VArray [] ->
      has_key "queryDate" (get "metadata" v) = false /\
      exists title,
        get "metadata" v
        = VObject [("topicTitle", title); ("nodesRetrieved", VNumber 0%float)]) /\
     (forall c citations,
         get "citations" v = VArray (c :: citations) ->
         exists ms date,
           get "queryDate" (get "metadata" v) = VString date /\
           date = toISOString ms /\
           is_ISO_8601 date = true)).
Proof.
  destruct (query_handler_never_throws env args w) as [v Hv].
  exists v. split; [exact Hv |]. intros Hsucc.
  destruct (query_handler_yields env args w v Hv)
    as [[msg ->] | [_ (cs & Hcs & _ & Hshape)]]; [discriminate Hsucc |].
  rewrite Hcs. split.
  - intros [= ->]. destruct Hshape as [title ->]. split; [reflexivity |].
    exists title. reflexivity.
  - intros c citations [= ->]. destruct Hshape as [ms Hq].
    exists ms, (toISOString ms). split; [exact Hq |]. split; [reflexivity |].
    apply toISOString_is_ISO_8601.
Qed.

(** ** No exception leaves a handler *)





(** ** The query handler on the scenarios *)

Lemma scenario_query_configured s3 create upload attach retrieve llm :
  query_configured (Scenario.world_of s3 create upload attach retrieve llm).
Proof. repeat split; vm_compute; reflexivity. Qed.

(** The example of the specification: a READY Topic titled "JCQ Access
    Arrangements" and a retrieval that returns two passages with the page
    labels 12 and 45 give two citations with the pages 12 and 45 in that
    order and metadata.nodesRetrieved = 2. *)
Example two_passages_response :
  fst (QueryTopic.handler
         (Scenario.retrieving [Scenario.passage_12; Scenario.passage_45])
         Scenario.ask_topic_1 (start_of Scenario.indexed))
  = Normal (VObject
      [("success", VBool true);
       ("answer", VString "Extra time of up to 25% (Page 12).");
       ("metadata", VObject
          [("topicTitle", VString "JCQ Access Arrangements");
           ("queryDate", VString "2025-11-01T12:26:40.000Z");
           ("nodesRetrieved", VNumber 2%float)]);
       ("citations", VArray
          [VObject
             [("excerptNumber", VNumber 1%float);
              ("page", VNumber 12%float);
              ("fileName", VString "jcq.pdf");
              ("excerpt", VString (Scenario.repeat_string 25 "0123456789" +:+ "..."));
              ("relevanceScore", VNumber 0.75%float)];
           VObject
             [("excerptNumber", VNumber 2%float);
              ("page", VNumber 45%float);
              ("fileName", VString "jcq.pdf");
              ("excerpt", VString "  Readers and scribes.  ...");
              ("relevanceScore", VNumber 0.5%float)]])]).
Proof. vm_compute. reflexivity. Qed.



Lemma indexed_topic_1 :
  table (start_of Scenario.indexed) !! "topic-1"
  = Some (Scenario.record Scenario.indexed "topic-1").
Proof. apply record_lookup. vm_compute. reflexivity. Qed.

Lemma indexed_topic_1_READY :
  Scenario.record Scenario.indexed "topic-1" !! "topicStatus" = Some "READY".
Proof. vm_compute. reflexivity. Qed.

Lemma indexed_topic_1_pipeline :
  truthy_opt_string (Scenario.record Scenario.indexed "topic-1" !! "llamaCloudPipelineId")
  = true.
Proof. vm_compute. reflexivity. Qed.

(** A query of the Topic that was created and not yet indexed. *)
Lemma query_refuses_before_retrieval_witness :
  query_configured Scenario.all_fine /\
  ddb_get_fault Scenario.all_fine = None /\
  fst (QueryTopic.handler Scenario.all_fine Scenario.ask_topic_1
         (start_of Scenario.created))
  = Normal (VObject
      [("success", VBool false);
       ("error",
        VString "Topic is not ready for querying. Current status: PENDING")]) /\
  calls (snd (QueryTopic.handler Scenario.all_fine Scenario.ask_topic_1
                (start_of Scenario.created)))
  = [CallGet "Topic-abc123-NONE" "topic-1"].
Proof.
  split; [apply scenario_query_configured |]. split; [reflexivity |].
  destruct (query_refuses_before_retrieval Scenario.all_fine Scenario.ask_topic_1
              (start_of Scenario.created) (scenario_query_configured _ _ _ _ _ _) eq_refl)
    as (_ & Hunready & _).
  rewrite (Hunready (Scenario.record Scenario.created "topic-1")).
  - split; vm_compute; reflexivity.
  - apply (record_lookup Scenario.created). vm_compute. reflexivity.
  - intros H. vm_compute in H. discriminate H.
Defined.

(** A query of the READY Topic whose retrieval finds nothing. *)
Lemma no_passage_short_circuit_witness :
  query_configured Scenario.all_fine /\
  default [] (retrieval_nodes {| retrieval_nodes := Some [] |}) = [] /\
  fst (QueryTopic.handler Scenario.all_fine Scenario.ask_topic_1
         (start_of Scenario.indexed))
  = Normal (VObject
      [("success", VBool true);
       ("answer",
        VString
          "I couldn't find relevant information in the document to answer this question.");
       ("citations", VArray []);
       ("metadata", VObject
          [("topicTitle", VString "JCQ Access Arrangements");
           ("nodesRetrieved", VNumber 0%float)])]).
Proof.
  split; [apply scenario_query_configured |]. split; [reflexivity |].
  destruct (no_passage_short_circuit Scenario.all_fine Scenario.ask_topic_1
              (start_of Scenario.indexed) _ _ _
              (scenario_query_configured _ _ _ _ _ _) eq_refl
              indexed_topic_1 indexed_topic_1_READY indexed_topic_1_pipeline
              eq_refl eq_refl eq_refl eq_refl) as (Hrun & _).
  etransitivity; [exact Hrun |]. vm_compute. reflexivity.
Defined.



(** ** Further properties of the two handlers *)

(** X1. When the handler is configured, every store write succeeds and the
    four steps succeed, an indexing run answers success = true with the two
    ids of the service, and leaves the Topic READY with those ids,
    indexedAt set and updatedAt refreshed, every other attribute as it was.
    It makes six calls, in this order: the INDEXING write, the download, the
    three requests to the indexing service, and one READY write. *)
Theorem successful_indexing_leaves_READY (env : Env)
    (args : UploadToLlamaCloud.Arguments) (w : World) (bytes : list Byte.byte)
    (r1 r2 : Response IdBody) (r3 : Response unit) (pd fd : IdBody) :
  upload_configured env -> writes_succeed env ->
  s3_getObject env = Normal {| Body := Some (Normal bytes) |} ->
  llama_create_pipeline env = Normal r1 -> ok r1 = true -> body_json r1 = Normal pd ->
  llama_upload_file env = Normal r2 -> ok r2 = true -> body_json r2 = Normal fd ->
  llama_add_files env = Normal r3 -> ok r3 = true ->
  let k := UploadToLlamaCloud.topicId args in
  let prior := item_at k (table w) in
  let out := UploadToLlamaCloud.handler env args w in
  (exists pipelineName,
      fst out
      = Normal (VObject
          [("success", VBool true);
           ("message", VString "PDF uploaded and indexed successfully");
           ("pipelineId", VString (id pd));
           ("fileId", VString (id fd));
           ("pipelineName", VString pipelineName)])) /\
  (exists item,
      table (snd out) !! k = Some item /\
      item !! "topicStatus" = Some "READY" /\
      item !! "llamaCloudPipelineId" = Some (id pd) /\
      item !! "llamaCloudFileId" = Some (id fd) /\
      item !! "indexedAt" = Some (toISOString (clock env (2 + ticks w))) /\
      item !! "updatedAt" = Some (toISOString (clock env (3 + ticks w))) /\
      forall a,
        a <> "topicStatus" -> a <> "llamaCloudPipelineId" -> a <> "llamaCloudFileId" ->
        a <> "indexedAt" -> a <> "updatedAt" -> item !! a = prior !! a) /\
  (exists indexing create upload attach ready,
      calls (snd out)
      = (calls w ++
         [CallUpdate indexing;
          CallGetObject (UploadToLlamaCloud.rawBucketName args)
            (UploadToLlamaCloud.s3Key args);
          CallFetch create; CallFetch upload; CallFetch attach;
          CallUpdate ready])%list /\
      lookup_value ":status" (ExpressionAttributeValues indexing) = Some "INDEXING" /\
      lookup_value ":status" (ExpressionAttributeValues ready) = Some "READY").
Proof.
  intros (Htn & Htn' & Hk1 & Hk2) Hw Hs3 Hcr Hok1 Hj1 Hup Hok2 Hj2 Hat Hok3 k prior out.
  subst out. unfold UploadToLlamaCloud.handler. rewrite Htn. cbn [truthy_opt_string].
  rewrite Htn', Hk1, Hk2. cbn [negb orb default Datatypes.id].
  unfold with_local, try_catch, UploadToLlamaCloud.try_block.
  unfold bind, lift, when, await, throw, ret, fetch, new_Date, assign_local,
    s3Client_send_GetObjectCommand, docClient_send_UpdateCommand.
  cbn [fst snd TableName]. rewrite !Hw, String.eqb_refl.
  cbn [negb fst snd table record_call tick ticks calls]. rewrite UpdateItem_INDEXING.
  rewrite Hs3. cbn [fst snd table Body]. rewrite Hcr, Hok1, Hj1.
  cbn [negb fst snd table record_call]. rewrite Hup, Hok2, Hj2.
  cbn [negb fst snd table record_call]. rewrite Hat, Hok3.
  cbn [negb fst snd table record_call]. rewrite Hw.
  cbn [negb ticks calls table record_call tick]. rewrite UpdateItem_READY.
  cbn [fst snd table calls]. fold k. rewrite item_at_insert. fold prior.
  split; [eexists; reflexivity |]. split.
  - eexists. split; [apply lookup_insert_eq |]. lookups.
    repeat (split; [reflexivity |]).
    intros a H1 H2 H3 H4 H5.
    rewrite !lookup_insert_ne by congruence. reflexivity.
  - do 5 eexists. split; [rewrite <- !app_assoc; reflexivity |].
    split; reflexivity.
Qed.

(** X2. The query handler never writes: whatever the environment and the
    outcome, the Topic table after a query is the table before it. *)
Theorem query_leaves_table (env : Env) (args : QueryTopic.Arguments) (w : World) :
  table (snd (QueryTopic.handler env args w)) = table w.
Proof. exact (query_handler_keeps (fun t => t = table w) env args w eq_refl). Qed.

(** X3. An indexing run changes no record but that of its own topicId,
    whatever the environment and the outcome. *)
Theorem indexing_touches_own_topic_only (env : Env)
    (args : UploadToLlamaCloud.Arguments) (w : World) (k : string) :
  k <> UploadToLlamaCloud.topicId args ->
  table (snd (UploadToLlamaCloud.handler env args w)) !! k = table w !! k.
Proof.
  intros Hk.
  apply (upload_handler_keeps (fun t => t !! k = table w !! k) env args); [| reflexivity].
  intros cmd t t' Hcmd Ht Hu. rewrite <- Ht.
  apply (UpdateItem_frame _ _ _ _ Hu). rewrite (handler_write_Key _ _ Hcmd). exact Hk.
Qed.

(** X4. With one of its three environment variables missing or empty, a
    handler answers success = false at once: it makes no call, reads no
    clock and writes nothing. *)
Theorem missing_variable_stops_handler (env : Env) :
  (truthy_opt_string (process_env env !! "TOPIC_TABLE_NAME")
   && truthy_opt_string (process_env env !! "LLAMA_CLOUD_API_KEY")
   && truthy_opt_string (process_env env !! "LLAMA_CLOUD_PROJECT_ID") = false ->
   forall args w,
     UploadToLlamaCloud.handler env args w
     = (Normal (VObject [("success", VBool false);
                         ("error", VString "Missing required environment variables")]),
        w)) /\
  (truthy_opt_string (process_env env !! "TOPIC_TABLE_NAME")
   && truthy_opt_string (process_env env !! "LLAMA_CLOUD_API_KEY")
   && truthy_opt_string (process_env env !! "ANTHROPIC_API_KEY") = false ->
   forall args w,
     QueryTopic.handler env args w
     = (Normal (VObject [("success", VBool false);
                         ("error", VString "Missing required environment variables")]),
        w)).
Proof.
  split; intros H args w.
  - unfold UploadToLlamaCloud.handler. cbv zeta.
    destruct (truthy_opt_string _), (truthy_opt_string _), (truthy_opt_string _);
      try discriminate H; reflexivity.
  - unfold QueryTopic.handler. cbv zeta.
    destruct (truthy_opt_string _), (truthy_opt_string _), (truthy_opt_string _);
      try discriminate H; reflexivity.
Qed.

(** The indexing of the Topic just created, every step succeeding. *)
Lemma successful_indexing_leaves_READY_witness :
  upload_configured Scenario.all_fine /\
  writes_succeed Scenario.all_fine /\
  exists item,
    table (snd (UploadToLlamaCloud.handler Scenario.all_fine Scenario.index_topic_1
                  (start_of Scenario.created))) !! "topic-1" = Some item /\
    item !! "topicStatus" = Some "READY" /\
    item !! "llamaCloudPipelineId" = Some "pipe-1" /\
    item !! "llamaCloudFileId" = Some "file-1".
Proof.
  split; [apply scenario_upload_configured |].
  split; [apply scenario_writes_succeed |].
  destruct (successful_indexing_leaves_READY Scenario.all_fine Scenario.index_topic_1
              (start_of Scenario.created) _ _ _ _ _ _
              (scenario_upload_configured _ _ _ _ _ _)
              (scenario_writes_succeed _ _ _ _ _ _)
              eq_refl eq_refl eq_refl eq_refl eq_refl eq_refl eq_refl eq_refl eq_refl)
    as (_ & (item & H1 & H2 & H3 & H4 & _) & _).
  exists item. split; [exact H1 |]. split; [exact H2 |]. split; [exact H3 | exact H4].
Defined.

(** The READY topic-1 through a failing indexing of topic-2. *)
Lemma indexing_touches_own_topic_only_witness :
  "topic-1" <> UploadToLlamaCloud.topicId Scenario.index_topic_2 /\
  table (snd (UploadToLlamaCloud.handler Scenario.s3_down Scenario.index_topic_2
                (start_of Scenario.indexed))) !! "topic-1"
  = table (start_of Scenario.indexed) !! "topic-1".
Proof.
  assert (H : "topic-1" <> UploadToLlamaCloud.topicId Scenario.index_topic_2).
  { cbn. intros H. discriminate H. }
  split; [exact H |].
  exact (indexing_touches_own_topic_only Scenario.s3_down Scenario.index_topic_2
           (start_of Scenario.indexed) "topic-1" H).
Defined.

(** * The rest of the upload flow, the diagnostic handler and the access checks *)

(** ** The names that the upload flow derives *)

Lemma append_cons (c : ascii) (s1 s2 : string) :
  String c s1 +:+ s2 = String c (s1 +:+ s2).
Proof. reflexivity. Qed.

Lemma append_nil_l (s : string) : "" +:+ s = s.
Proof. reflexivity. Qed.

Lemma append_nil_r (s : string) : s +:+ "" = s.
Proof. induction s as [| c s IH]; [reflexivity |]. rewrite append_cons, IH. reflexivity. Qed.

Lemma append_assoc (s1 s2 s3 : string) : (s1 +:+ s2) +:+ s3 = s1 +:+ (s2 +:+ s3).
Proof.
  induction s1 as [| c s1 IH]; [reflexivity |]. rewrite !append_cons, IH. reflexivity.
Qed.

Lemma all_chars_app (p : ascii -> bool) (s1 s2 : string) :
  all_chars p (s1 +:+ s2) = all_chars p s1 && all_chars p s2.
Proof.
  induction s1 as [| c s1 IH]; [reflexivity |].
  rewrite append_cons. cbn [all_chars]. rewrite IH. apply andb_assoc.
Qed.

Lemma all_chars_impl (p q : ascii -> bool) (s : string) :
  (forall c, p c = true -> q c = true) -> all_chars p s = true -> all_chars q s = true.
Proof.
  intros Hpq. induction s as [| c s IH]; cbn; [reflexivity |].
  intros [Hc Hs]%andb_true_iff. rewrite (Hpq c Hc), (IH Hs). reflexivity.
Qed.

Lemma is_file_name_char_not_slash (c : ascii) :
  is_file_name_char c = true -> is_slash c = false.
Proof.
  unfold is_slash. destruct (Ascii.eqb_spec c "/") as [-> |]; [discriminate | reflexivity].
Qed.

Lemma sanitizedFileName_no_slash (name : string) :
  all_chars (fun c => negb (is_slash c)) (sanitizedFileName name) = true.
Proof.
  induction name as [| c name IH]; [reflexivity |].
  cbn [sanitizedFileName all_chars]. rewrite IH.
  destruct (is_file_name_char c) eqn:Ec; [| reflexivity].
  rewrite (is_file_name_char_not_slash c Ec). reflexivity.
Qed.

(** X9. The sanitised file name has the length of the name, consists of letters,
    digits, dots, hyphens and underscores only, so holds no slash, and
    sanitising it again changes nothing; a name made of letters, digits, dots
    and hyphens is left as it is. *)
Theorem sanitizedFileName_is_safe (name : string) :
  String.length (sanitizedFileName name) = String.length name /\
  all_chars (fun c => is_file_name_char c || Ascii.eqb c "_") (sanitizedFileName name) = true /\
  all_chars (fun c => negb (is_slash c)) (sanitizedFileName name) = true /\
  sanitizedFileName (sanitizedFileName name) = sanitizedFileName name /\
  (all_chars is_file_name_char name = true -> sanitizedFileName name = name).
Proof.
  induction name as [| c name (IH1 & IH2 & IH3 & IH4 & IH5)]; [repeat split |].
  cbn [sanitizedFileName String.length all_chars].
  rewrite IH1, IH2, IH3.
  destruct (is_file_name_char c) eqn:Ec.
  - rewrite Ec, IH4. rewrite (is_file_name_char_not_slash c Ec).
    repeat split. cbn. intros H. rewrite (IH5 H). reflexivity.
  - cbn. rewrite IH4. repeat split. discriminate.
Qed.

Lemma replace_non_alnum_runs_cons (in_run : bool) (c : ascii) (rest : string) :
  replace_non_alnum_runs in_run (String c rest)
  = if is_lower_alnum c then String c (replace_non_alnum_runs false rest)
    else if in_run then replace_non_alnum_runs true rest
    else String "-" (replace_non_alnum_runs true rest).
Proof. reflexivity. Qed.

(** Inside a run, what comes next is the end or a letter or digit. *)
Lemma replace_non_alnum_runs_head (s : string) :
  match replace_non_alnum_runs true s with
  | EmptyString => True
  | String c _ => is_lower_alnum c = true
  end.
Proof.
  induction s as [| c s IH]; [exact I |].
  rewrite replace_non_alnum_runs_cons. destruct (is_lower_alnum c) eqn:Ec; [exact Ec | exact IH].
Qed.

Lemma no_run_of_cons (c a : ascii) (s : string) :
  match s with
  | EmptyString => True
  | String b _ => Ascii.eqb a c && Ascii.eqb b c = false
  end ->
  no_run_of c s = true -> no_run_of c (String a s) = true.
Proof.
  destruct s as [| b s]; [reflexivity |]. cbn [no_run_of]. intros -> H. exact H.
Qed.

Lemma replace_non_alnum_runs_shape (in_run : bool) (s : string) :
  all_chars (fun c => is_lower_alnum c || Ascii.eqb c "-")
    (replace_non_alnum_runs in_run s) = true /\
  no_run_of "-" (replace_non_alnum_runs in_run s) = true /\
  keep_chars is_lower_alnum (replace_non_alnum_runs in_run s) = keep_chars is_lower_alnum s /\
  String.length (replace_non_alnum_runs in_run s) <= String.length s.
Proof.
  revert in_run. induction s as [| c s IH]; intros in_run; [repeat split; reflexivity |].
  rewrite replace_non_alnum_runs_cons.
  destruct (is_lower_alnum c) eqn:Ec.
  - destruct (IH false) as (H1 & H2 & H3 & H4).
    cbn [all_chars keep_chars String.length]. rewrite Ec, H1, H3.
    repeat split; [| lia].
    apply no_run_of_cons; [| exact H2].
    destruct (replace_non_alnum_runs false s); [exact I |].
    destruct (Ascii.eqb_spec c "-") as [-> |]; [discriminate Ec | reflexivity].
  - destruct (IH true) as (H1 & H2 & H3 & H4).
    destruct in_run.
    + cbn [keep_chars String.length]. rewrite Ec. repeat split; [exact H1 | exact H2 | exact H3 | lia].
    + cbn [all_chars keep_chars String.length]. rewrite Ec, H1, H3.
      repeat split; [| lia].
      apply no_run_of_cons; [| exact H2].
      pose proof (replace_non_alnum_runs_head s) as Hh.
      destruct (replace_non_alnum_runs true s) as [| b r]; [exact I |].
      destruct (Ascii.eqb_spec b "-") as [-> |]; [discriminate Hh | reflexivity].
Qed.

Lemma lower_char_lower_alnum (c : ascii) : is_lower_alnum c = true -> lower_char c = c.
Proof.
  unfold is_lower_alnum, lower_char. cbv zeta. intros H.
  match goal with |- (if ?b then _ else _) = _ => destruct b eqn:E end; [| reflexivity].
  exfalso.
  assert (Hn : (48 <= nat_of_ascii c <= 57 \/ 97 <= nat_of_ascii c <= 122)%nat).
  { apply orb_true_iff in H as [[H1%Nat.leb_le H2%Nat.leb_le]%andb_true_iff
                               | [H1%Nat.leb_le H2%Nat.leb_le]%andb_true_iff]; lia. }
  apply orb_true_iff in E as [[E1%Nat.leb_le E2%Nat.leb_le]%andb_true_iff
                             | [[E1%Nat.leb_le _]%andb_true_iff _]%andb_true_iff]; lia.
Qed.

(** A string of lower-case letters, digits and single hyphens is its own
    slug. *)
Lemma slug_fixed (s : string) :
  all_chars (fun c => is_lower_alnum c || Ascii.eqb c "-") s = true ->
  no_run_of "-" s = true ->
  toLowerCase s = s /\
  forall in_run,
    match s with
    | String c _ => in_run = true -> is_lower_alnum c = true
    | EmptyString => True
    end ->
    replace_non_alnum_runs in_run s = s.
Proof.
  induction s as [| c s IH]; [split; reflexivity |].
  cbn [all_chars]. intros [Hc Hs]%andb_true_iff Hr.
  assert (Hr' : no_run_of "-" s = true).
  { destruct s as [| b s]; [reflexivity |]. cbn [no_run_of] in Hr.
    apply andb_true_iff in Hr as [_ Hr]. exact Hr. }
  destruct (IH Hs Hr') as [IHl IHr].
  assert (Hl : lower_char c = c).
  { apply orb_true_iff in Hc as [Hc | Hc]; [apply lower_char_lower_alnum, Hc |].
    apply Ascii.eqb_eq in Hc as ->. reflexivity. }
  split; [cbn [toLowerCase]; rewrite Hl, IHl; reflexivity |].
  intros in_run Hhead. rewrite replace_non_alnum_runs_cons.
  destruct (is_lower_alnum c) eqn:Ec.
  - rewrite IHr; [reflexivity |]. destruct s; [exact I | discriminate].
  - destruct in_run; [specialize (Hhead eq_refl); discriminate Hhead |].
    cbn [orb] in Hc. apply Ascii.eqb_eq in Hc as ->.
    rewrite IHr; [reflexivity |].
    destruct s as [| b s]; [exact I |]. intros _.
    cbn [no_run_of] in Hr. apply andb_true_iff in Hr as [Hr _].
    cbn [all_chars] in Hs. apply andb_true_iff in Hs as [Hb _].
    destruct (Ascii.eqb_spec b "-") as [-> |]; [discriminate Hr |].
    cbn [orb] in Hb. destruct (is_lower_alnum b); [reflexivity | discriminate Hb].
Qed.

(** X7. The pipeline name is a slug of the title, a hyphen and the reading of
    the clock. The slug is the lower-cased title with every run of
    characters outside a-z and 0-9 replaced by one hyphen: it consists of
    lower-case letters, digits and hyphens, never two hyphens in a row; it
    keeps the letters and digits of the lower-cased title in their order and
    is no longer than the lower-cased title; lower-casing leaves it as it
    is, and it is its own slug. *)
Theorem pipelineName_slug (env : Env) (topicTitle : string) (now : Z) :
  let lowered := toLowerCase topicTitle in
  let slug := replace_non_alnum_runs false lowered in
  pipelineName env topicTitle now
  = slug +:+ "-" +:+ Number_toString env (number_of_Z now) /\
  all_chars (fun c => is_lower_alnum c || Ascii.eqb c "-") slug = true /\
  no_run_of "-" slug = true /\
  keep_chars is_lower_alnum slug = keep_chars is_lower_alnum lowered /\
  String.length slug <= String.length lowered /\
  toLowerCase slug = slug /\
  replace_non_alnum_runs false (toLowerCase slug) = slug.
Proof.
  intros lowered slug.
  destruct (replace_non_alnum_runs_shape false lowered) as (H1 & H2 & H3 & H4).
  split; [reflexivity |]. repeat (split; [assumption |]).
  destruct (slug_fixed slug H1 H2) as [Hlow Hfix].
  split; [exact Hlow |]. rewrite Hlow.
  apply Hfix. destruct slug; [exact I | discriminate].
Qed.

Lemma last_segment_cons (acc : string) (c : ascii) (rest : string) :
  last_segment acc (String c rest)
  = if Ascii.eqb c "/" then last_segment EmptyString rest
    else last_segment (acc +:+ String c EmptyString) rest.
Proof. reflexivity. Qed.

Lemma last_segment_no_slash (s acc : string) :
  all_chars (fun c => negb (is_slash c)) s = true -> last_segment acc s = acc +:+ s.
Proof.
  revert acc. induction s as [| c s IH]; intros acc.
  - intros _. rewrite append_nil_r. reflexivity.
  - cbn [all_chars]. intros [Hc Hs]%andb_true_iff. rewrite last_segment_cons.
    unfold is_slash in Hc. destruct (Ascii.eqb c "/"); [discriminate Hc |].
    rewrite (IH _ Hs), append_assoc. reflexivity.
Qed.

Lemma last_segment_app (s1 s2 acc : string) :
  all_chars (fun c => negb (is_slash c)) s2 = true ->
  last_segment acc (s1 +:+ s2) = last_segment acc s1 +:+ s2.
Proof.
  intros H2. revert acc. induction s1 as [| c s1 IH]; intros acc.
  - rewrite append_nil_l. exact (last_segment_no_slash s2 acc H2).
  - rewrite append_cons, !last_segment_cons. destruct (Ascii.eqb c "/"); apply IH.
Qed.

Lemma last_segment_slash (s acc : string) : last_segment acc (s +:+ "/") = EmptyString.
Proof.
  revert acc. induction s as [| c s IH]; intros acc; [reflexivity |].
  rewrite append_cons, last_segment_cons. destruct (Ascii.eqb c "/"); apply IH.
Qed.

Lemma last_segment_safe (s acc : string) :
  all_chars (fun c => negb (is_slash c)) acc = true ->
  all_chars (fun c => negb (is_slash c)) (last_segment acc s) = true.
Proof.
  revert acc. induction s as [| c s IH]; intros acc Hacc; [exact Hacc |].
  rewrite last_segment_cons. destruct (Ascii.eqb c "/") eqn:Ec; [apply IH; reflexivity |].
  apply IH. rewrite all_chars_app, Hacc. cbn. unfold is_slash. rewrite Ec. reflexivity.
Qed.

(** X8. The file name sent to the indexing service is never empty and holds no
    slash; for a key that ends in a slash-free, non-empty name after a slash
    it is that name, and for a key that is empty or ends in a slash it is
    document.pdf. *)
Theorem fileName_of_key (s3Key : string) :
  truthy_string (fileName s3Key) = true /\
  all_chars (fun c => negb (is_slash c)) (fileName s3Key) = true /\
  (forall dir name,
      s3Key = dir +:+ "/" +:+ name ->
      all_chars (fun c => negb (is_slash c)) name = true ->
      fileName s3Key = if truthy_string name then name else "document.pdf") /\
  (all_chars (fun c => negb (is_slash c)) s3Key = true ->
   fileName s3Key = if truthy_string s3Key then s3Key else "document.pdf").
Proof.
  unfold fileName. cbv zeta. split; [| split; [| split]].
  - destruct (last_segment "" s3Key); reflexivity.
  - pose proof (last_segment_safe s3Key "" eq_refl) as H.
    destruct (last_segment "" s3Key); [reflexivity | exact H].
  - intros dir name -> Hname.
    rewrite <- append_assoc, (last_segment_app _ _ _ Hname), last_segment_slash.
    reflexivity.
  - intros H. rewrite (last_segment_no_slash _ _ H). reflexivity.
Qed.

(** ** The calls of the indexing handler *)

Lemma log_extends_refl (allowed : Call -> Prop) (w : World) :
  log_extends allowed (calls w) w.
Proof. exists []. split; [symmetry; apply app_nil_r | constructor]. Qed.

Lemma log_extends_record (allowed : Call -> Prop) (before : list Call) (c : Call)
    (w : World) :
  allowed c -> log_extends allowed before w -> log_extends allowed before (record_call c w).
Proof.
  intros Hc (new & Hn & Hall). exists (new ++ [c])%list. split.
  - cbn [record_call calls]. rewrite Hn, app_assoc. reflexivity.
  - apply Forall_app. split; [exact Hall | repeat constructor; exact Hc].
Qed.

Lemma log_new_Date (allowed : Call -> Prop) (before : list Call) (env : Env) :
  keeps (log_extends allowed before) (new_Date env).
Proof. intros w H. exact H. Qed.

Lemma log_fetch {J : Type} (allowed : Call -> Prop) (before : list Call)
    (answer : completion (Response J)) (req : Request) :
  allowed (CallFetch req) -> keeps (log_extends allowed before) (fetch answer req).
Proof. intros Hc w H. apply log_extends_record; assumption. Qed.

Lemma log_GetObject (allowed : Call -> Prop) (before : list Call) (env : Env)
    (bucket key : string) :
  allowed (CallGetObject bucket key) ->
  keeps (log_extends allowed before) (s3Client_send_GetObjectCommand env bucket key).
Proof. intros Hc w H. apply log_extends_record; assumption. Qed.

Lemma log_GetCommand (allowed : Call -> Prop) (before : list Call) (env : Env)
    (tableName key : string) :
  allowed (CallGet tableName key) ->
  keeps (log_extends allowed before) (docClient_send_GetCommand env tableName key).
Proof.
  intros Hc w H. unfold docClient_send_GetCommand.
  assert (H1 := log_extends_record _ _ _ _ Hc H).
  destruct (ddb_get_fault env); [exact H1 |]. destruct (negb _); exact H1.
Qed.

Lemma log_messages_create (allowed : Call -> Prop) (before : list Call) (env : Env)
    (params : MessageCreateParams) :
  allowed (CallMessagesCreate params) ->
  keeps (log_extends allowed before) (anthropic_messages_create env params).
Proof. intros Hc w H. apply log_extends_record; assumption. Qed.

Lemma log_UpdateCommand (allowed : Call -> Prop) (before : list Call) (env : Env)
    (cmd : UpdateCommand) :
  allowed (CallUpdate cmd) ->
  keeps (log_extends allowed before) (docClient_send_UpdateCommand env cmd).
Proof.
  intros Hc w H. unfold docClient_send_UpdateCommand.
  assert (H1 := log_extends_record _ _ _ _ Hc H).
  destruct (ddb_update_fault env cmd); [exact H1 |].
  destruct (negb _); [exact H1 |].
  destruct (UpdateItem _ _); [| exact H1].
  destruct H1 as (new & Hn & Hall). exists new. split; assumption.
Qed.

(** *** Rules for [triple] *)

Lemma triple_bind {S A B : Type} (P : S -> Prop) (Q : A -> S -> Prop)
    (R : B -> S -> Prop) (E : S -> Prop) (m : M S A) (k : A -> M S B) :
  triple P m Q E -> (forall a, triple (Q a) (k a) R E) -> triple P (bind m k) R E.
Proof.
  intros Hm Hk s H. unfold bind. specialize (Hm s H).
  destruct (m s) as [[a | e] s']; [exact (Hk a s' Hm) | exact Hm].
Qed.

Lemma triple_pre {S A : Type} (P P' : S -> Prop) (Q : A -> S -> Prop) (E : S -> Prop)
    (m : M S A) :
  (forall s, P s -> P' s) -> triple P' m Q E -> triple P m Q E.
Proof. intros HP Hm s H. exact (Hm s (HP s H)). Qed.

Lemma triple_pure {S A : Type} (fact : Prop) (P : S -> Prop) (Q : A -> S -> Prop)
    (E : S -> Prop) (m : M S A) :
  (fact -> triple P m Q E) -> triple (fun s => fact /\ P s) m Q E.
Proof. intros Hm s [Hf H]. exact (Hm Hf s H). Qed.

Lemma keeps_triple {S A : Type} (I : S -> Prop) (m : M S A) :
  keeps I m -> triple I m (fun _ => I) I.
Proof. intros Hm s H. specialize (Hm s H). destruct (m s) as [[a | e] s']; exact Hm. Qed.

Lemma triple_lift {L A : Type} (P : World -> Prop) (Q : A -> World -> Prop)
    (E : World -> Prop) (m : M World A) :
  triple P m Q E ->
  triple (fun s : World * L => P (fst s)) (lift m) (fun a s => Q a (fst s))
    (fun s => E (fst s)).
Proof.
  intros Hm [w l] H. unfold lift. cbn [fst snd] in *. specialize (Hm w H).
  destruct (m w) as [[a | e] w']; exact Hm.
Qed.

Lemma triple_await {S A : Type} (P E : S -> Prop) (c : completion A) :
  (forall s, P s -> E s) -> triple P (await c) (fun a s => c = Normal a /\ P s) E.
Proof.
  intros HE s H. unfold await. destruct c as [a | e]; [split; [reflexivity | exact H] |].
  exact (HE s H).
Qed.

(** A reading of the clock returns the reading of the tick at which it is
    taken and moves the clock on by one. *)
Lemma triple_new_Date (env : Env) (I E : World -> Prop) (t : nat) :
  (forall w, I w -> I (tick w)) ->
  triple (fun w => I w /\ ticks w = t) (new_Date env)
    (fun now w => now = clock env t /\ I w /\ ticks w = S t) E.
Proof.
  intros HI w [H Ht]. subst t. unfold new_Date. split; [reflexivity |].
  split; [exact (HI w H) | reflexivity].
Qed.

(** A call of a service leaves the clock. *)
Lemma triple_same_ticks {A : Type} (I : World -> Prop) (Y : A -> Prop) (t : nat)
    (m : M World A) :
  keeps I m -> yields Y m -> keeps (fun w => ticks w = t) m ->
  triple (fun w => I w /\ ticks w = t) m (fun a w => Y a /\ I w /\ ticks w = t) I.
Proof.
  intros HI HY Ht w [H Hw]. specialize (HI w H). specialize (HY w). specialize (Ht w Hw).
  destruct (m w) as [[a | e] w']; cbn [fst snd] in *; [| exact HI].
  split; [exact (HY a eq_refl) | split; assumption].
Qed.

Lemma ticks_UpdateCommand (env : Env) (cmd : UpdateCommand) (t : nat) :
  keeps (fun w => ticks w = t) (docClient_send_UpdateCommand env cmd).
Proof.
  intros w H. unfold docClient_send_UpdateCommand.
  destruct (ddb_update_fault env cmd); [exact H |].
  destruct (negb _); [exact H |].
  destruct (UpdateItem _ _); exact H.
Qed.

Lemma ticks_GetObject (env : Env) (bucket key : string) (t : nat) :
  keeps (fun w => ticks w = t) (s3Client_send_GetObjectCommand env bucket key).
Proof. intros w H. exact H. Qed.

(** A [try] with a local variable: what the body establishes from the start
    and the [catch] block keeps holds in the end. *)
Lemma with_local_try_catch {L A : Type} (P : World * L -> Prop) (I : World -> Prop)
    (init : L) (body : M (World * L) A) (h : thrown -> M (World * L) A) (w : World) :
  triple P body (fun _ s => I (fst s)) (fun s => I (fst s)) ->
  (forall e, keeps (fun s : World * L => I (fst s)) (h e)) ->
  P (w, init) ->
  I (snd (with_local init (try_catch body h) w)).
Proof.
  intros Hb Hh H. unfold with_local, try_catch. specialize (Hb (w, init) H).
  destruct (body (w, init)) as [[a | e] s']; [exact Hb |].
  specialize (Hh e s' Hb). destruct (h e s') as [r s'']. exact Hh.
Qed.

(** X5. The calls of a run of the indexing handler, whatever the environment and
    the outcome: the log only grows, and each new call is one of the four
    writes for the Topic of the run, to the table named by TOPIC_TABLE_NAME,
    a READY write carrying the pipeline and file ids that the service
    answered; the read of the object named by the arguments; or one of the
    three requests to the indexing service, each under
    https://api.cloud.llamaindex.ai/api/v1 and carrying the API key as bearer
    token. The handler never reads the Topic table and never calls the
    language model. The create request names the pipeline by the slug of the
    title, a hyphen and the second reading of the clock in the run; the
    bytes it uploads are those that S3 returned, under the file name of the
    key; the attach request names the pipeline and file ids that the service
    returned. *)
Theorem indexing_handler_calls (env : Env) (args : UploadToLlamaCloud.Arguments)
    (w : World) :
  exists new,
    calls (snd (UploadToLlamaCloud.handler env args w)) = (calls w ++ new)%list /\
    Forall (indexing_call env args (ticks w)) new.
Proof.
  set (allowed := indexing_call env args (ticks w)).
  change (log_extends allowed (calls w) (snd (UploadToLlamaCloud.handler env args w))).
  set (I := log_extends allowed (calls w)).
  assert (H0 : I w) by apply log_extends_refl.
  unfold UploadToLlamaCloud.handler. cbv zeta.
  destruct (process_env env !! "TOPIC_TABLE_NAME") as [tableName |] eqn:Etn;
    [| exact H0].
  destruct (process_env env !! "LLAMA_CLOUD_API_KEY") as [apiKey |] eqn:Ekey;
    [| destruct (truthy_opt_string _); exact H0].
  destruct (process_env env !! "LLAMA_CLOUD_PROJECT_ID") as [projectId |] eqn:Eproj;
    [| destruct (truthy_opt_string _), (truthy_opt_string _); exact H0].
  destruct (_ || _); [exact H0 |]. cbn [default].
  assert (Hreq : forall req, handler_request env args (ticks w) apiKey projectId req ->
                             allowed (CallFetch req)).
  { intros req Hr. exists apiKey, projectId. repeat split; assumption. }
  assert (Hupd : forall cmd, handler_sends env (UploadToLlamaCloud.topicId args) cmd ->
                             TableName cmd = tableName ->
                             allowed (CallUpdate cmd)).
  { intros cmd Hc <-. split; assumption. }
  assert (Htick : forall w', I w' -> I (tick w')) by (intros w' H; exact H).
  apply (with_local_try_catch
           (fun s => I (fst s) /\ ticks (fst s) = ticks w) I);
    [| | split; [exact H0 | reflexivity]].
  - unfold UploadToLlamaCloud.try_block.
    (* the first reading of the clock stamps the INDEXING write *)
    eapply triple_bind;
      [exact (triple_lift _ _ _ _ (triple_new_Date env I I (ticks w) Htick))
      | intros updatedAt; cbv beta].
    eapply triple_bind.
    { eapply triple_pre; [intros s (_ & H); exact H |].
      refine (triple_lift _ _ _ _
                (triple_same_ticks I (fun _ => True) (S (ticks w)) _ _ _ _)).
      - apply log_UpdateCommand, Hupd; [| reflexivity].
        apply handler_sends_other; [apply write_INDEXING | discriminate].
      - intros w' a _. exact Logic.I.
      - apply ticks_UpdateCommand. }
    intros ?; cbv beta.
    eapply triple_bind.
    { eapply triple_pre; [intros s (_ & H); exact H |].
      refine (triple_lift _ _ _ _
                (triple_same_ticks I (fun r => s3_getObject env = Normal r)
                   (S (ticks w)) _ _ _ _)).
      - apply log_GetObject. split; reflexivity.
      - apply yields_GetObject.
      - apply ticks_GetObject. }
    intros [[transform |]]; cbv beta; cbn [Body];
      [| intros s (_ & H & _); exact H].
    apply triple_pure; intros Hs3.
    eapply triple_bind;
      [apply (triple_await _ (fun s => I (fst s))); intros s (H & _); exact H
      | intros bytes; cbv beta].
    apply triple_pure; intros ->.
    (* the second reading names the pipeline *)
    eapply triple_bind;
      [exact (triple_lift _ _ _ _ (triple_new_Date env I I (S (ticks w)) Htick)) |].
    intros now s (-> & H & _). revert s H. cbv zeta.
    apply (keeps_triple (fun s : UploadToLlamaCloud.St => I (fst s))).
    apply (keeps_bind_yields _ (fun r => llama_create_pipeline env = Normal r));
      [apply keeps_lift, log_fetch, Hreq, request_create
      | apply yields_lift, yields_fetch | intros r1 Hr1].
    apply (keeps_bind_yields _ (fun _ => negb (ok r1) = false));
      [apply keeps_when, keeps_bind; [apply keeps_await | intros ?; apply keeps_throw]
      | apply yields_when_throws, yields_bind; intros ?; apply yields_throw
      | intros _ Hok1].
    apply (keeps_bind_yields _ (fun a => body_json r1 = Normal a));
      [apply keeps_await | apply yields_await | intros pipeline Hj1].
    apply keeps_bind; [apply keeps_assign_local | intros _].
    apply (keeps_bind_yields _ (fun r => llama_upload_file env = Normal r));
      [apply keeps_lift, log_fetch, Hreq, (request_upload _ _ _ _ _ bytes), Hs3
      | apply yields_lift, yields_fetch | intros r2 Hr2].
    apply (keeps_bind_yields _ (fun _ => negb (ok r2) = false));
      [apply keeps_when, keeps_bind; [apply keeps_await | intros ?; apply keeps_throw]
      | apply yields_when_throws, yields_bind; intros ?; apply yields_throw
      | intros _ Hok2].
    apply (keeps_bind_yields _ (fun a => body_json r2 = Normal a));
      [apply keeps_await | apply yields_await | intros file Hj2].
    assert (Hp : answered (llama_create_pipeline env) = Some pipeline)
      by (eapply answered_Normal; eassumption).
    assert (Hf : answered (llama_upload_file env) = Some file)
      by (eapply answered_Normal; eassumption).
    apply keeps_bind;
      [apply keeps_lift, log_fetch, Hreq, (request_attach _ _ _ _ _ pipeline file);
       assumption
      | intros r3].
    apply keeps_bind;
      [apply keeps_when, keeps_bind; [apply keeps_await | intros ?; apply keeps_throw]
      | intros _].
    apply keeps_bind; [apply keeps_lift, log_new_Date | intros indexedAt].
    apply keeps_bind; [apply keeps_lift, log_new_Date | intros updatedAt'].
    apply keeps_bind; [| intros _; apply keeps_ret].
    apply keeps_lift, log_UpdateCommand, Hupd; [| reflexivity].
    split; [apply write_READY |]. intros _. exists pipeline, file.
    repeat split; assumption.
  - intros error. unfold UploadToLlamaCloud.catch_block.
    apply keeps_bind; [| intros _; apply keeps_ret].
    apply keeps_try_catch; [| intros ?; apply keeps_ret].
    apply keeps_bind; [apply keeps_read_local | intros pipelineId]. cbv zeta.
    apply keeps_bind; [apply keeps_lift, log_new_Date | intros updatedAt].
    apply keeps_lift, log_UpdateCommand, Hupd; [| reflexivity].
    destruct (truthy_opt_string pipelineId);
      (apply handler_sends_other;
       [first [apply write_FAILED_pipeline | apply write_FAILED] | discriminate]).
Qed.

(** ** The calls of the query handler *)

(** X6. The calls of a query, whatever the environment and the outcome: at most
    three, in this order: the read of the Topic; the retrieval request, made
    only for a Topic that is READY and has a non-empty pipeline id, to the
    retrieve endpoint of that pipeline with the question and
    similarity_top_k 10; and the synthesis request, made only when the
    retrieval answered at least one passage, with one user message for the
    model claude-opus-4-5-20251101 and max_tokens 2048. *)
Theorem query_handler_calls (env : Env) (args : QueryTopic.Arguments) (w : World) :
  exists new,
    calls (snd (QueryTopic.handler env args w)) = (calls w ++ new)%list /\
    query_calls env args (table w) new.
Proof.
  unfold QueryTopic.handler. cbv zeta.
  destruct (process_env env !! "TOPIC_TABLE_NAME") as [tableName |] eqn:Etn;
    [| exists []; split; [symmetry; apply app_nil_r | left; reflexivity]].
  destruct (process_env env !! "LLAMA_CLOUD_API_KEY") as [apiKey |] eqn:Ekey;
    [| exists []; destruct (truthy_opt_string _);
       (split; [symmetry; apply app_nil_r | left; reflexivity])].
  destruct (_ || _);
    [exists []; split; [symmetry; apply app_nil_r | left; reflexivity] |].
  cbn [default Datatypes.id].
  unfold try_catch, QueryTopic.try_block, bind, docClient_send_GetCommand.
  assert (Hread : exists new,
             calls (record_call (CallGet tableName (QueryTopic.topicId args)) w)
             = (calls w ++ new)%list /\
             query_calls env args (table w) new).
  { eexists. split; [reflexivity |]. right. exists tableName, apiKey.
    split; [exact Etn |]. split; [exact Ekey |]. left. reflexivity. }
  destruct (ddb_get_fault env); [exact Hread |].
  destruct (negb (tableName =? topic_table_name env)%string); [exact Hread |].
  cbn [table record_call].
  destruct (table w !! QueryTopic.topicId args) as [topic |] eqn:Et; [| exact Hread].
  destruct (QueryTopic.is_READY (topic !! "topicStatus")) eqn:Est; cbn [negb];
    [| exact Hread].
  apply is_READY_true in Est.
  destruct (topic !! "llamaCloudPipelineId") as [pipelineId |] eqn:Ep;
    cbn [truthy_opt_string]; [| exact Hread].
  destruct (truthy_string pipelineId) eqn:Etp; cbn [negb]; [| exact Hread].
  clear Hread. cbn [string_of_opt]. unfold fetch, when, await, throw, ret.
  fold (retrieval_request apiKey pipelineId (QueryTopic.query args)).
  assert (Hretrieve : exists new,
             calls (record_call
                      (CallFetch (retrieval_request apiKey pipelineId (QueryTopic.query args)))
                      (record_call (CallGet tableName (QueryTopic.topicId args)) w))
             = (calls w ++ new)%list /\
             query_calls env args (table w) new).
  { eexists. split; [cbn [calls record_call]; rewrite <- app_assoc; reflexivity |].
    right. exists tableName, apiKey. split; [exact Etn |]. split; [exact Ekey |].
    right. exists topic, pipelineId. repeat (split; [assumption |]). left. reflexivity. }
  destruct (llama_retrieve env) as [r | e] eqn:Er; [| exact Hretrieve].
  destruct (ok r) eqn:Eok; cbn [negb];
    [| destruct (body_text r); exact Hretrieve].
  destruct (body_json r) as [data |] eqn:Ej; [| exact Hretrieve].
  destruct (List.length (default [] (retrieval_nodes data)) =? 0)%nat eqn:En;
    [exact Hretrieve |].
  destruct (mapi_from_c 0 (QueryTopic.context_entry env) (default [] (retrieval_nodes data)))
    as [entries | e]; [| exact Hretrieve].
  clear Hretrieve. unfold anthropic_messages_create.
  assert (Hsynth : exists new,
             calls (record_call
                      (CallMessagesCreate
                         {| model := "claude-opus-4-5-20251101";
                            max_tokens := 2048;
                            system := QueryTopic.systemPrompt;
                            messages :=
                              [("user",
                                QueryTopic.userPrompt (topic !! "title")
                                  (QueryTopic.query args)
                                  (join (nl +:+ nl +:+ "---" +:+ nl +:+ nl) entries))] |})
                      (record_call
                         (CallFetch
                            (retrieval_request apiKey pipelineId (QueryTopic.query args)))
                         (record_call (CallGet tableName (QueryTopic.topicId args)) w)))
             = (calls w ++ new)%list /\
             query_calls env args (table w) new).
  { eexists. split; [cbn [calls record_call]; rewrite <- !app_assoc; reflexivity |].
    right. exists tableName, apiKey. split; [exact Etn |]. split; [exact Ekey |].
    right. exists topic, pipelineId. repeat (split; [assumption |]). right.
    eexists. exists data. split; [reflexivity |].
    split; [repeat split; eexists; reflexivity |].
    split; [unfold answered; rewrite Er, Eok, Ej; reflexivity |].
    intros Hnil. rewrite Hnil in En. discriminate En. }
  destruct (anthropic_create env) as [message | e]; [| exact Hsynth].
  destruct (QueryTopic.first_text message); [| exact Hsynth].
  destruct (mapi_from_c 0 QueryTopic.citation (default [] (retrieval_nodes data)));
    exact Hsynth.
Qed.

(** ** The upload schema *)

Lemma TopicUploadSchema_safeParse_cases (input : FormSchema.TopicUploadFormData) :
  match FormSchema.TopicUploadSchema_safeParse input with
  | Zod.SafeParseSuccess data =>
      valid_upload input = true /\
      data = {| FormSchema.title := trim (FormSchema.title input);
                FormSchema.description := trim (FormSchema.description input);
                FormSchema.fileName := FormSchema.fileName input;
                FormSchema.fileSize := FormSchema.fileSize input;
                FormSchema.fileType := FormSchema.fileType input |}
  | Zod.SafeParseError issues => valid_upload input = false /\ issues <> []
  end.
Proof.
  unfold FormSchema.TopicUploadSchema_safeParse, Zod.number_max.
  cbn [Zod.string_]. change (10 * 1024 * 1024)%Z with 10485760%Z.
  assert (Hv : valid_upload input = true <->
               1 <= String.length (FormSchema.title input) <= 200 /\
               1 <= String.length (FormSchema.description input) <= 1000 /\
               1 <= String.length (FormSchema.fileName input) /\
               (FormSchema.fileSize input <= 10485760)%Z /\
               FormSchema.fileType input = "application/pdf").
  { unfold valid_upload.
    rewrite !andb_true_iff, !Nat.leb_le, Z.leb_le, String.eqb_eq. tauto. }
  destruct (Nat.ltb_spec (String.length (FormSchema.title input)) 1);
    [split; [apply not_true_iff_false; rewrite Hv; lia | discriminate] |].
  destruct (Nat.ltb_spec 200 (String.length (FormSchema.title input)));
    [split; [apply not_true_iff_false; rewrite Hv; lia | discriminate] |].
  destruct (Nat.ltb_spec (String.length (FormSchema.description input)) 1);
    [split; [apply not_true_iff_false; rewrite Hv; lia | discriminate] |].
  destruct (Nat.ltb_spec 1000 (String.length (FormSchema.description input)));
    [split; [apply not_true_iff_false; rewrite Hv; lia | discriminate] |].
  destruct (Nat.ltb_spec (String.length (FormSchema.fileName input)) 1);
    [split; [apply not_true_iff_false; rewrite Hv; lia | discriminate] |].
  destruct (Z.ltb_spec 10485760 (FormSchema.fileSize input));
    [split; [apply not_true_iff_false; rewrite Hv; lia | discriminate] |].
  destruct (String.eqb_spec (FormSchema.fileType input) "application/pdf");
    [| split; [apply not_true_iff_false; rewrite Hv; tauto | discriminate]].
  split; [| reflexivity]. apply Hv. repeat split; first [lia | assumption].
Qed.

Lemma valid_upload_bounds (input : FormSchema.TopicUploadFormData) :
  valid_upload input = true <->
  1 <= String.length (FormSchema.title input) <= 200 /\
  1 <= String.length (FormSchema.description input) <= 1000 /\
  1 <= String.length (FormSchema.fileName input) /\
  (FormSchema.fileSize input <= 10485760)%Z /\
  FormSchema.fileType input = "application/pdf".
Proof.
  unfold valid_upload.
  rewrite !andb_true_iff, !Nat.leb_le, Z.leb_le, String.eqb_eq. tauto.
Qed.

(** X10. The schema accepts exactly the inputs whose title has 1 to 200
    characters and whose description has 1 to 1000, both counted before
    trimming and with the bounds included, whose file name is not empty, whose
    size is at most 10 MB (10485760 bytes, included) and whose type is
    application/pdf. The data of an accepted input is the input with title
    and description trimmed; a rejected input has at least one issue. So
    a title of exactly 200 characters is accepted although the message speaks
    of less than 200, and a title of spaces only is accepted and becomes the
    empty title. *)
Theorem TopicUploadSchema_accepts (input : FormSchema.TopicUploadFormData) :
  ((exists data, FormSchema.TopicUploadSchema_safeParse input = Zod.SafeParseSuccess data)
   <->
   1 <= String.length (FormSchema.title input) <= 200 /\
   1 <= String.length (FormSchema.description input) <= 1000 /\
   1 <= String.length (FormSchema.fileName input) /\
   (FormSchema.fileSize input <= 10485760)%Z /\
   FormSchema.fileType input = "application/pdf") /\
  (forall data,
      FormSchema.TopicUploadSchema_safeParse input = Zod.SafeParseSuccess data ->
      data = {| FormSchema.title := trim (FormSchema.title input);
                FormSchema.description := trim (FormSchema.description input);
                FormSchema.fileName := FormSchema.fileName input;
                FormSchema.fileSize := FormSchema.fileSize input;
                FormSchema.fileType := FormSchema.fileType input |}) /\
  (forall issues,
      FormSchema.TopicUploadSchema_safeParse input = Zod.SafeParseError issues ->
      issues <> []).
Proof.
  pose proof (TopicUploadSchema_safeParse_cases input) as H.
  rewrite <- valid_upload_bounds.
  destruct (FormSchema.TopicUploadSchema_safeParse input) as [data | issues].
  - destruct H as [Hv ->]. split; [| split].
    + split; [intros _; exact Hv | intros _; eexists; reflexivity].
    + intros data' [= <-]. reflexivity.
    + intros issues [=].
  - destruct H as [Hv Hne]. split; [| split].
    + split; [intros [data [=]] | intros Hv'; congruence].
    + intros data [=].
    + intros issues' [= <-]. exact Hne.
Qed.

Lemma safeParse_valid (input : FormSchema.TopicUploadFormData) :
  valid_upload input = true ->
  FormSchema.TopicUploadSchema_safeParse input
  = Zod.SafeParseSuccess
      {| FormSchema.title := trim (FormSchema.title input);
         FormSchema.description := trim (FormSchema.description input);
         FormSchema.fileName := FormSchema.fileName input;
         FormSchema.fileSize := FormSchema.fileSize input;
         FormSchema.fileType := FormSchema.fileType input |}.
Proof.
  intros Hv. pose proof (TopicUploadSchema_safeParse_cases input) as H.
  destruct (FormSchema.TopicUploadSchema_safeParse input) as [data | issues].
  - destruct H as [_ ->]. reflexivity.
  - destruct H as [H _]. congruence.
Qed.

Lemma safeParse_invalid (input : FormSchema.TopicUploadFormData) :
  valid_upload input = false ->
  exists issues, FormSchema.TopicUploadSchema_safeParse input = Zod.SafeParseError issues.
Proof.
  intros Hv. pose proof (TopicUploadSchema_safeParse_cases input) as H.
  destruct (FormSchema.TopicUploadSchema_safeParse input) as [data | issues].
  - destruct H as [H _]. congruence.
  - exists issues. reflexivity.
Qed.

(** ** [saveTopicDocument] *)

(** A form without a file or refused by the schema, or a configuration
    without the bucket, ends the action before it stores anything. *)
Lemma saveTopicDocument_rejects (env : SaveTopicDocument.Server)
    (formData : SaveTopicDocument.FormData) (s : SaveTopicDocument.Site) :
  acceptable formData && bucket_configured env = false ->
  exists error,
    SaveTopicDocument.saveTopicDocument env formData s
    = (Normal (SaveTopicDocument.failure error), s).
Proof.
  unfold acceptable, bucket_configured, SaveTopicDocument.saveTopicDocument,
    SaveTopicDocument.try_block, try_catch.
  destruct (SaveTopicDocument.file formData) as [file |]; [| eexists; reflexivity].
  fold (upload_input formData file).
  destruct (valid_upload (upload_input formData file)) eqn:Ev.
  - rewrite (safeParse_valid _ Ev). cbn [andb]. intros ->. eexists. reflexivity.
  - destruct (safeParse_invalid _ Ev) as [issues ->]. eexists. reflexivity.
Qed.

Lemma create_topic_fresh (new_id : string) (now : Z) (title description fileKey : string)
    (t : Table) :
  t !! new_id = None ->
  exists item,
    TopicActions.create_topic new_id now title description fileKey t
    = (Some item, <[new_id := item]> t) /\
    item !! "id" = Some new_id /\
    item !! "topicStatus" = Some "PENDING" /\
    item !! "s3Key" = Some fileKey /\
    item !! "title" = Some title /\
    item !! "description" = Some description.
Proof.
  intros Hn. unfold TopicActions.create_topic, TopicActions.models_Topic_create.
  rewrite Hn. eexists. split; [reflexivity |].
  cbn [set_attrs foldl fst snd]. lookups. repeat split; reflexivity.
Qed.

Lemma create_topic_taken (new_id : string) (now : Z) (title description fileKey : string)
    (t : Table) (item : Item) :
  t !! new_id = Some item ->
  TopicActions.create_topic new_id now title description fileKey t = (None, t).
Proof.
  intros Hn. unfold TopicActions.create_topic, TopicActions.models_Topic_create.
  rewrite Hn. reflexivity.
Qed.

(** How the action ends once the object is stored. *)
Lemma saveTopicDocument_summary (env : SaveTopicDocument.Server)
    (formData : SaveTopicDocument.FormData) (s : SaveTopicDocument.Site)
    (file : File.File) (bytes : list Byte.byte) (uid : string) :
  uploads env formData file bytes uid ->
  let key := SaveTopicDocument.fileKey env uid (File.name file) in
  SaveTopicDocument.saveTopicDocument env formData s
  = outcome_after_put env formData key
      (after_put s key (stored_object env formData file bytes key)).
Proof.
  intros (Hfile & Hv & Hcfg & Hbytes & (session & Hs & Hc & Hu & Hut) & Hput) key.
  unfold outcome_after_put.
  unfold SaveTopicDocument.saveTopicDocument, SaveTopicDocument.try_block, try_catch.
  rewrite Hfile. fold (upload_input formData file). rewrite (safeParse_valid _ Hv).
  unfold bucket_configured in Hcfg. rewrite Hcfg. cbn [negb].
  unfold SaveTopicDocument.upload_operation.
  unfold bind, await, throw, ret, SaveTopicDocument.s3Client_send_PutObjectCommand,
    SaveTopicDocument.models_Topic_create, SaveTopicDocument.mutations_uploadToLlamaCloud.
  rewrite Hbytes, Hs. destruct (Auth.credentials session); [| discriminate Hc].
  rewrite Hu. cbn [truthy_opt_string string_of_opt]. rewrite Hut. cbn [negb].
  cbn [FormSchema.title FormSchema.description upload_input].
  fold key. fold (stored_object env formData file bytes key). fold key in Hput.
  rewrite Hput. cbn [S3.Key stored_object].
  fold (stored_object env formData file bytes key).
  fold (after_put s key (stored_object env formData file bytes key)).
  generalize (after_put s key (stored_object env formData file bytes key)). intros s1.
  destruct (SaveTopicDocument.Topic_create env) as [[[[new_id now] |] errors] | e];
    [| destruct errors; reflexivity | reflexivity].
  cbn [run_op].
  destruct (SaveTopicDocument.topics s1 !! new_id) as [old |] eqn:En.
  - rewrite (create_topic_taken _ _ _ _ _ _ _ En). cbn [snd]. destruct errors; reflexivity.
  - destruct (create_topic_fresh new_id now (trim (SaveTopicDocument.title formData))
                (trim (SaveTopicDocument.description formData)) key _ En)
      as (item & -> & Hid & _).
    cbn [snd]. destruct errors; [reflexivity |].
    rewrite Hid. cbn [string_of_opt].
    destruct (SaveTopicDocument.uploadToLlamaCloud env); reflexivity.
Qed.

(** Either the action stops before it stores anything, or it stores the
    object and goes on to the Topic record. *)
Lemma saveTopicDocument_outcomes (env : SaveTopicDocument.Server)
    (formData : SaveTopicDocument.FormData) (s : SaveTopicDocument.Site) :
  (exists error,
      SaveTopicDocument.saveTopicDocument env formData s
      = (Normal (SaveTopicDocument.failure error), s)) \/
  (exists file bytes uid,
      uploads env formData file bytes uid /\
      let key := SaveTopicDocument.fileKey env uid (File.name file) in
      SaveTopicDocument.saveTopicDocument env formData s
      = outcome_after_put env formData key
          (after_put s key (stored_object env formData file bytes key))).
Proof.
  destruct (acceptable formData && bucket_configured env) eqn:Eok;
    [| left; exact (saveTopicDocument_rejects env formData s Eok)].
  apply andb_true_iff in Eok as [Hacc Hcfg]. unfold acceptable in Hacc.
  destruct (SaveTopicDocument.file formData) as [file |] eqn:Hfile; [| discriminate Hacc].
  destruct (File.arrayBuffer file) as [bytes | e] eqn:Hbytes.
  2: { left. eexists.
       unfold SaveTopicDocument.saveTopicDocument, SaveTopicDocument.try_block, try_catch.
       rewrite Hfile. fold (upload_input formData file). rewrite (safeParse_valid _ Hacc).
       unfold bucket_configured in Hcfg. rewrite Hcfg. cbn [negb].
       unfold bind, await. rewrite Hbytes. reflexivity. }
  destruct (SaveTopicDocument.fetchAuthSession env) as [session | e] eqn:Hs.
  2: { left. eexists.
       unfold SaveTopicDocument.saveTopicDocument, SaveTopicDocument.try_block, try_catch.
       rewrite Hfile. fold (upload_input formData file). rewrite (safeParse_valid _ Hacc).
       unfold bucket_configured in Hcfg. rewrite Hcfg. cbn [negb].
       unfold SaveTopicDocument.upload_operation, bind, await. rewrite Hbytes, Hs.
       reflexivity. }
  destruct (Auth.credentials session) as [credentials |] eqn:Hc.
  2: { left. eexists.
       unfold SaveTopicDocument.saveTopicDocument, SaveTopicDocument.try_block, try_catch.
       rewrite Hfile. fold (upload_input formData file). rewrite (safeParse_valid _ Hacc).
       unfold bucket_configured in Hcfg. rewrite Hcfg. cbn [negb].
       unfold SaveTopicDocument.upload_operation, bind, await. rewrite Hbytes, Hs, Hc.
       reflexivity. }
  destruct (truthy_opt_string (SaveTopicDocument.userId session)) eqn:Hut.
  2: { left. eexists.
       unfold SaveTopicDocument.saveTopicDocument, SaveTopicDocument.try_block, try_catch.
       rewrite Hfile. fold (upload_input formData file). rewrite (safeParse_valid _ Hacc).
       unfold bucket_configured in Hcfg. rewrite Hcfg. cbn [negb].
       unfold SaveTopicDocument.upload_operation, bind, await. rewrite Hbytes, Hs, Hc, Hut.
       reflexivity. }
  destruct (SaveTopicDocument.userId session) as [uid |] eqn:Hu; [| discriminate Hut].
  cbn [truthy_opt_string] in Hut.
  destruct (SaveTopicDocument.s3_putObject_fault env
              (stored_object env formData file bytes
                 (SaveTopicDocument.fileKey env uid (File.name file)))) as [e |] eqn:Hput.
  { left. eexists.
    unfold SaveTopicDocument.saveTopicDocument, SaveTopicDocument.try_block, try_catch.
    rewrite Hfile. fold (upload_input formData file). rewrite (safeParse_valid _ Hacc).
    unfold bucket_configured in Hcfg. rewrite Hcfg. cbn [negb].
    unfold SaveTopicDocument.upload_operation, bind, await,
      SaveTopicDocument.s3Client_send_PutObjectCommand.
    rewrite Hbytes, Hs, Hc, Hu. cbn [truthy_opt_string string_of_opt]. rewrite Hut.
    cbn [negb FormSchema.title FormSchema.description upload_input].
    fold (stored_object env formData file bytes
            (SaveTopicDocument.fileKey env uid (File.name file))).
    rewrite Hput. reflexivity. }
  right. exists file, bytes, uid.
  assert (Hup : uploads env formData file bytes uid).
  { split; [exact Hfile |]. split; [exact Hacc |]. split; [exact Hcfg |].
    split; [exact Hbytes |]. split; [| exact Hput].
    exists session. rewrite Hc. repeat split; assumption. }
  split; [exact Hup |].
  exact (saveTopicDocument_summary env formData s file bytes uid Hup).
Qed.

(** The writes of the indexing handler leave what the creation stored. *)
Lemma handler_write_keeps_upload (formData : SaveTopicDocument.FormData)
    (key k : string) (cmd : UpdateCommand) (t t' : Table) :
  handler_write k cmd ->
  (exists item, t !! k = Some item /\ topic_of_upload formData key item) ->
  UpdateItem cmd t = Normal t' ->
  exists item, t' !! k = Some item /\ topic_of_upload formData key item.
Proof.
  intros Hw (item & Hk & H1 & H2 & H3) Hu. unfold topic_of_upload.
  destruct Hw as [tn ts | tn p f ts1 ts2 | tn ts | tn p ts].
  - rewrite UpdateItem_INDEXING in Hu. injection Hu as <-.
    eexists. split; [apply lookup_insert_eq |].
    unfold item_at. rewrite Hk. cbn [default]. lookups. repeat split; assumption.
  - rewrite UpdateItem_READY in Hu. injection Hu as <-.
    eexists. split; [apply lookup_insert_eq |].
    unfold item_at. rewrite Hk. cbn [default]. lookups. repeat split; assumption.
  - rewrite UpdateItem_FAILED in Hu. injection Hu as <-.
    eexists. split; [apply lookup_insert_eq |].
    unfold item_at. rewrite Hk. cbn [default]. lookups. repeat split; assumption.
  - rewrite UpdateItem_FAILED_pipeline in Hu. injection Hu as <-.
    eexists. split; [apply lookup_insert_eq |].
    unfold item_at. rewrite Hk. cbn [default]. lookups. repeat split; assumption.
Qed.

Lemma indexing_keeps_upload (formData : SaveTopicDocument.FormData) (key : string)
    (lambda : Env) (args : UploadToLlamaCloud.Arguments) (t : Table) :
  (exists item, t !! UploadToLlamaCloud.topicId args = Some item /\
                topic_of_upload formData key item) ->
  exists item,
    run_op (OpIndex lambda args) t !! UploadToLlamaCloud.topicId args = Some item /\
    topic_of_upload formData key item.
Proof.
  intros H. cbn [run_op].
  apply (upload_handler_keeps
           (fun t' => exists item, t' !! UploadToLlamaCloud.topicId args = Some item /\
                                   topic_of_upload formData key item) lambda args);
    [| exact H].
  intros cmd t0 t' Hw H0 Hu. exact (handler_write_keeps_upload _ _ _ _ _ _ Hw H0 Hu).
Qed.

Lemma indexing_frame (lambda : Env) (args : UploadToLlamaCloud.Arguments) (t : Table)
    (k : string) :
  k <> UploadToLlamaCloud.topicId args ->
  run_op (OpIndex lambda args) t !! k = t !! k.
Proof.
  intros Hk. cbn [run_op].
  apply (upload_handler_keeps (fun t' => t' !! k = t !! k) lambda args); [| reflexivity].
  intros cmd t0 t' Hcmd Ht Hu. rewrite <- Ht.
  apply (UpdateItem_frame _ _ _ _ Hu). rewrite (handler_write_Key _ _ Hcmd). exact Hk.
Qed.

(** X11. A form without a file, a form that the schema refuses, or a missing
    bucket configuration stops the action with a failure before any effect:
    no object is stored and no Topic is created. *)
Theorem rejected_upload_stores_nothing (env : SaveTopicDocument.Server)
    (formData : SaveTopicDocument.FormData) (s : SaveTopicDocument.Site) :
  acceptable formData && bucket_configured env = false ->
  exists error,
    SaveTopicDocument.saveTopicDocument env formData s
    = (Normal (VObject [("success", VBool false); ("error", VString error)]), s) /\
    (SaveTopicDocument.file formData = None -> error = "No file provided") /\
    (acceptable formData = true -> error = "Storage configuration error").
Proof.
  unfold acceptable, bucket_configured, SaveTopicDocument.saveTopicDocument,
    SaveTopicDocument.try_block, try_catch.
  destruct (SaveTopicDocument.file formData) as [file |].
  2: { intros _. eexists. split; [reflexivity |]. split; [reflexivity | discriminate]. }
  fold (upload_input formData file).
  destruct (valid_upload (upload_input formData file)) eqn:Ev.
  - rewrite (safeParse_valid _ Ev). cbn [andb]. intros ->. eexists.
    split; [reflexivity |]. split; [discriminate | reflexivity].
  - destruct (safeParse_invalid _ Ev) as [issues ->]. intros _. eexists.
    split; [reflexivity |]. split; discriminate.
Qed.

(** X12. When the object is stored, the resolver creates the record under a new
    id and answers no error, the action stores the file under its key,
    creates the Topic PENDING with that key and the trimmed title and
    description, and invokes the indexing handler with the new id, the key,
    the bucket and the trimmed title. The Topic table it leaves is the one
    that the indexing run leaves; the response names the new id and reports
    PENDING whatever the run did. A refused invocation changes neither; an
    invocation that throws turns the response into a failure and leaves the
    record PENDING. *)
Theorem upload_creates_then_indexes (env : SaveTopicDocument.Server)
    (formData : SaveTopicDocument.FormData) (s : SaveTopicDocument.Site)
    (file : File.File) (bytes : list Byte.byte) (uid new_id : string) (now : Z) :
  uploads env formData file bytes uid ->
  SaveTopicDocument.Topic_create env = Normal (Some (new_id, now), None) ->
  SaveTopicDocument.topics s !! new_id = None ->
  let key := SaveTopicDocument.fileKey env uid (File.name file) in
  let created :=
    run_op (OpCreate new_id now (trim (SaveTopicDocument.title formData))
              (trim (SaveTopicDocument.description formData)) key)
      (SaveTopicDocument.topics s) in
  let out := SaveTopicDocument.saveTopicDocument env formData s in
  SaveTopicDocument.objects (snd out)
  = <[key := stored_object env formData file bytes key]> (SaveTopicDocument.objects s) /\
  (exists item,
      created !! new_id = Some item /\
      item !! "topicStatus" = Some "PENDING" /\
      topic_of_upload formData key item) /\
  match SaveTopicDocument.uploadToLlamaCloud env with
  | SaveTopicDocument.Runs lambda =>
      fst out = Normal (upload_response formData new_id key) /\
      SaveTopicDocument.topics (snd out)
      = run_op (OpIndex lambda (indexing_arguments env formData new_id key)) created
  | SaveTopicDocument.Refuses _ =>
      fst out = Normal (upload_response formData new_id key) /\
      SaveTopicDocument.topics (snd out) = created
  | SaveTopicDocument.InvocationThrows e =>
      fst out = Normal (caught e) /\
      SaveTopicDocument.topics (snd out) = created
  end.
Proof.
  intros Hup Hcreate Hnew key created out. subst out.
  rewrite (saveTopicDocument_summary env formData s file bytes uid Hup).
  fold key. unfold outcome_after_put. rewrite Hcreate.
  cbn [after_put SaveTopicDocument.topics]. rewrite Hnew. cbv zeta. fold created.
  assert (Hitem : exists item,
             created !! new_id = Some item /\
             item !! "topicStatus" = Some "PENDING" /\
             topic_of_upload formData key item).
  { subst created. cbn [run_op].
    destruct (create_topic_fresh new_id now (trim (SaveTopicDocument.title formData))
                (trim (SaveTopicDocument.description formData)) key _ Hnew)
      as (item & -> & _ & Hst & Hk & Ht & Hd).
    exists item. cbn [snd]. rewrite lookup_insert_eq. repeat split; assumption. }
  destruct (SaveTopicDocument.uploadToLlamaCloud env);
    (split; [reflexivity |]); (split; [exact Hitem |]); split; reflexivity.
Qed.

Lemma create_error_failure (errors : option (list string)) :
  is_failure (SaveTopicDocument.failure (SaveTopicDocument.create_error errors)).
Proof. eexists. reflexivity. Qed.

Lemma caught_failure (e : thrown) : is_failure (caught e).
Proof. eexists. reflexivity. Qed.

(** X13. The action never throws, and a success response is backed by what it
    stored: the response is a failure, or it names a Topic id that was new
    and a key such that the table holds a record under that id with that
    key and the trimmed title and description, and the bucket holds under
    that key the bytes of the submitted file, a PDF of at most 10 MB. The
    status in the response is PENDING in every case. *)
Theorem upload_success_is_backed (env : SaveTopicDocument.Server)
    (formData : SaveTopicDocument.FormData) (s : SaveTopicDocument.Site) :
  let out := SaveTopicDocument.saveTopicDocument env formData s in
  exists v,
    fst out = Normal v /\
    (is_failure v \/
     exists new_id key item file object,
       v = upload_response formData new_id key /\
       get "status" (get "data" v) = VString "PENDING" /\
       SaveTopicDocument.topics s !! new_id = None /\
       SaveTopicDocument.topics (snd out) !! new_id = Some item /\
       topic_of_upload formData key item /\
       SaveTopicDocument.file formData = Some file /\
       SaveTopicDocument.objects (snd out) !! key = Some object /\
       File.arrayBuffer file = Normal (S3.Body object) /\
       S3.ContentType object = "application/pdf" /\
       (File.size file <= 10485760)%Z).
Proof.
  intros out. subst out.
  destruct (saveTopicDocument_outcomes env formData s)
    as [[error ->] | (file & bytes & uid & Hup & ->)].
  { eexists. split; [reflexivity |]. left. eexists. reflexivity. }
  cbv zeta. set (key := SaveTopicDocument.fileKey env uid (File.name file)).
  unfold outcome_after_put.
  destruct (SaveTopicDocument.Topic_create env) as [[[[new_id now] |] errors] | e].
  2: { eexists. split; [reflexivity |]. left. apply create_error_failure. }
  2: { eexists. split; [reflexivity |]. left. apply caught_failure. }
  cbn [after_put SaveTopicDocument.topics].
  destruct (SaveTopicDocument.topics s !! new_id) as [old |] eqn:Hnew.
  { eexists. split; [reflexivity |]. left. apply create_error_failure. }
  destruct errors as [errors |].
  { eexists. split; [reflexivity |]. left. apply create_error_failure. }
  cbv zeta.
  set (created := run_op (OpCreate new_id now (trim (SaveTopicDocument.title formData))
                            (trim (SaveTopicDocument.description formData)) key)
                    (SaveTopicDocument.topics s)).
  assert (Hitem : exists item,
             created !! new_id = Some item /\ topic_of_upload formData key item).
  { subst created. cbn [run_op].
    destruct (create_topic_fresh new_id now (trim (SaveTopicDocument.title formData))
                (trim (SaveTopicDocument.description formData)) key _ Hnew)
      as (item & -> & _ & _ & Hk & Ht & Hd).
    exists item. cbn [snd]. rewrite lookup_insert_eq. repeat split; assumption. }
  destruct Hup as (Hfile & Hv & _ & Hbytes & _ & _).
  assert (Hpdf : File.type file = "application/pdf" /\ (File.size file <= 10485760)%Z).
  { unfold valid_upload in Hv. cbn [upload_input FormSchema.fileSize FormSchema.fileType] in Hv.
    rewrite !andb_true_iff, Z.leb_le, String.eqb_eq in Hv. tauto. }
  destruct Hpdf as [Htype Hsize].
  destruct (SaveTopicDocument.uploadToLlamaCloud env) as [lambda | errors | e].
  - eexists. split; [reflexivity |]. right.
    destruct (indexing_keeps_upload formData key lambda
                (indexing_arguments env formData new_id key) created Hitem)
      as (item & Hl & Hi).
    exists new_id, key, item, file, (stored_object env formData file bytes key).
    cbn [fst snd with_topics after_put SaveTopicDocument.topics SaveTopicDocument.objects].
    split; [reflexivity |]. split; [reflexivity |]. split; [exact Hnew |].
    split; [exact Hl |]. split; [exact Hi |]. split; [exact Hfile |].
    split; [apply lookup_insert_eq |]. split; [exact Hbytes |].
    split; [exact Htype | exact Hsize].
  - eexists. split; [reflexivity |]. right.
    destruct Hitem as (item & Hl & Hi).
    exists new_id, key, item, file, (stored_object env formData file bytes key).
    cbn [fst snd with_topics after_put SaveTopicDocument.topics SaveTopicDocument.objects].
    split; [reflexivity |]. split; [reflexivity |]. split; [exact Hnew |].
    split; [exact Hl |]. split; [exact Hi |]. split; [exact Hfile |].
    split; [apply lookup_insert_eq |]. split; [exact Hbytes |].
    split; [exact Htype | exact Hsize].
  - eexists. split; [reflexivity |]. left. apply caught_failure.
Qed.

(** X14. Whatever happens, the action leaves every Topic record that existed
    before it as it was: it neither changes nor removes one. *)
Theorem upload_keeps_existing_topics (env : SaveTopicDocument.Server)
    (formData : SaveTopicDocument.FormData) (s : SaveTopicDocument.Site)
    (k : string) (item : Item) :
  SaveTopicDocument.topics s !! k = Some item ->
  SaveTopicDocument.topics (snd (SaveTopicDocument.saveTopicDocument env formData s)) !! k
  = Some item.
Proof.
  intros Hk.
  destruct (saveTopicDocument_outcomes env formData s)
    as [[error ->] | (file & bytes & uid & Hup & ->)]; [exact Hk |].
  cbv zeta. set (key := SaveTopicDocument.fileKey env uid (File.name file)).
  unfold outcome_after_put.
  destruct (SaveTopicDocument.Topic_create env) as [[[[new_id now] |] errors] | e];
    [| destruct errors; exact Hk | exact Hk].
  cbn [after_put SaveTopicDocument.topics].
  assert (Hc : run_op (OpCreate new_id now (trim (SaveTopicDocument.title formData))
                         (trim (SaveTopicDocument.description formData)) key)
                 (SaveTopicDocument.topics s) !! k = Some item).
  { cbn [run_op]. apply create_topic_frame, Hk. }
  destruct (SaveTopicDocument.topics s !! new_id) as [old |] eqn:Hnew; [exact Hc |].
  destruct errors as [errors |]; [exact Hc |].
  destruct (SaveTopicDocument.uploadToLlamaCloud env) as [lambda | errors | e];
    [| exact Hc | exact Hc].
  cbn [snd with_topics SaveTopicDocument.topics].
  rewrite indexing_frame; [exact Hc |].
  cbn [indexing_arguments UploadToLlamaCloud.topicId]. intros ->. congruence.
Qed.

(** X15. The Topic tables that the action produces are reachable tables: after
    the whole action every record has a status among PENDING, INDEXING,
    READY and FAILED, a READY record has both ids stored and a PENDING
    record has neither. When the table before was reached with a service
    that answered no empty id and the indexing run of this action gets none
    either, the same holds of the table after, and the two ids of every
    READY record are not empty. *)
Theorem upload_keeps_reachable (env : SaveTopicDocument.Server)
    (formData : SaveTopicDocument.FormData) (s : SaveTopicDocument.Site) :
  reachable (SaveTopicDocument.topics s) ->
  let topics' :=
    SaveTopicDocument.topics (snd (SaveTopicDocument.saveTopicDocument env formData s)) in
  reachable topics' /\
  table_inv topics' /\
  (reachable_with_ids (SaveTopicDocument.topics s) ->
   indexing_answers_ids env = true ->
   reachable_with_ids topics' /\
   forall k item, topics' !! k = Some item -> ids_present item).
Proof.
  intros Hr topics'.
  assert (H : reachable topics' /\
              (reachable_with_ids (SaveTopicDocument.topics s) ->
               indexing_answers_ids env = true -> reachable_with_ids topics')).
  { subst topics'. unfold indexing_answers_ids.
    destruct (saveTopicDocument_outcomes env formData s)
      as [[error ->] | (file & bytes & uid & Hup & ->)];
      [split; [exact Hr | intros Hi _; exact Hi] |].
    cbv zeta. unfold outcome_after_put.
    destruct (SaveTopicDocument.Topic_create env) as [[[[new_id now] |] errors] | e];
      [| destruct errors; (split; [exact Hr | intros Hi _; exact Hi])
       | split; [exact Hr | intros Hi _; exact Hi]].
    cbn [after_put SaveTopicDocument.topics].
    destruct (SaveTopicDocument.topics s !! new_id) as [old |];
      [split; [apply reach_op, Hr | intros Hi _; apply ids_op; [exact Hi | reflexivity]] |].
    destruct errors as [errors |];
      [split; [apply reach_op, Hr | intros Hi _; apply ids_op; [exact Hi | reflexivity]] |].
    destruct (SaveTopicDocument.uploadToLlamaCloud env) as [lambda | errors | e];
      cbn [snd with_topics SaveTopicDocument.topics];
      (split; [repeat apply reach_op; exact Hr |]); intros Hi Hids.
    - apply (ids_op (OpIndex lambda _)); [| exact Hids].
      apply ids_op; [exact Hi | reflexivity].
    - apply ids_op; [exact Hi | reflexivity].
    - apply ids_op; [exact Hi | reflexivity]. }
  destruct H as [H Hids].
  split; [exact H |]. split; [exact (reachable_inv _ H) |].
  intros Hi He. split; [exact (Hids Hi He) |].
  exact (reachable_with_ids_present _ (Hids Hi He)).
Qed.

(** X16. When the object is stored but the request to create the Topic does not
    reach the resolver (it throws, or it is answered without data), the
    action answers a failure and leaves the object in the bucket with no
    Topic record for it: the table is the one before the action. *)
Theorem failed_create_leaves_object (env : SaveTopicDocument.Server)
    (formData : SaveTopicDocument.FormData) (s : SaveTopicDocument.Site)
    (file : File.File) (bytes : list Byte.byte) (uid : string) :
  uploads env formData file bytes uid ->
  creates env = false ->
  let key := SaveTopicDocument.fileKey env uid (File.name file) in
  let out := SaveTopicDocument.saveTopicDocument env formData s in
  (exists v, fst out = Normal v /\ is_failure v) /\
  SaveTopicDocument.topics (snd out) = SaveTopicDocument.topics s /\
  SaveTopicDocument.objects (snd out) !! key
  = Some (stored_object env formData file bytes key).
Proof.
  intros Hup Hc key out. subst out.
  rewrite (saveTopicDocument_summary env formData s file bytes uid Hup).
  fold key. unfold outcome_after_put. unfold creates in Hc.
  destruct (SaveTopicDocument.Topic_create env) as [[[[new_id now] |] errors] | e];
    [discriminate Hc | |];
    cbn [fst snd after_put SaveTopicDocument.topics SaveTopicDocument.objects].
  - split; [eexists; split; [reflexivity | apply create_error_failure] |].
    split; [reflexivity | apply lookup_insert_eq].
  - split; [eexists; split; [reflexivity | apply caught_failure] |].
    split; [reflexivity | apply lookup_insert_eq].
Qed.

Lemma outcome_after_put_objects (env : SaveTopicDocument.Server)
    (formData : SaveTopicDocument.FormData) (key : string) (s1 : SaveTopicDocument.Site) :
  SaveTopicDocument.objects (snd (outcome_after_put env formData key s1))
  = SaveTopicDocument.objects s1.
Proof.
  unfold outcome_after_put.
  destruct (SaveTopicDocument.Topic_create env) as [[[[new_id now] |] errors] | e];
    [| destruct errors; reflexivity | reflexivity].
  destruct (SaveTopicDocument.topics s1 !! new_id); [reflexivity |].
  destruct errors; [reflexivity |].
  destruct (SaveTopicDocument.uploadToLlamaCloud env); reflexivity.
Qed.

(** X17. The action stores at most one object, and only for an accepted form: the
    bucket is left as it was, or it gains under the key
    send-connect-raw-docs/<user id>/<timestamp>-<sanitised name> the bytes of
    the submitted file with the content type application/pdf and the trimmed
    title and description as metadata. The user id is the identity id of the
    session or, when that is missing or empty, the sub claim of its access
    token. *)
Theorem upload_stores_one_validated_object (env : SaveTopicDocument.Server)
    (formData : SaveTopicDocument.FormData) (s : SaveTopicDocument.Site) :
  let out := SaveTopicDocument.saveTopicDocument env formData s in
  SaveTopicDocument.objects (snd out) = SaveTopicDocument.objects s \/
  exists file bytes uid,
    uploads env formData file bytes uid /\
    acceptable formData = true /\
    let key :=
      "send-connect-raw-docs/" +:+ uid +:+ "/" +:+
      SaveTopicDocument.Number_toString env (number_of_Z (SaveTopicDocument.Date_now env))
      +:+ "-" +:+ sanitizedFileName (File.name file) in
    SaveTopicDocument.objects (snd out)
    = <[key := {| S3.Bucket := SaveTopicDocument.storage_bucket_name env;
                  S3.Key := key;
                  S3.Body := bytes;
                  S3.ContentType := "application/pdf";
                  S3.Metadata :=
                    [("title", trim (SaveTopicDocument.title formData));
                     ("description", trim (SaveTopicDocument.description formData));
                     ("originalFileName", File.name file)] |}]>
        (SaveTopicDocument.objects s).
Proof.
  intros out. subst out.
  destruct (saveTopicDocument_outcomes env formData s)
    as [[error ->] | (file & bytes & uid & Hup & ->)]; [left; reflexivity |].
  right. exists file, bytes, uid. split; [exact Hup |].
  destruct Hup as (Hfile & Hv & _).
  split; [unfold acceptable; rewrite Hfile; exact Hv |].
  cbv zeta. rewrite outcome_after_put_objects.
  cbn [after_put SaveTopicDocument.objects].
  unfold stored_object, SaveTopicDocument.fileKey.
  assert (Htype : File.type file = "application/pdf").
  { unfold valid_upload in Hv. cbn [upload_input FormSchema.fileType] in Hv.
    rewrite !andb_true_iff, String.eqb_eq in Hv. tauto. }
  rewrite Htype. reflexivity.
Qed.

(** X18. The key that the action gives the object and the file name that the
    indexing handler derives from a key fit together: the name sent to the
    indexing service ends in a hyphen and the sanitised file name, is never
    the fallback document.pdf for want of a name, and is
    <timestamp>-<sanitised name> when the timestamp prints without a slash,
    whatever the user id. *)
Theorem key_gives_indexed_file_name (env : SaveTopicDocument.Server) (uid name : string) :
  let timestamp :=
    SaveTopicDocument.Number_toString env (number_of_Z (SaveTopicDocument.Date_now env)) in
  exists stem,
    fileName (SaveTopicDocument.fileKey env uid name)
    = stem +:+ "-" +:+ sanitizedFileName name /\
    (all_chars (fun c => negb (is_slash c)) timestamp = true -> stem = timestamp).
Proof.
  intros timestamp.
  assert (Hsafe : all_chars (fun c => negb (is_slash c)) ("-" +:+ sanitizedFileName name)
                  = true).
  { rewrite all_chars_app, sanitizedFileName_no_slash. reflexivity. }
  exists (last_segment "" ("send-connect-raw-docs/" +:+ uid +:+ "/" +:+ timestamp)).
  split.
  - unfold fileName, SaveTopicDocument.fileKey. cbv zeta. fold timestamp.
    replace ("send-connect-raw-docs/" +:+ uid +:+ "/" +:+ timestamp +:+ "-" +:+
             sanitizedFileName name)
      with (("send-connect-raw-docs/" +:+ uid +:+ "/" +:+ timestamp) +:+
            ("-" +:+ sanitizedFileName name))
      by (rewrite !append_assoc; reflexivity).
    rewrite (last_segment_app _ _ _ Hsafe).
    destruct (last_segment "" _); reflexivity.
  - intros Hts.
    replace ("send-connect-raw-docs/" +:+ uid +:+ "/" +:+ timestamp)
      with ((("send-connect-raw-docs/" +:+ uid) +:+ "/") +:+ timestamp)
      by (rewrite !append_assoc; reflexivity).
    rewrite (last_segment_app _ _ _ Hts), last_segment_slash. reflexivity.
Qed.

(** ** The upload on the scenarios *)

Example upload_key :
  SaveTopicDocument.fileKey
    (UploadScenario.server UploadScenario.creating
       (SaveTopicDocument.Runs Scenario.all_fine))
    "eu-west-2:identity-1" "JCQ AA 2025 (final).pdf"
  = UploadScenario.key.
Proof. vm_compute. reflexivity. Qed.

Lemma scenario_uploads create invoke :
  uploads (UploadScenario.server create invoke)
    (UploadScenario.form UploadScenario.jcq_pdf) UploadScenario.jcq_pdf
    [Byte.x25; Byte.x50; Byte.x44; Byte.x46] "eu-west-2:identity-1".
Proof.
  split; [reflexivity |]. split; [vm_compute; reflexivity |].
  split; [reflexivity |]. split; [reflexivity |]. split; [| reflexivity].
  exists UploadScenario.admin. repeat split; reflexivity.
Qed.

(** A PNG is refused: nothing is stored. *)
Lemma rejected_upload_stores_nothing_witness :
  acceptable (UploadScenario.form UploadScenario.photo)
  && bucket_configured
       (UploadScenario.server UploadScenario.creating
          (SaveTopicDocument.Runs Scenario.all_fine)) = false /\
  exists error,
    SaveTopicDocument.saveTopicDocument
      (UploadScenario.server UploadScenario.creating
         (SaveTopicDocument.Runs Scenario.all_fine))
      (UploadScenario.form UploadScenario.photo) UploadScenario.site
    = (Normal (VObject [("success", VBool false); ("error", VString error)]),
       UploadScenario.site) /\
    (SaveTopicDocument.file (UploadScenario.form UploadScenario.photo) = None ->
     error = "No file provided") /\
    (acceptable (UploadScenario.form UploadScenario.photo) = true ->
     error = "Storage configuration error").
Proof.
  split; [vm_compute; reflexivity |].
  exact (rejected_upload_stores_nothing
           (UploadScenario.server UploadScenario.creating
              (SaveTopicDocument.Runs Scenario.all_fine))
           (UploadScenario.form UploadScenario.photo) UploadScenario.site eq_refl).
Defined.

Example rejected_upload_message :
  fst (SaveTopicDocument.saveTopicDocument
         (UploadScenario.server UploadScenario.creating
            (SaveTopicDocument.Runs Scenario.all_fine))
         (UploadScenario.form UploadScenario.photo) UploadScenario.site)
  = Normal (VObject [("success", VBool false);
                     ("error", VString "Only PDF files are allowed")]).
Proof. vm_compute. reflexivity. Qed.

(** The upload of a PDF whose indexing succeeds at once: the response says
    PENDING while the record is READY already. *)
Lemma upload_creates_then_indexes_witness :
  uploads
    (UploadScenario.server UploadScenario.creating (SaveTopicDocument.Runs Scenario.all_fine))
    (UploadScenario.form UploadScenario.jcq_pdf) UploadScenario.jcq_pdf
    [Byte.x25; Byte.x50; Byte.x44; Byte.x46] "eu-west-2:identity-1" /\
  SaveTopicDocument.topics UploadScenario.site !! "topic-2" = None /\
  fst (SaveTopicDocument.saveTopicDocument
         (UploadScenario.server UploadScenario.creating
            (SaveTopicDocument.Runs Scenario.all_fine))
         (UploadScenario.form UploadScenario.jcq_pdf) UploadScenario.site)
  = Normal (VObject
      [("success", VBool true);
       ("data", VObject
          [("topicId", VString "topic-2");
           ("s3Key", VString UploadScenario.key);
           ("title", VString "JCQ Access Arrangements");
           ("description", VString "Guidance");
           ("status", VString "PENDING");
           ("message",
            VString "Topic created successfully. Processing will begin shortly.")])]) /\
  UploadScenario.status_of
    (snd (SaveTopicDocument.saveTopicDocument
            (UploadScenario.server UploadScenario.creating
               (SaveTopicDocument.Runs Scenario.all_fine))
            (UploadScenario.form UploadScenario.jcq_pdf) UploadScenario.site))
    "topic-2" = Some "READY".
Proof.
  assert (Hnew : SaveTopicDocument.topics UploadScenario.site !! "topic-2" = None).
  { vm_compute. reflexivity. }
  split; [apply scenario_uploads |]. split; [exact Hnew |].
  destruct (upload_creates_then_indexes
              (UploadScenario.server UploadScenario.creating
                 (SaveTopicDocument.Runs Scenario.all_fine))
              (UploadScenario.form UploadScenario.jcq_pdf) UploadScenario.site
              UploadScenario.jcq_pdf [Byte.x25; Byte.x50; Byte.x44; Byte.x46]
              "eu-west-2:identity-1" "topic-2" 1762000000500%Z
              (scenario_uploads _ _) eq_refl Hnew) as (_ & _ & Hres & Htop).
  split.
  - etransitivity; [exact Hres |]. vm_compute. reflexivity.
  - unfold UploadScenario.status_of. rewrite Htop. vm_compute. reflexivity.
Defined.

(** The READY topic-1 through the upload of another document. *)
Lemma upload_keeps_existing_topics_witness :
  SaveTopicDocument.topics UploadScenario.site !! "topic-1"
  = Some (Scenario.record Scenario.indexed "topic-1") /\
  SaveTopicDocument.topics
    (snd (SaveTopicDocument.saveTopicDocument
            (UploadScenario.server UploadScenario.creating
               (SaveTopicDocument.Runs Scenario.s3_down))
            (UploadScenario.form UploadScenario.jcq_pdf) UploadScenario.site))
  !! "topic-1"
  = Some (Scenario.record Scenario.indexed "topic-1").
Proof.
  assert (H : SaveTopicDocument.topics UploadScenario.site !! "topic-1"
              = Some (Scenario.record Scenario.indexed "topic-1")).
  { apply record_lookup. vm_compute. reflexivity. }
  split; [exact H |].
  exact (upload_keeps_existing_topics _ _ _ _ _ H).
Defined.

(** The upload of the scenario whose indexing succeeds at once, on the table
    with the indexed topic-1: both READY records have ids that are not
    empty. *)
Lemma upload_keeps_reachable_witness :
  reachable (SaveTopicDocument.topics UploadScenario.site) /\
  reachable_with_ids (SaveTopicDocument.topics UploadScenario.site) /\
  indexing_answers_ids
    (UploadScenario.server UploadScenario.creating
       (SaveTopicDocument.Runs Scenario.all_fine)) = true /\
  reachable_with_ids
    (SaveTopicDocument.topics
       (snd (SaveTopicDocument.saveTopicDocument
               (UploadScenario.server UploadScenario.creating
                  (SaveTopicDocument.Runs Scenario.all_fine))
               (UploadScenario.form UploadScenario.jcq_pdf) UploadScenario.site))) /\
  table_inv
    (SaveTopicDocument.topics
       (snd (SaveTopicDocument.saveTopicDocument
               (UploadScenario.server UploadScenario.creating
                  (SaveTopicDocument.Runs Scenario.all_fine))
               (UploadScenario.form UploadScenario.jcq_pdf) UploadScenario.site))).
Proof.
  assert (Hr : reachable (SaveTopicDocument.topics UploadScenario.site)).
  { unfold UploadScenario.site, SaveTopicDocument.topics, Scenario.indexed, Scenario.created.
    apply reach_op, reach_op, reach_empty. }
  assert (Hi : reachable_with_ids (SaveTopicDocument.topics UploadScenario.site)).
  { unfold UploadScenario.site, SaveTopicDocument.topics, Scenario.indexed, Scenario.created.
    apply ids_op; [apply ids_op; [apply ids_empty | reflexivity] | reflexivity]. }
  split; [exact Hr |]. split; [exact Hi |]. split; [reflexivity |].
  destruct (upload_keeps_reachable
              (UploadScenario.server UploadScenario.creating
                 (SaveTopicDocument.Runs Scenario.all_fine))
              (UploadScenario.form UploadScenario.jcq_pdf) UploadScenario.site Hr)
    as (_ & Hinv & Hids).
  split; [exact (proj1 (Hids Hi eq_refl)) | exact Hinv].
Defined.

(** A user who may not create Topics: the PDF stays in the bucket. *)
Lemma failed_create_leaves_object_witness :
  uploads
    (UploadScenario.server UploadScenario.unauthorized
       (SaveTopicDocument.Runs Scenario.all_fine))
    (UploadScenario.form UploadScenario.jcq_pdf) UploadScenario.jcq_pdf
    [Byte.x25; Byte.x50; Byte.x44; Byte.x46] "eu-west-2:identity-1" /\
  creates (UploadScenario.server UploadScenario.unauthorized
             (SaveTopicDocument.Runs Scenario.all_fine)) = false /\
  SaveTopicDocument.topics
    (snd (SaveTopicDocument.saveTopicDocument
            (UploadScenario.server UploadScenario.unauthorized
               (SaveTopicDocument.Runs Scenario.all_fine))
            (UploadScenario.form UploadScenario.jcq_pdf) UploadScenario.site))
  = SaveTopicDocument.topics UploadScenario.site /\
  is_some
    (SaveTopicDocument.objects
       (snd (SaveTopicDocument.saveTopicDocument
               (UploadScenario.server UploadScenario.unauthorized
                  (SaveTopicDocument.Runs Scenario.all_fine))
               (UploadScenario.form UploadScenario.jcq_pdf) UploadScenario.site))
     !! UploadScenario.key) = true.
Proof.
  split; [apply scenario_uploads |]. split; [reflexivity |].
  destruct (failed_create_leaves_object
              (UploadScenario.server UploadScenario.unauthorized
                 (SaveTopicDocument.Runs Scenario.all_fine))
              (UploadScenario.form UploadScenario.jcq_pdf) UploadScenario.site
              UploadScenario.jcq_pdf [Byte.x25; Byte.x50; Byte.x44; Byte.x46]
              "eu-west-2:identity-1" (scenario_uploads _ _) eq_refl)
    as (_ & Htop & Hobj).
  split; [exact Htop |].
  rewrite <- upload_key.
  etransitivity; [apply (f_equal is_some); exact Hobj |]. reflexivity.
Defined.

(** ** From the upload to the first query *)

(** A successful indexing run leaves the record READY with the ids of the
    service and every attribute that it does not write as it was. *)
Lemma successful_run_record (env : Env) (args : UploadToLlamaCloud.Arguments) (w : World)
    (pipeline file : IdBody) :
  upload_configured env -> writes_succeed env -> indexing_succeeds env pipeline file ->
  exists item,
    table (snd (UploadToLlamaCloud.handler env args w)) !! UploadToLlamaCloud.topicId args
    = Some item /\
    item !! "topicStatus" = Some "READY" /\
    item !! "llamaCloudPipelineId" = Some (id pipeline) /\
    item !! "llamaCloudFileId" = Some (id file) /\
    item !! "title"
    = item_at (UploadToLlamaCloud.topicId args) (table w) !! "title".
Proof.
  intros (Htn & Htn' & Hk1 & Hk2) Hw
    (bytes & r1 & r2 & r3 & Hs3 & Hcr & Hok1 & Hj1 & Hup & Hok2 & Hj2 & Hat & Hok3).
  unfold UploadToLlamaCloud.handler. rewrite Htn. cbn [truthy_opt_string].
  rewrite Htn', Hk1, Hk2. cbn [negb orb default Datatypes.id].
  unfold with_local, try_catch, UploadToLlamaCloud.try_block.
  unfold bind, lift, when, await, throw, ret, fetch, new_Date, assign_local,
    s3Client_send_GetObjectCommand, docClient_send_UpdateCommand.
  cbn [fst snd TableName]. rewrite !Hw, String.eqb_refl.
  cbn [negb fst snd table record_call tick ticks calls]. rewrite UpdateItem_INDEXING.
  rewrite Hs3. cbn [fst snd table Body]. rewrite Hcr, Hok1, Hj1.
  cbn [negb fst snd table record_call]. rewrite Hup, Hok2, Hj2.
  cbn [negb fst snd table record_call]. rewrite Hat, Hok3.
  cbn [negb fst snd table record_call]. rewrite Hw.
  cbn [negb ticks calls table record_call tick]. rewrite UpdateItem_READY.
  cbn [fst snd table calls]. rewrite item_at_insert.
  eexists. split; [apply lookup_insert_eq |]. lookups.
  repeat split; reflexivity.
Qed.

(** X27. From the upload to the first query. When saveTopicDocument stores
    an accepted PDF, the resolver creates the Topic under a new id, and the
    indexing run that the action starts is configured and succeeds in all
    its steps with a non-empty pipeline id, the action leaves the Topic
    READY with the pipeline id of the service and the trimmed title. A
    configured query of that Topic, with the store read succeeding, is then
    not refused: its first two calls are the read of the Topic and the
    retrieval request to the retrieve endpoint of exactly that pipeline
    id. *)
Theorem uploaded_topic_is_queryable (env : SaveTopicDocument.Server)
    (formData : SaveTopicDocument.FormData) (s : SaveTopicDocument.Site)
    (file : File.File) (bytes : list Byte.byte) (uid new_id : string) (now : Z)
    (lambda : Env) (pipeline indexed : IdBody) (asking : Env) (question : string) :
  uploads env formData file bytes uid ->
  SaveTopicDocument.Topic_create env = Normal (Some (new_id, now), None) ->
  SaveTopicDocument.topics s !! new_id = None ->
  SaveTopicDocument.uploadToLlamaCloud env = SaveTopicDocument.Runs lambda ->
  upload_configured lambda -> writes_succeed lambda ->
  indexing_succeeds lambda pipeline indexed ->
  truthy_string (id pipeline) = true ->
  query_configured asking -> ddb_get_fault asking = None ->
  let topics' :=
    SaveTopicDocument.topics (snd (SaveTopicDocument.saveTopicDocument env formData s)) in
  (exists item,
      topics' !! new_id = Some item /\
      item !! "topicStatus" = Some "READY" /\
      item !! "llamaCloudPipelineId" = Some (id pipeline) /\
      item !! "title" = Some (trim (SaveTopicDocument.title formData))) /\
  exists rest,
    calls (snd (QueryTopic.handler asking
                  {| QueryTopic.topicId := new_id; QueryTopic.query := question |}
                  (start_of topics')))
    = (CallGet (topic_table_name asking) new_id
       :: CallFetch
            (retrieval_request
               (default "" (process_env asking !! "LLAMA_CLOUD_API_KEY"))
               (id pipeline) question)
       :: rest).
Proof.
  intros Hup Hcreate Hnew Hruns Hcfg Hw Hsteps Hpid Hq Hget topics'.
  assert (Hitem : exists item,
             topics' !! new_id = Some item /\
             item !! "topicStatus" = Some "READY" /\
             item !! "llamaCloudPipelineId" = Some (id pipeline) /\
             item !! "title" = Some (trim (SaveTopicDocument.title formData))).
  { subst topics'.
    rewrite (saveTopicDocument_summary env formData s file bytes uid Hup).
    unfold outcome_after_put. rewrite Hcreate.
    cbn [after_put SaveTopicDocument.topics]. rewrite Hnew, Hruns. cbv zeta.
    cbn [snd with_topics SaveTopicDocument.topics run_op].
    set (key := SaveTopicDocument.fileKey env uid (File.name file)).
    destruct (create_topic_fresh new_id now (trim (SaveTopicDocument.title formData))
                (trim (SaveTopicDocument.description formData)) key _ Hnew)
      as (item0 & -> & _ & _ & _ & Ht & _).
    cbn [snd].
    destruct (successful_run_record lambda (indexing_arguments env formData new_id key)
                (start_of (<[new_id := item0]> (SaveTopicDocument.topics s)))
                pipeline indexed Hcfg Hw Hsteps) as (item & Hl & Hst & Hp & _ & Htitle).
    cbn [indexing_arguments UploadToLlamaCloud.topicId start_of table] in Hl, Htitle.
    exists item. split; [exact Hl |]. split; [exact Hst |]. split; [exact Hp |].
    rewrite Htitle, item_at_insert. exact Ht. }
  split; [exact Hitem |].
  destruct Hitem as (item & Hl & Hst & Hp & _).
  rewrite (query_handler_lookup _ _ _ Hq Hget).
  unfold try_catch, QueryTopic.try_block, bind, docClient_send_GetCommand, fetch, when,
    await, throw, ret.
  rewrite Hget, String.eqb_refl. cbn [negb table record_call start_of QueryTopic.topicId].
  rewrite Hl, (proj2 (is_READY_true _) Hst), Hp. cbn [truthy_opt_string string_of_opt].
  rewrite Hpid. cbn [negb QueryTopic.query calls app].
  fold (retrieval_request (default "" (process_env asking !! "LLAMA_CLOUD_API_KEY"))
          (id pipeline) question).
  destruct (llama_retrieve asking) as [r | e]; [| eexists; reflexivity].
  destruct (ok r); cbn [negb]; [| destruct (body_text r); eexists; reflexivity].
  destruct (body_json r) as [data |]; [| eexists; reflexivity].
  destruct (List.length (default [] (retrieval_nodes data)) =? 0)%nat;
    [eexists; reflexivity |].
  destruct (mapi_from_c 0 (QueryTopic.context_entry asking) _); [| eexists; reflexivity].
  unfold anthropic_messages_create.
  destruct (anthropic_create asking) as [message |]; [| eexists; reflexivity].
  destruct (QueryTopic.first_text message); [| eexists; reflexivity].
  destruct (mapi_from_c 0 QueryTopic.citation _); eexists; reflexivity.
Qed.

(** The PDF of the scenario, uploaded, indexed at once and then asked about:
    the retrieval goes to pipe-1. *)
Lemma uploaded_topic_is_queryable_witness :
  uploads
    (UploadScenario.server UploadScenario.creating (SaveTopicDocument.Runs Scenario.all_fine))
    (UploadScenario.form UploadScenario.jcq_pdf) UploadScenario.jcq_pdf
    [Byte.x25; Byte.x50; Byte.x44; Byte.x46] "eu-west-2:identity-1" /\
  indexing_succeeds Scenario.all_fine {| id := "pipe-1" |} {| id := "file-1" |} /\
  exists rest,
    calls (snd (QueryTopic.handler Scenario.all_fine
                  {| QueryTopic.topicId := "topic-2";
                     QueryTopic.query := "Who may have extra time?" |}
                  (start_of
                     (SaveTopicDocument.topics
                        (snd (SaveTopicDocument.saveTopicDocument
                                (UploadScenario.server UploadScenario.creating
                                   (SaveTopicDocument.Runs Scenario.all_fine))
                                (UploadScenario.form UploadScenario.jcq_pdf)
                                UploadScenario.site))))))
    = (CallGet "Topic-abc123-NONE" "topic-2"
       :: CallFetch (retrieval_request "llx-key" "pipe-1" "Who may have extra time?")
       :: rest).
Proof.
  assert (Hsteps : indexing_succeeds Scenario.all_fine {| id := "pipe-1" |}
                     {| id := "file-1" |}).
  { do 4 eexists. repeat split; reflexivity. }
  assert (Hnew : SaveTopicDocument.topics UploadScenario.site !! "topic-2" = None).
  { vm_compute. reflexivity. }
  split; [apply scenario_uploads |]. split; [exact Hsteps |].
  exact (proj2 (uploaded_topic_is_queryable
                  (UploadScenario.server UploadScenario.creating
                     (SaveTopicDocument.Runs Scenario.all_fine))
                  (UploadScenario.form UploadScenario.jcq_pdf) UploadScenario.site
                  UploadScenario.jcq_pdf [Byte.x25; Byte.x50; Byte.x44; Byte.x46]
                  "eu-west-2:identity-1" "topic-2" 1762000000500%Z Scenario.all_fine
                  {| id := "pipe-1" |} {| id := "file-1" |} Scenario.all_fine
                  "Who may have extra time?"
                  (scenario_uploads _ _) eq_refl Hnew eq_refl
                  (scenario_upload_configured _ _ _ _ _ _)
                  (scenario_writes_succeed _ _ _ _ _ _) Hsteps eq_refl
                  (scenario_query_configured _ _ _ _ _ _) eq_refl)).
Defined.

(** ** The diagnostic handler *)

Lemma log_node_loggable (node : value) (index : nat) :
  match TestQueryLlamaCloud.log_node node index with
  | Normal _ => loggable node = true
  | Throw _ => loggable node = false
  end.
Proof.
  unfold TestQueryLlamaCloud.log_node, loggable, member.
  destruct node; try reflexivity; cbn [get]; try reflexivity.
  destruct (assoc "text" props); reflexivity.
Qed.

Lemma forEach_log_node (nodes : list value) (i : nat) :
  match forEach TestQueryLlamaCloud.log_node i nodes with
  | Normal _ => forallb loggable nodes = true
  | Throw _ => forallb loggable nodes = false
  end.
Proof.
  revert i. induction nodes as [| node nodes IH]; intros i; [reflexivity |].
  cbn [forEach forallb]. pose proof (log_node_loggable node i) as H.
  destruct (TestQueryLlamaCloud.log_node node i); rewrite H; [apply IH | reflexivity].
Qed.

Lemma json_of_item_loggable (item : RetrievalResult) : loggable (json_of_item item) = true.
Proof.
  destruct item as [n s | [i t e] s]; [destruct s; reflexivity |].
  destruct t, e, s; reflexivity.
Qed.

(** The [try] block makes its one call and completes normally exactly on
    an answer that is accepted, parsed and inspectable. *)
Lemma test_query_try_block (env : Env) (retrieve : completion (Response value))
    (args : TestQueryLlamaCloud.Arguments) (apiKey : string) (w : World) :
  exists c,
    TestQueryLlamaCloud.try_block env retrieve args apiKey w
    = (c, record_call (CallFetch (test_query_request apiKey args)) w) /\
    match c with
    | Normal v =>
        exists r result,
          retrieve = Normal r /\ ok r = true /\ body_json r = Normal result /\
          inspectable result = true /\ v = test_query_response args result
    | Throw _ =>
        forall r result,
          retrieve = Normal r -> ok r = true -> body_json r = Normal result ->
          inspectable result = false
    end.
Proof.
  unfold TestQueryLlamaCloud.try_block, bind, fetch, when, await, throw, ret.
  fold (test_query_request apiKey args).
  destruct retrieve as [r | e]; [| eexists; split; [reflexivity | discriminate]].
  destruct (ok r) eqn:Hok; cbn [negb].
  2: { destruct (body_text r); eexists; (split; [reflexivity |]);
       intros r' result [= <-]; congruence. }
  destruct (body_json r) as [result | e] eqn:Hj;
    [| eexists; split; [reflexivity | intros r' result [= <-]; congruence]].
  assert (Hgoal : forall c : completion value,
             match c with
             | Normal v => inspectable result = true /\ v = test_query_response args result
             | Throw _ => inspectable result = false
             end ->
             match c with
             | Normal v =>
                 exists r0 result0,
                   Normal r = Normal r0 /\ ok r0 = true /\ body_json r0 = Normal result0 /\
                   inspectable result0 = true /\ v = test_query_response args result0
             | Throw _ =>
                 forall r0 result0,
                   Normal r = Normal r0 -> ok r0 = true -> body_json r0 = Normal result0 ->
                   inspectable result0 = false
             end).
  { intros [v | e] H.
    - destruct H as [H1 H2]. exists r, result. repeat split; assumption.
    - intros r0 result0 [= <-] _ Hj0. rewrite Hj in Hj0. injection Hj0 as <-. exact H. }
  assert (Hobj : forall props,
             inspectable (VObject props)
             = negb (truthy (assoc "retrieval_nodes" props))
               || match assoc "retrieval_nodes" props with
                  | VArray nodes => forallb loggable nodes
                  | _ => false
                  end) by reflexivity.
  destruct result as [| | b | n | s | elems | props];
    try (eexists; split; [reflexivity | apply Hgoal; reflexivity]);
    cbn [member get truthy negb orb length_of first_of];
    try (eexists; split; [reflexivity | apply Hgoal; split; reflexivity]).
  rewrite Hobj in Hgoal. unfold test_query_response in Hgoal. cbn [get] in Hgoal.
  destruct (assoc "retrieval_nodes" props) as [| | b | n | s | nodes | props'];
    cbn [truthy negb orb length_of first_of] in *;
    try (eexists; split; [reflexivity | apply Hgoal; split; reflexivity]).
  - destruct b; cbn [negb orb] in *;
      eexists; (split; [reflexivity | apply Hgoal]); [reflexivity | split; reflexivity].
  - destruct (truthy_number n); cbn [negb orb] in *;
      eexists; (split; [reflexivity | apply Hgoal]); [reflexivity | split; reflexivity].
  - destruct s as [| c s]; cbn [truthy_string negb orb] in *;
      eexists; (split; [reflexivity | apply Hgoal]); [split; reflexivity | reflexivity].
  - pose proof (forEach_log_node nodes 0) as Hf.
    destruct (forEach TestQueryLlamaCloud.log_node 0 nodes);
      eexists; (split; [reflexivity | apply Hgoal]); rewrite Hf; [| reflexivity].
    split; [reflexivity |]. unfold or_zero.
    destruct (truthy_number (number_of_nat (List.length nodes)));
      destruct nodes as [| node nodes]; reflexivity.
Qed.

(** X20. The diagnostic handler on an answer with a success status and a JSON
    body, when its two variables are set. It succeeds exactly when the body
    is not null and its retrieval_nodes are falsy or an array whose elements
    are neither null nor carry a text that is not a string; elements of the
    declared shape { node, score } and elements with the node's fields side
    by side both pass. The success response reports whether there are
    nodes, their number, the first node (null when there is none) and the
    whole body. Otherwise the response is a failure. *)
Theorem diagnostic_handler_inspects (env : Env) (retrieve : completion (Response value))
    (args : TestQueryLlamaCloud.Arguments) (w : World) (r : Response value)
    (result : value) :
  test_query_configured env ->
  retrieve = Normal r -> ok r = true -> body_json r = Normal result ->
  let out := TestQueryLlamaCloud.handler env retrieve args w in
  (if inspectable result
   then fst out = Normal (test_query_response args result)
   else exists v, fst out = Normal v /\ is_failure v) /\
  (forall items, inspectable (json_of_retrieval items) = true).
Proof.
  intros [Hk Ho] Hr Hok Hj out. subst out. split.
  - unfold TestQueryLlamaCloud.handler. cbv zeta. rewrite Hk, Ho. cbn [negb orb].
    unfold try_catch.
    destruct (test_query_try_block env retrieve args
                (default "" (process_env env !! "LLAMA_CLOUD_API_KEY")) w)
      as ([v | e] & -> & H).
    + destruct H as (r' & result' & Hr' & _ & Hj' & Hi & ->).
      rewrite Hr in Hr'. injection Hr' as <-. rewrite Hj in Hj'. injection Hj' as <-.
      rewrite Hi. reflexivity.
    + rewrite (H r result Hr Hok Hj). eexists. split; [reflexivity |].
      eexists. reflexivity.
  - intros items. unfold inspectable, json_of_retrieval. cbn.
    induction items as [| item items IH]; [reflexivity |].
    cbn [map forallb]. rewrite json_of_item_loggable. exact IH.
Qed.

(** X21. Whatever the variables and the answer of the service, the diagnostic
    handler never throws and leaves the Topic table as it was. When one of
    its two variables is missing or empty it makes no call and answers the
    failure that names them. Otherwise it makes exactly one call, the POST
    of the query with similarity_top_k 5 and the API key as bearer token to
    the retrieve endpoint of the pipeline of its arguments, and it answers
    the success response built from the parsed body when the answer came
    with a success status and an inspectable JSON body, and a failure
    object in every other case. *)
Theorem diagnostic_handler_total (env : Env) (retrieve : completion (Response value))
    (args : TestQueryLlamaCloud.Arguments) (w : World) :
  let out := TestQueryLlamaCloud.handler env retrieve args w in
  let apiKey := process_env env !! "LLAMA_CLOUD_API_KEY" in
  let organizationId := process_env env !! "LLAMA_CLOUD_ORGANIZATION_ID" in
  table (snd out) = table w /\
  if truthy_opt_string apiKey && truthy_opt_string organizationId
  then
    calls (snd out)
    = (calls w ++ [CallFetch (test_query_request (default "" apiKey) args)])%list /\
    match inspected retrieve with
    | Some result => fst out = Normal (test_query_response args result)
    | None => exists v, fst out = Normal v /\ is_failure v
    end
  else
    out = (Normal (TestQueryLlamaCloud.failure
                     "Missing LLAMA_CLOUD_API_KEY or LLAMA_CLOUD_ORGANIZATION_ID"), w).
Proof.
  intros out apiKey organizationId. subst out apiKey organizationId.
  unfold TestQueryLlamaCloud.handler. cbv zeta.
  destruct (truthy_opt_string (process_env env !! "LLAMA_CLOUD_API_KEY")),
    (truthy_opt_string (process_env env !! "LLAMA_CLOUD_ORGANIZATION_ID"));
    cbn [negb orb andb]; try (split; reflexivity).
  unfold try_catch.
  destruct (test_query_try_block env retrieve args
              (default "" (process_env env !! "LLAMA_CLOUD_API_KEY")) w)
    as ([v | e] & -> & H); cbn [fst snd table calls record_call ret].
  - split; [reflexivity |]. split; [reflexivity |].
    destruct H as (r & result & -> & Hok & Hj & Hi & ->).
    unfold inspected, answered. rewrite Hok, Hj, Hi. reflexivity.
  - split; [reflexivity |]. split; [reflexivity |].
    assert (Hnone : inspected retrieve = None).
    { unfold inspected, answered. destruct retrieve as [r | e']; [| reflexivity].
      destruct (ok r) eqn:Hok; [| reflexivity].
      destruct (body_json r) as [result | e'] eqn:Hj; [| reflexivity].
      rewrite (H r result eq_refl Hok Hj). reflexivity. }
    rewrite Hnone. eexists. split; [reflexivity |]. eexists. reflexivity.
Qed.

(** ** Who gets past the middleware and the group checks *)

Lemma existsb_omap_string (name : string) (groups : list value) :
  existsb (String.eqb name)
    (omap (fun group => match group with VString s => Some s | _ => None end) groups)
  = includes name groups.
Proof.
  unfold includes. induction groups as [| v groups IH]; [reflexivity |].
  destruct v; cbn; try exact IH. rewrite IH, (String.eqb_sym name s). reflexivity.
Qed.

Lemma checkIsAdmin_in_group (session : completion Auth.AuthSession) :
  AmplifyUtils.checkIsAdmin session = in_group "ADMIN" session.
Proof.
  unfold AmplifyUtils.checkIsAdmin, AmplifyUtils.getUserGroups, in_group.
  destruct session as [session | e]; [| reflexivity].
  destruct (Auth.tokens session) as [tokens |]; [| reflexivity].
  destruct (Auth.cognito_groups tokens); try reflexivity.
  apply existsb_omap_string.
Qed.

Lemma in_group_signed_in (name : string) (session : completion Auth.AuthSession) :
  in_group name session = true -> signed_in session = true.
Proof.
  unfold in_group, signed_in. destruct session as [session | e]; [| discriminate].
  destruct (Auth.tokens session); [reflexivity | discriminate].
Qed.

(** X22. The group checks agree: for every outcome of the session, checkIsAdmin,
    checkCanAccessAdminRoutes, checkCanAccessAuthRoutes,
    isUserInGroup('ADMIN') and the check of the admin link give the same
    answer, which is whether the session resolved with tokens whose
    cognito:groups claim is an array that holds the string ADMIN. A session
    check that throws, a session without tokens and a claim that is not an
    array all count as no. In particular the check named for the /auth
    routes asks for ADMIN. *)
Theorem admin_checks_agree (session : completion Auth.AuthSession) :
  AmplifyUtils.checkIsAdmin session = in_group "ADMIN" session /\
  AmplifyUtils.checkCanAccessAdminRoutes session = in_group "ADMIN" session /\
  AmplifyUtils.checkCanAccessAuthRoutes session = in_group "ADMIN" session /\
  AmplifyUtils.isUserInGroup "ADMIN" session = in_group "ADMIN" session /\
  AdminNavLink.checkAdminStatus session = in_group "ADMIN" session.
Proof.
  pose proof (checkIsAdmin_in_group session) as H1.
  assert (H3 : AmplifyUtils.checkCanAccessAuthRoutes session = in_group "ADMIN" session).
  { rewrite <- H1. unfold AmplifyUtils.checkCanAccessAuthRoutes, AmplifyUtils.checkIsAdmin.
    induction (AmplifyUtils.getUserGroups session) as [| g gs IH]; [reflexivity |].
    cbn [existsb] in *. rewrite IH, orb_false_r, (String.eqb_sym g "ADMIN"). reflexivity. }
  assert (H4 : AmplifyUtils.isUserInGroup "ADMIN" session = in_group "ADMIN" session).
  { unfold AmplifyUtils.isUserInGroup, in_group, includes.
    destruct session as [session | e]; [| reflexivity].
    destruct (Auth.tokens session) as [tokens |]; [| reflexivity].
    destruct (Auth.cognito_groups tokens) as [| | b | n | s | groups | props];
      cbn [truthy]; try reflexivity.
    - destruct b; reflexivity.
    - destruct (truthy_number n); reflexivity.
    - destruct s; reflexivity. }
  split; [exact H1 |]. split; [exact H1 |]. split; [exact H3 |]. split; exact H4.
Qed.

(** X23. What the middleware answers, for every session and path: a request
    without a session, or whose session check throws, is redirected to
    /login with the path as its redirect parameter; a signed-in request for
    a path that starts with /admin whose access token does not list the
    group ADMIN is redirected to /auth/home; every other request goes
    through. So a request goes through exactly when the session is signed in
    and, for an /admin path, lists ADMIN. The check of the admin page
    redirects, to /auth/home, exactly when the session does not list ADMIN:
    a request that the middleware lets through to an /admin path passes the
    page's check too. *)
Theorem middleware_admits (session : completion Auth.AuthSession) (pathname : string) :
  Middleware.middleware session pathname
  = (if signed_in session
     then if String.prefix "/admin" pathname && negb (in_group "ADMIN" session)
          then Middleware.redirect "/auth/home" []
          else Middleware.next
     else Middleware.redirect "/login" [("redirect", pathname)]) /\
  (Middleware.middleware session pathname = Middleware.next <->
   signed_in session = true /\
   (String.prefix "/admin" pathname = true -> in_group "ADMIN" session = true)) /\
  MaintainTopicPage.authorization session
  = (if in_group "ADMIN" session then None else Some "/auth/home") /\
  (String.prefix "/admin" pathname = true ->
   Middleware.middleware session pathname = Middleware.next ->
   MaintainTopicPage.authorization session = None).
Proof.
  assert (Hd : Middleware.middleware session pathname
               = if signed_in session
                 then if String.prefix "/admin" pathname && negb (in_group "ADMIN" session)
                      then Middleware.redirect "/auth/home" []
                      else Middleware.next
                 else Middleware.redirect "/login" [("redirect", pathname)]).
  { unfold Middleware.middleware, Middleware.operation, signed_in, in_group, includes.
    destruct session as [session | e]; [| reflexivity].
    destruct (Auth.tokens session) as [tokens |]; [| reflexivity].
    cbn [is_some negb]. destruct (Auth.cognito_groups tokens); reflexivity. }
  assert (Hp : MaintainTopicPage.authorization session
               = if in_group "ADMIN" session then None else Some "/auth/home").
  { unfold MaintainTopicPage.authorization. cbv zeta. rewrite checkIsAdmin_in_group.
    destruct (in_group "ADMIN" session); reflexivity. }
  split; [exact Hd |]. split; [| split; [exact Hp |]]; rewrite Hd; [| rewrite Hp].
  - destruct (signed_in session), (String.prefix "/admin" pathname),
      (in_group "ADMIN" session); cbn [negb andb];
      intuition (try discriminate; try congruence).
  - intros Ha. rewrite Ha.
    destruct (signed_in session), (in_group "ADMIN" session); cbn [negb andb];
      intros H; first [reflexivity | discriminate H].
Qed.

(** ** The User record of a signed-in user *)

(** The user schema changes nothing in the data it accepts. *)
Lemma UserSchema_safeParse_data (is_email : string -> bool)
    (input validated : FormSchema.UserFormData) :
  FormSchema.UserSchema_safeParse is_email input = Zod.SafeParseSuccess validated ->
  validated = input.
Proof.
  unfold FormSchema.UserSchema_safeParse. cbn [Zod.string_].
  destruct (_ ++ _)%list; cbn [Zod.object_]; [| discriminate].
  intros [= <-]. destruct input. reflexivity.
Qed.

Lemma has_user_filter (email : string) (users : UserActions.Users) :
  has_user email users <->
  (0 <? List.length
          (filter (fun user => FormSchema.email (UserActions.data user) = email) users))%nat
  = true.
Proof.
  rewrite Nat.ltb_lt. split.
  - intros (user & Hin & He).
    assert (Hf : user ∈ filter (fun user => FormSchema.email (UserActions.data user) = email)
                   users).
    { apply list_elem_of_filter. split; [exact He | apply list_elem_of_In, Hin]. }
    destruct (filter _ users); [inversion Hf | cbn; lia].
  - intros Hl.
    destruct (filter (fun user => FormSchema.email (UserActions.data user) = email) users)
      as [| user rest] eqn:Ef; [cbn in Hl; lia |].
    assert (Hf : user ∈ filter (fun user => FormSchema.email (UserActions.data user) = email)
                   users) by (rewrite Ef; left).
    apply list_elem_of_filter in Hf as [He Hin].
    exists user. split; [apply list_elem_of_In, Hin | exact He].
Qed.

(** A call that finds the email in the table creates nothing. *)
Lemma createUserFromCognito_existing (env : UserActions.Server)
    (userData : FormSchema.UserFormData) (users : UserActions.Users) :
  (exists validated,
      FormSchema.UserSchema_safeParse (UserActions.is_email env) userData
      = Zod.SafeParseSuccess validated) ->
  UserActions.User_listByEmail env = Normal true ->
  has_user (FormSchema.email userData) users ->
  UserActions.createUserFromCognito env userData users
  = (Normal UserActions.already_exists, users).
Proof.
  intros [validated Hp] Hl Hu.
  pose proof (UserSchema_safeParse_data _ _ _ Hp) as ->.
  unfold UserActions.createUserFromCognito, try_catch. rewrite Hp.
  unfold bind, UserActions.models_User_listByEmail. rewrite Hl.
  apply has_user_filter in Hu. rewrite Hu. reflexivity.
Qed.

(** A call that answers success leaves a record with the email. *)
Lemma createUserFromCognito_success (env : UserActions.Server)
    (userData : FormSchema.UserFormData) (users : UserActions.Users) (v : value) :
  fst (UserActions.createUserFromCognito env userData users) = Normal v ->
  get "success" v = VBool true ->
  (exists validated,
      FormSchema.UserSchema_safeParse (UserActions.is_email env) userData
      = Zod.SafeParseSuccess validated) /\
  has_user (FormSchema.email userData)
    (snd (UserActions.createUserFromCognito env userData users)).
Proof.
  unfold UserActions.createUserFromCognito, try_catch.
  destruct (FormSchema.UserSchema_safeParse (UserActions.is_email env) userData)
    as [validated | issues] eqn:Hp.
  2: { cbn. intros [= <-]. discriminate. }
  pose proof (UserSchema_safeParse_data _ _ _ Hp) as ->.
  unfold bind, UserActions.models_User_listByEmail, UserActions.models_User_create, ret.
  intros Hv Hs. split; [eexists; reflexivity |]. revert Hv Hs.
  destruct (UserActions.User_listByEmail env) as [[|] | e];
    [| | cbn; intros [= <-]; discriminate].
  - destruct (0 <? _)%nat eqn:Hl; [intros _ _; apply has_user_filter, Hl |].
    destruct (UserActions.User_create env) as [[[[new_id now] |] errors] | e];
      [| destruct errors as [[|] |]; cbn; intros [= <-]; discriminate
       | cbn; intros [= <-]; discriminate].
    destruct (existsb _ users);
      [destruct errors as [[|] |]; cbn; intros [= <-]; discriminate |].
    destruct errors as [[|] |]; cbn [fst snd]; try (intros [= <-]; discriminate);
      intros _ _; eexists; (split; [apply in_or_app; right; left; reflexivity | reflexivity]).
  - destruct (UserActions.User_create env) as [[[[new_id now] |] errors] | e];
      [| destruct errors as [[|] |]; cbn; intros [= <-]; discriminate
       | cbn; intros [= <-]; discriminate].
    destruct (existsb _ users);
      [destruct errors as [[|] |]; cbn; intros [= <-]; discriminate |].
    destruct errors as [[|] |]; cbn [fst snd]; try (intros [= <-]; discriminate);
      intros _ _; eexists; (split; [apply in_or_app; right; left; reflexivity | reflexivity]).
Qed.

Lemma createUserFromCognito_twice (first second : UserActions.Server)
    (userData : FormSchema.UserFormData) (users : UserActions.Users) (v : value) :
  fst (UserActions.createUserFromCognito first userData users) = Normal v ->
  get "success" v = VBool true ->
  UserActions.is_email second = UserActions.is_email first ->
  UserActions.User_listByEmail second = Normal true ->
  UserActions.createUserFromCognito second userData
    (snd (UserActions.createUserFromCognito first userData users))
  = (Normal UserActions.already_exists,
     snd (UserActions.createUserFromCognito first userData users)).
Proof.
  intros Hv Hs He Hl.
  destruct (createUserFromCognito_success first userData users v Hv Hs) as [Hp Hu].
  apply createUserFromCognito_existing; [rewrite He; exact Hp | exact Hl | exact Hu].
Qed.

(** X24. Signing in twice creates one record: after a call of
    ensureUserRecordExists that answered success, a second call for the same
    user attributes, on a server whose lookup by email answers, finds the
    record, answers that the User record already exists and leaves the table
    as the first call left it. The same holds of createUserFromCognito called
    twice with the same data. *)
Theorem ensureUserRecordExists_idempotent (first second : UserActions.Server)
    (users : UserActions.Users) (v : value) :
  fst (UserActions.ensureUserRecordExists first users) = Normal v ->
  get "success" v = VBool true ->
  UserActions.fetchUserAttributes second = UserActions.fetchUserAttributes first ->
  UserActions.is_email second = UserActions.is_email first ->
  UserActions.User_listByEmail second = Normal true ->
  let users' := snd (UserActions.ensureUserRecordExists first users) in
  UserActions.ensureUserRecordExists second users'
  = (Normal (VObject [("success", VBool true); ("error", VNull);
                      ("message", VString "User record already exists")]),
     users') /\
  (forall userData v',
      fst (UserActions.createUserFromCognito first userData users) = Normal v' ->
      get "success" v' = VBool true ->
      UserActions.createUserFromCognito second userData
        (snd (UserActions.createUserFromCognito first userData users))
      = (Normal (VObject [("success", VBool true); ("error", VNull);
                          ("message", VString "User record already exists")]),
         snd (UserActions.createUserFromCognito first userData users))).
Proof.
  intros Hv Hs Ha He Hl users'. split.
  - subst users'. revert Hv. unfold UserActions.ensureUserRecordExists, try_catch, bind, await.
    rewrite Ha.
    destruct (UserActions.fetchUserAttributes first) as [attributes | e];
      [| cbn; intros [= <-]; cbn in Hs; discriminate Hs].
    destruct (negb _ || negb _ || negb _);
      [cbn; intros [= <-]; cbn in Hs; discriminate Hs |].
    set (userData := {| FormSchema.givenName := _ |}).
    intros Hv.
    assert (Hv' : fst (UserActions.createUserFromCognito first userData users) = Normal v).
    { destruct (UserActions.createUserFromCognito first userData users) as [[v0 | e0] u0];
        [exact Hv | cbn in Hv; injection Hv as <-; cbn in Hs; discriminate Hs]. }
    pose proof (createUserFromCognito_twice first second userData users v Hv' Hs He Hl) as H2.
    destruct (UserActions.createUserFromCognito first userData users) as [[v0 | e0] u0];
      [| discriminate Hv'].
    cbn [fst snd] in *. rewrite H2. reflexivity.
  - intros userData v' Hv' Hs'.
    exact (createUserFromCognito_twice first second userData users v' Hv' Hs' He Hl).
Qed.

(** X25. Whatever the server does, the action never throws, keeps every record
    of the table in place and adds at most one, with the data it was given
    (an empty phone number stored as none) and only after the data passed
    the schema and no record with the email was found. *)
Theorem createUserFromCognito_adds_at_most_one (env : UserActions.Server)
    (userData : FormSchema.UserFormData) (users : UserActions.Users) :
  let out := UserActions.createUserFromCognito env userData users in
  (exists v, fst out = Normal v) /\
  (snd out = users \/
   exists new_id now,
     snd out
     = (users ++
        [{| UserActions.id := new_id;
            UserActions.data :=
              {| FormSchema.givenName := FormSchema.givenName userData;
                 FormSchema.familyName := FormSchema.familyName userData;
                 FormSchema.email := FormSchema.email userData;
                 FormSchema.phoneNumber :=
                   if truthy_opt_string (FormSchema.phoneNumber userData)
                   then FormSchema.phoneNumber userData else None |};
            UserActions.createdAt := now |}])%list /\
     (forall user, In user users -> UserActions.id user <> new_id) /\
     (UserActions.User_listByEmail env = Normal true ->
      ~ has_user (FormSchema.email userData) users) /\
     1 <= String.length (FormSchema.givenName userData) /\
     1 <= String.length (FormSchema.familyName userData) /\
     UserActions.is_email env (FormSchema.email userData) = true).
Proof.
  intros out. subst out. unfold UserActions.createUserFromCognito, try_catch.
  destruct (FormSchema.UserSchema_safeParse (UserActions.is_email env) userData)
    as [validated | issues] eqn:Hp.
  2: { split; [eexists; reflexivity | left; reflexivity]. }
  pose proof (UserSchema_safeParse_data _ _ _ Hp) as ->.
  assert (Hvalid : 1 <= String.length (FormSchema.givenName userData) /\
                   1 <= String.length (FormSchema.familyName userData) /\
                   UserActions.is_email env (FormSchema.email userData) = true).
  { revert Hp. unfold FormSchema.UserSchema_safeParse. cbn [Zod.string_].
    destruct (Nat.ltb_spec (String.length (FormSchema.givenName userData)) 1);
      [discriminate |].
    destruct (Nat.ltb_spec (String.length (FormSchema.familyName userData)) 1);
      [discriminate |].
    destruct (UserActions.is_email env (FormSchema.email userData)); [| discriminate].
    intros _. repeat split; assumption. }
  unfold bind, UserActions.models_User_listByEmail, UserActions.models_User_create, ret.
  destruct (UserActions.User_listByEmail env) as [[|] | e] eqn:Hl;
    [| | split; [eexists; reflexivity | left; reflexivity]].
  - destruct (0 <? _)%nat eqn:Hf; [split; [eexists; reflexivity | left; reflexivity] |].
    destruct (UserActions.User_create env) as [[[[new_id now] |] errors] | e];
      [| destruct errors as [[|] |]; (split; [eexists; reflexivity | left; reflexivity])
       | split; [eexists; reflexivity | left; reflexivity]].
    destruct (existsb _ users) eqn:Hid;
      [destruct errors as [[|] |]; (split; [eexists; reflexivity | left; reflexivity]) |].
    assert (Hnew : forall user, In user users -> UserActions.id user <> new_id).
    { intros user Hin Heq.
      assert (Hex : existsb (fun user => String.eqb (UserActions.id user) new_id) users
                    = true).
      { apply existsb_exists. exists user. split; [exact Hin |]. apply String.eqb_eq, Heq. }
      congruence. }
    assert (Hno : ~ has_user (FormSchema.email userData) users).
    { intros Hu. apply has_user_filter in Hu. congruence. }
    destruct errors as [[|] |];
      (split; [eexists; reflexivity |]); right; exists new_id, now;
      (split; [reflexivity |]); (split; [exact Hnew |]); (split; [intros _; exact Hno |]);
      exact Hvalid.
  - destruct (UserActions.User_create env) as [[[[new_id now] |] errors] | e];
      [| destruct errors as [[|] |]; (split; [eexists; reflexivity | left; reflexivity])
       | split; [eexists; reflexivity | left; reflexivity]].
    destruct (existsb _ users) eqn:Hid;
      [destruct errors as [[|] |]; (split; [eexists; reflexivity | left; reflexivity]) |].
    assert (Hnew : forall user, In user users -> UserActions.id user <> new_id).
    { intros user Hin Heq.
      assert (Hex : existsb (fun user => String.eqb (UserActions.id user) new_id) users
                    = true).
      { apply existsb_exists. exists user. split; [exact Hin |]. apply String.eqb_eq, Heq. }
      congruence. }
    destruct errors as [[|] |];
      (split; [eexists; reflexivity |]); right; exists new_id, now;
      (split; [reflexivity |]); (split; [exact Hnew |]); (split; [discriminate |]);
      exact Hvalid.
Qed.

(** ** The file picker and the schema *)

(** X19. A file that the picker selects is never refused by the upload schema
    for its size or its type: with a title of 1 to 200 characters, a
    description of 1 to 1000 and a file name that is not empty, the form
    that carries it is acceptable. The picker and the schema use the same
    bound, 10 MB included, and the same type. *)
Theorem selected_file_passes_schema (file : File.File) (title description : string) :
  TopicUploadForm.onDrop [file] = TopicUploadForm.Selected file ->
  1 <= String.length title <= 200 ->
  1 <= String.length description <= 1000 ->
  1 <= String.length (File.name file) ->
  acceptable {| SaveTopicDocument.title := title;
                SaveTopicDocument.description := description;
                SaveTopicDocument.file := Some file |} = true.
Proof.
  unfold TopicUploadForm.onDrop, acceptable, valid_upload.
  cbn [SaveTopicDocument.file upload_input FormSchema.title FormSchema.description
       FormSchema.fileName FormSchema.fileSize FormSchema.fileType
       SaveTopicDocument.title SaveTopicDocument.description].
  change (10 * 1024 * 1024)%Z with 10485760%Z.
  destruct (Z.ltb_spec 10485760 (File.size file)) as [| Hsize]; [discriminate |].
  destruct (String.eqb_spec (File.type file) "application/pdf") as [Htype |];
    [| discriminate].
  intros _ Ht Hd Hn.
  rewrite !andb_true_iff, !Nat.leb_le, Z.leb_le. repeat split; lia.
Qed.

(** ** The password of the sign-up form *)

Lemma validatePassword_strong (password : string) :
  PasswordValidation.isValid (PasswordValidation.validatePassword password)
  = strong password /\
  (strong password = true ->
   PasswordValidation.error (PasswordValidation.validatePassword password) = None) /\
  (strong password = false ->
   exists e,
     PasswordValidation.error (PasswordValidation.validatePassword password) = Some e /\
     truthy_string e = true).
Proof.
  unfold PasswordValidation.validatePassword, strong.
  rewrite (Nat.leb_antisym (String.length password) 8).
  destruct (String.length password <? 8)%nat; cbn [negb andb];
    [split; [reflexivity | split; [discriminate | intros _; eexists; split; reflexivity]] |].
  destruct (any_char is_upper password); cbn [negb andb];
    [| split; [reflexivity | split; [discriminate | intros _; eexists; split; reflexivity]]].
  destruct (any_char is_lower password); cbn [negb andb];
    [| split; [reflexivity | split; [discriminate | intros _; eexists; split; reflexivity]]].
  destruct (any_char is_digit password); cbn [negb andb];
    [| split; [reflexivity | split; [discriminate | intros _; eexists; split; reflexivity]]].
  destruct (any_char _ password); cbn [negb andb];
    [| split; [reflexivity | split; [discriminate | intros _; eexists; split; reflexivity]]].
  split; [reflexivity | split; [reflexivity | discriminate]].
Qed.

(** X26. The sign-up form shows no password error exactly when the password is
    empty, or it meets the five requirements (at least 8 characters, an
    upper-case letter, a lower-case letter, a digit, and a character that is
    none of these) and the confirmation is empty or equal to it. The form
    asks for 8 characters where the user pool asks for 12: every password of
    8 to 11 characters that meets the requirements passes the form and is
    shorter than the minimum length of the pool. *)
Theorem signup_password_error (password confirmPassword : string) :
  (SignupForm.passwordError password confirmPassword = "" <->
   password = "" \/
   (strong password = true /\ (confirmPassword = "" \/ confirmPassword = password))) /\
  (strong password = true -> String.length password < 12 ->
   SignupForm.passwordError password password = "" /\
   String.length password < Backend.minimumLength Backend.passwordPolicy).
Proof.
  destruct (validatePassword_strong password) as (Hv & Hnone & Hsome).
  assert (Hmatch : forall confirm,
             SignupForm.error_or_empty
               (PasswordValidation.validatePasswordMatch password confirm) = ""
             <-> confirm = password).
  { intros confirm. unfold PasswordValidation.validatePasswordMatch.
    destruct (String.eqb_spec password confirm) as [-> | Hne]; cbn.
    - split; reflexivity.
    - split; [discriminate | intros ->; contradiction]. }
  split.
  - unfold SignupForm.passwordError. cbv zeta.
    destruct password as [| c password]; cbn [truthy_string negb];
      [split; [left; reflexivity | reflexivity] |].
    rewrite Hv. destruct (strong (String c password)) eqn:Es; cbn [negb].
    + destruct confirmPassword as [| c' confirm]; cbn [truthy_string].
      * split; [intros _; right; split; [reflexivity | left; reflexivity] | reflexivity].
      * rewrite Hmatch. split.
        -- intros H. right. split; [reflexivity | right; exact H].
        -- intros [H | [_ [H | H]]]; [discriminate H | discriminate H | exact H].
    + destruct (Hsome eq_refl) as (e & He & Hte). unfold SignupForm.error_or_empty.
      rewrite He. split.
      * intros ->. discriminate Hte.
      * intros [H | [H _]]; discriminate H.
  - intros Hs Hlen. split; [| exact Hlen].
    unfold SignupForm.passwordError. cbv zeta.
    destruct password as [| c password]; [reflexivity |]. cbn [truthy_string negb].
    rewrite Hv, Hs. cbn [negb]. apply Hmatch. reflexivity.
Qed.

(** ** The diagnostic handler and the User record on the scenarios *)

(** An answer whose first passage has the node's fields side by side and
    whose second has the declared shape: the diagnostic handler reports two
    nodes, where the query handler fails on the first. *)
Lemma diagnostic_handler_inspects_witness :
  test_query_configured DiagnosticScenario.env /\
  fst (TestQueryLlamaCloud.handler DiagnosticScenario.env
         (Scenario.answers 200 "" (Normal DiagnosticScenario.both_shapes))
         DiagnosticScenario.ask (start_of ∅))
  = Normal (test_query_response DiagnosticScenario.ask DiagnosticScenario.both_shapes).
Proof.
  assert (Hc : test_query_configured DiagnosticScenario.env).
  { split; vm_compute; reflexivity. }
  split; [exact Hc |].
  exact (proj1 (diagnostic_handler_inspects DiagnosticScenario.env
                  (Scenario.answers 200 "" (Normal DiagnosticScenario.both_shapes))
                  DiagnosticScenario.ask (start_of ∅)
                  {| status := 200; body_text := Normal "";
                     body_json := Normal DiagnosticScenario.both_shapes |}
                  DiagnosticScenario.both_shapes Hc eq_refl eq_refl eq_refl)).
Defined.

Example diagnostic_counts_both_shapes :
  get "nodeCount"
    (get "responseStructure"
       (test_query_response DiagnosticScenario.ask DiagnosticScenario.both_shapes))
  = VNumber 2%float.
Proof. vm_compute. reflexivity. Qed.

(** The first login creates the record; the second finds it. *)
Lemma ensureUserRecordExists_idempotent_witness :
  get "success"
    (match fst (UserActions.ensureUserRecordExists UserScenario.first_login []) with
     | Normal v => v
     | Throw _ => VUndefined
     end) = VBool true /\
  List.length (snd (UserActions.ensureUserRecordExists UserScenario.first_login [])) = 1 /\
  UserActions.ensureUserRecordExists UserScenario.second_login
    (snd (UserActions.ensureUserRecordExists UserScenario.first_login []))
  = (Normal (VObject [("success", VBool true); ("error", VNull);
                      ("message", VString "User record already exists")]),
     snd (UserActions.ensureUserRecordExists UserScenario.first_login [])).
Proof.
  split; [vm_compute; reflexivity |]. split; [vm_compute; reflexivity |].
  refine (proj1 (ensureUserRecordExists_idempotent UserScenario.first_login
                   UserScenario.second_login [] _ _ _ eq_refl eq_refl eq_refl)).
  - vm_compute. reflexivity.
  - reflexivity.
Defined.

(** A PDF of exactly 10 MB is selected and accepted. *)
Lemma selected_file_passes_schema_witness :
  TopicUploadForm.onDrop
    [{| File.name := "jcq.pdf"; File.size := 10485760; File.type := "application/pdf";
        File.arrayBuffer := Normal [] |}]
  = TopicUploadForm.Selected
      {| File.name := "jcq.pdf"; File.size := 10485760; File.type := "application/pdf";
         File.arrayBuffer := Normal [] |} /\
  acceptable
    {| SaveTopicDocument.title := "JCQ";
       SaveTopicDocument.description := "Guidance";
       SaveTopicDocument.file :=
         Some {| File.name := "jcq.pdf"; File.size := 10485760;
                 File.type := "application/pdf"; File.arrayBuffer := Normal [] |} |}
  = true.
Proof.
  split; [reflexivity |].
  apply selected_file_passes_schema; [reflexivity | cbn; lia | cbn; lia | cbn; lia].
Defined.
